(** * Verification of the [httpx] transport client of the bb command-line tool

    The development embeds [pkg/httpx/client.go] shallowly: request
    construction ([NewRequest], [NewMultipartRequest]), the retry loop
    ([DoWithHeaders]) with its backoff, the ETag cache, the rate-limit
    bookkeeping and the error decoder.  Go's 64-bit integers are [Z] with
    the wrap-around written out, byte strings are [string], the response
    cache is a [gmap] keyed by strings, and everything the client reads from
    its environment (the network, the clock, the caller's context) is an
    explicit argument or a component of the threaded [World].

    On top of the transport sits the Bitbucket Cloud client of
    [pkg/bbcloud]: its constructor, the calls [Get], [GetWithHeaders],
    [Post], [Put] and [Delete], the argument checks, [GetPRDiff] and the
    paginated [ListRepositories]. *)

From Stdlib Require Import ZArith String Ascii Bool List Lia DecimalString.
From stdpp Require Import base option gmap strings list.

Local Open Scope Z_scope.

(* ===================================================================== *)
(** ** Go's [strings] package, on byte strings *)
(* ===================================================================== *)

Module strings.

(** [strings.HasPrefix(s, prefix)] *)
Fixpoint HasPrefix (s pre : string) {struct pre} : bool :=
  match pre with
  | EmptyString => true
  | String a pre' =>
      match s with
      | EmptyString => false
      | String b s' => Ascii.eqb a b && HasPrefix s' pre'
      end
  end.

(** [strings.TrimSuffix(s, suffix)]: [s] without the trailing [suffix], or
    [s] itself when it does not end with it. *)
Fixpoint TrimSuffix (s suf : string) : string :=
  if String.eqb s suf then EmptyString
  else match s with
       | EmptyString => EmptyString
       | String c r => String c (TrimSuffix r suf)
       end.

(** [strings.Contains(s, substr)] *)
Fixpoint Contains (s sub : string) : bool :=
  HasPrefix s sub ||
  match s with
  | EmptyString => false
  | String _ r => Contains r sub
  end.

Definition lower_byte (c : ascii) : ascii :=
  let n := nat_of_ascii c in
  if (Nat.leb 65 n && Nat.leb n 90)%bool then ascii_of_nat (n + 32) else c.

(** [strings.ToLower(s)] on ASCII letters; bytes outside ['A'..'Z'] are
    kept (the Unicode case tables of the Go library are not modelled). *)
Fixpoint ToLower (s : string) : string :=
  match s with
  | EmptyString => EmptyString
  | String c r => String (lower_byte c) (ToLower r)
  end.

(** The ASCII white space of [unicode.IsSpace]: tab, line feed, vertical
    tab, form feed, carriage return and space. *)
Definition is_space (c : ascii) : bool :=
  let n := nat_of_ascii c in
  (Nat.leb 9 n && Nat.leb n 13 || Nat.eqb n 32)%bool.

Fixpoint TrimLeft_space (s : string) : string :=
  match s with
  | EmptyString => EmptyString
  | String c r => if is_space c then TrimLeft_space r else s
  end.

Fixpoint TrimRight_space (s : string) : string :=
  match s with
  | EmptyString => EmptyString
  | String c r =>
      match TrimRight_space r with
      | EmptyString => if is_space c then EmptyString else String c EmptyString
      | r' => String c r'
      end
  end.

(** [strings.TrimSpace(s)], for ASCII white space. *)
Definition TrimSpace (s : string) : string :=
  TrimRight_space (TrimLeft_space s).

(** [strings.Cut(s, sep)] for a one-byte separator: the text before the
    first [sep], the text after it, and whether [sep] occurs. *)
Fixpoint Cut (s : string) (sep : ascii) : string * string * bool :=
  match s with
  | EmptyString => (EmptyString, EmptyString, false)
  | String c r =>
      if Ascii.eqb c sep then (EmptyString, r, true)
      else let '(b, a, f) := Cut r sep in (String c b, a, f)
  end.

(** [strings.Count(s, sep)] for a one-byte separator. *)
Fixpoint Count (s : string) (sep : ascii) : nat :=
  match s with
  | EmptyString => O
  | String c r => ((if Ascii.eqb c sep then 1 else 0) + Count r sep)%nat
  end.

(** [strings.HasSuffix(s, suffix)] *)
Fixpoint HasSuffix (s suf : string) : bool :=
  String.eqb s suf ||
  match s with
  | EmptyString => false
  | String _ r => HasSuffix r suf
  end.

End strings.

(* ===================================================================== *)
(** ** Machine integers and [strconv] *)
(* ===================================================================== *)

(** Two's-complement reduction to a signed 64-bit value: what Go's [int],
    [int64] and [time.Duration] arithmetic keeps of a mathematical result. *)
Definition wrap64 (z : Z) : Z := (z + 2 ^ 63) mod 2 ^ 64 - 2 ^ 63.

Definition min_int64 : Z := - 2 ^ 63.
Definition max_int64 : Z := 2 ^ 63 - 1.

Definition in_int64 (z : Z) : bool := (min_int64 <=? z) && (z <=? max_int64).

Module strconv.

Definition digit_of (c : ascii) : option Z :=
  let n := nat_of_ascii c in
  if (Nat.leb 48 n && Nat.leb n 57)%bool then Some (Z.of_nat n - 48) else None.

(** Value of a run of decimal digits, [None] on any other byte. *)
Fixpoint digits (acc : Z) (s : string) : option Z :=
  match s with
  | EmptyString => Some acc
  | String c r =>
      match digit_of c with
      | Some d => digits (acc * 10 + d) r
      | None => None
      end
  end.

(** [strconv.ParseInt(s, 10, 64)]: an optional sign and at least one
    decimal digit; a value outside the 64-bit range is an error (the
    callers in this package look only at the error). *)
Definition ParseInt (s : string) : option Z :=
  let '(neg, body) :=
    match s with
    | String "+" r => (false, r)
    | String "-" r => (true, r)
    | _ => (false, s)
    end in
  match body with
  | EmptyString => None
  | _ =>
      match digits 0 body with
      | Some n => let v := if neg then - n else n in
                  if in_int64 v then Some v else None
      | None => None
      end
  end.

(** [strconv.Atoi(s)] on a 64-bit platform agrees with
    [ParseInt(s, 10, 0)]. *)
Definition Atoi (s : string) : option Z := ParseInt s.

End strconv.

(* ===================================================================== *)
(** ** Time *)
(* ===================================================================== *)

(** [time.Duration]: signed 64-bit nanoseconds. *)
Definition Duration := Z.
Definition Millisecond : Duration := 1000000.
Definition Second : Duration := 1000000000.

(** Product of two durations as Go computes it. *)
Definition dmul (a b : Duration) : Duration := wrap64 (a * b).

(** [1 << k] at type [time.Duration], for a shift count [k >= 0]: the bit
    falls off the top from [k = 64] on, and [k = 63] is the minimum value. *)
Definition shl1 (k : Z) : Duration := wrap64 (Z.shiftl 1 k).

(* ===================================================================== *)
(** ** Errors *)
(* ===================================================================== *)

(** Go [error] values as this package produces and forwards them. *)
Inductive error : Type :=
| Errorf (msg : string)                 (* [fmt.Errorf] / [errors.New] with this text *)
| Wrapf (msg : string) (cause : error)  (* [fmt.Errorf(msg + ": %w", cause)] *)
| Canceled                              (* [context.Canceled] *)
| DeadlineExceeded                      (* [context.DeadlineExceeded] *)
| Foreign (msg : string).               (* an error made by a collaborator: the
                                           transport, a writer, a JSON decoder,
                                           the URL parser *)

(** [errors.Is(err, target)] for the two context errors: follows [%w]. *)
Fixpoint is_context_error (e : error) : bool :=
  match e with
  | Canceled | DeadlineExceeded => true
  | Wrapf _ c => is_context_error c
  | _ => false
  end.

(* ===================================================================== *)
(** ** Go's [net/url], as far as request construction uses it *)
(* ===================================================================== *)

Module url.

Record Userinfo := mkUserinfo {
  username : string;
  password : option string
}.

Record URL := mkURL {
  Scheme : string;
  Opaque : string;
  User : option Userinfo;
  Host : string;
  Path : string;
  RawPath : string;
  OmitHost : bool;
  ForceQuery : bool;
  RawQuery : string;
  Fragment : string;
  RawFragment : string
}.

Definition empty : URL :=
  mkURL "" "" None "" "" "" false false "" "" "".

Definition set_Path (u : URL) (p : string) : URL :=
  mkURL (Scheme u) (Opaque u) (User u) (Host u) p (RawPath u)
        (OmitHost u) (ForceQuery u) (RawQuery u) (Fragment u) (RawFragment u).

Definition set_RawQuery (u : URL) (q : string) : URL :=
  mkURL (Scheme u) (Opaque u) (User u) (Host u) (Path u) (RawPath u)
        (OmitHost u) (ForceQuery u) q (Fragment u) (RawFragment u).

Inductive encoding := encodePath | encodeFragment.

Definition byte_in (c : ascii) (lo hi : nat) : bool :=
  let n := nat_of_ascii c in (Nat.leb lo n && Nat.leb n hi)%bool.

Definition is_alnum (c : ascii) : bool :=
  byte_in c 97 122 || byte_in c 65 90 || byte_in c 48 57.

Definition one_of (c : ascii) (cs : string) : bool :=
  existsb (Ascii.eqb c) (list_ascii_of_string cs).

(** [shouldEscape(c, mode)] for the two modes a parsed reference needs. *)
Definition shouldEscape (c : ascii) (mode : encoding) : bool :=
  if is_alnum c then false
  else if one_of c "-_.~" then false
  else if one_of c "$&+,/:;=?@" then
    match mode with
    | encodePath => Ascii.eqb c "?"
    | encodeFragment => false
    end
  else match mode with
       | encodeFragment => negb (one_of c "!()*")
       | encodePath => true
       end.

Definition ishex (c : ascii) : bool :=
  byte_in c 48 57 || byte_in c 97 102 || byte_in c 65 70.

Definition unhex (c : ascii) : nat :=
  let n := nat_of_ascii c in
  if byte_in c 48 57 then n - 48
  else if byte_in c 97 102 then n - 97 + 10
  else if byte_in c 65 70 then n - 65 + 10
  else 0.

Definition upperhex (n : nat) : ascii :=
  if Nat.ltb n 10 then ascii_of_nat (48 + n) else ascii_of_nat (65 + (n - 10)).

(** [unescape(s, mode)] for the path and fragment modes: every [%] must be
    followed by two hexadecimal digits, and each such triple is replaced
    by the byte it denotes. *)
Fixpoint unescape (s : string) : option string :=
  match s with
  | EmptyString => Some EmptyString
  | String "%" (String a (String b r)) =>
      if ishex a && ishex b then
        match unescape r with
        | Some r' => Some (String (ascii_of_nat (unhex a * 16 + unhex b)) r')
        | None => None
        end
      else None
  | String "%" _ => None
  | String c r =>
      match unescape r with
      | Some r' => Some (String c r')
      | None => None
      end
  end.

(** [escape(s, mode)] for the path and fragment modes. *)
Fixpoint escape (s : string) (mode : encoding) : string :=
  match s with
  | EmptyString => EmptyString
  | String c r =>
      if shouldEscape c mode then
        let n := nat_of_ascii c in
        String "%" (String (upperhex (n / 16)) (String (upperhex (n mod 16))
                                                       (escape r mode)))
      else String c (escape r mode)
  end.

(** [stringContainsCTLByte(s)] *)
Fixpoint stringContainsCTLByte (s : string) : bool :=
  match s with
  | EmptyString => false
  | String c r =>
      let n := nat_of_ascii c in
      Nat.ltb n 32 || Nat.eqb n 127 || stringContainsCTLByte r
  end.

(** [getScheme(rawURL)]: the scheme and the rest, [None] for the error
    missing-protocol-scheme; [first] tells whether the scan is at the first
    byte and [seen] holds the bytes scanned so far, reversed. *)
Fixpoint getScheme_from (first : bool) (seen : string) (s whole : string)
  : option (string * string) :=
  match s with
  | EmptyString => Some (EmptyString, whole)
  | String c r =>
      if byte_in c 97 122 || byte_in c 65 90 then
        getScheme_from false (seen +:+ String c EmptyString) r whole
      else if byte_in c 48 57 || one_of c "+-." then
        if first then Some (EmptyString, whole)
        else getScheme_from false (seen +:+ String c EmptyString) r whole
      else if Ascii.eqb c ":" then
        if first then None else Some (seen, r)
      else Some (EmptyString, whole)
  end.

Definition getScheme (rawURL : string) : option (string * string) :=
  getScheme_from true EmptyString rawURL rawURL.

(** The method [URL.setPath(p)] *)
Definition setPath (u : URL) (p : string) : option URL :=
  match unescape p with
  | None => None
  | Some path =>
      let raw := if String.eqb p (escape path encodePath) then EmptyString else p in
      Some (mkURL (Scheme u) (Opaque u) (User u) (Host u) path raw
                  (OmitHost u) (ForceQuery u) (RawQuery u)
                  (Fragment u) (RawFragment u))
  end.

(** The method [URL.setFragment(f)] *)
Definition setFragment (u : URL) (f : string) : option URL :=
  match unescape f with
  | None => None
  | Some frag =>
      let raw := if String.eqb f (escape frag encodeFragment) then EmptyString else f in
      Some (mkURL (Scheme u) (Opaque u) (User u) (Host u) (Path u) (RawPath u)
                  (OmitHost u) (ForceQuery u) (RawQuery u) frag raw)
  end.

End url.

(* ===================================================================== *)
(** ** Wall-clock time *)
(* ===================================================================== *)

(** [time.Time] as nanoseconds since the Unix epoch.  The zero value of the
    Go type is January 1 of year 1, 00:00:00 UTC. *)
Definition Time := Z.
Definition zero_time : Time := -62135596800 * Second.
Definition IsZero (t : Time) : bool := t =? zero_time.

(** [time.Unix(sec, 0)] *)
Definition time_Unix (sec : Z) : Time := sec * Second.

(** [t.Sub(u)]: the difference, saturated to the range of [Duration]. *)
Definition time_Sub (t u : Time) : Duration :=
  Z.max min_int64 (Z.min max_int64 (t - u)).

(* ===================================================================== *)
(** ** What the Go standard library contributes *)
(* ===================================================================== *)

(** One entry of the error envelope that [decodeError] declares
    ([apiErrEntry]); a field absent from the JSON text is the empty string. *)
Record apiErrEntry := mkEntry {
  Message : string;
  ExceptionName : string
}.

(** The library routines whose inner working the client does not depend
    on.  Every definition and theorem below is parametric in them; the
    scenarios fix one instance, [Plain.lib].
    - [parseAuthority]: net/url's parser of the [user@host:port] part of a
      reference that starts with two slashes, [None] for its errors;
    - [ResolveReference base ref]: RFC 3986 reference resolution;
    - [URL_String]: the method [URL.String];
    - [Unmarshal_apiErr data]: the [Errors] slice that [json.Unmarshal]
      leaves in a zero [apiErr] value, empty when the text is not an
      envelope (the client ignores the decoder's error);
    - [Parse_RFC1123]: [time.Parse(time.RFC1123, _)], [None] for an error;
    - [base64]: [base64.StdEncoding.EncodeToString], used by [SetBasicAuth];
    - [multipart_encode boundary parts]: the bytes a [multipart.Writer] with
      that boundary has written after one [CreateFormFile] and copy per
      [(field, file name, content)] part and the closing [Close]. *)
Class GoLib := {
  base64 : string -> string;
  multipart_encode : string -> list (string * string * string) -> string;
  parseAuthority : string -> option (option url.Userinfo * string);
  ResolveReference : url.URL -> url.URL -> url.URL;
  URL_String : url.URL -> string;
  Unmarshal_apiErr : string -> list apiErrEntry;
  Parse_RFC1123 : string -> option Time
}.

Section URLParse.
Context `{GoLib}.
Import url strings.

Definition url_error (rawURL reason : string) : error :=
  Foreign ("parse " +:+ rawURL +:+ ": " +:+ reason).

(** net/url's [parse(rawURL, false)]: scheme, query, authority and path of
    a reference that has no fragment. *)
Definition url_parse (rawURL : string) : string + URL :=
  if stringContainsCTLByte rawURL then
    inl "net/url: invalid control character in URL"
  else if String.eqb rawURL "*" then inr (set_Path empty "*")
  else
    match getScheme rawURL with
    | None => inl "missing protocol scheme"
    | Some (scheme, rest) =>
        let scheme := ToLower scheme in
        let '(rest, rawq, force) :=
          if HasSuffix rest "?" && Nat.eqb (Count rest "?") 1 then
            (fst (fst (Cut rest "?")), EmptyString, true)
          else
            let '(before, after, _) := Cut rest "?" in (before, after, false) in
        if negb (HasPrefix rest "/") && negb (String.eqb scheme "") then
          inr (mkURL scheme rest None "" "" "" false force rawq "" "")
        else if negb (HasPrefix rest "/")
                && Contains (fst (fst (Cut rest "/"))) ":" then
          inl "first path segment in URL cannot contain colon"
        else if (negb (String.eqb scheme "") || negb (HasPrefix rest "///"))
                && HasPrefix rest "//" then
          let '(authority, after, found) :=
            Cut (String.substring 2 (String.length rest - 2) rest) "/" in
          let rest' := if found then String "/" after else EmptyString in
          match parseAuthority authority with
          | None => inl "invalid authority"
          | Some (user, host) =>
              match setPath (mkURL scheme "" user host "" "" false force rawq "" "")
                            rest' with
              | Some u => inr u
              | None => inl "invalid URL escape"
              end
          end
        else
          let omit := negb (String.eqb scheme "") && HasPrefix rest "/" in
          match setPath (mkURL scheme "" None "" "" "" omit force rawq "" "") rest with
          | Some u => inr u
          | None => inl "invalid URL escape"
          end
    end.

(** [url.Parse(rawURL)] *)
Definition url_Parse (rawURL : string) : error + URL :=
  let '(u, frag, _) := Cut rawURL "#" in
  match url_parse u with
  | inl reason => inl (url_error rawURL reason)
  | inr parsed =>
      if String.eqb frag "" then inr parsed
      else match setFragment parsed frag with
           | Some parsed' => inr parsed'
           | None => inl (url_error rawURL "invalid URL escape")
           end
  end.

End URLParse.

(* ===================================================================== *)
(** ** Go's [net/http]: headers, requests, responses, contexts *)
(* ===================================================================== *)

Module http.

(** [httpguts.IsTokenRune]: the bytes allowed in a method or a header
    field name. *)
Definition IsTokenRune (c : ascii) : bool :=
  url.is_alnum c || url.one_of c "!#$%&'*+-.^_`|~".

Fixpoint all_token (s : string) : bool :=
  match s with
  | EmptyString => true
  | String c r => IsTokenRune c && all_token r
  end.

(** [validMethod(method)] *)
Definition validMethod (method : string) : bool :=
  negb (String.eqb method "") && all_token method.

Definition upper_byte (c : ascii) : ascii :=
  let n := nat_of_ascii c in
  if (Nat.leb 97 n && Nat.leb n 122)%bool then ascii_of_nat (n - 32) else c.

Fixpoint canonical_from (upper : bool) (s : string) : string :=
  match s with
  | EmptyString => EmptyString
  | String c r =>
      String (if upper then upper_byte c else strings.lower_byte c)
             (canonical_from (Ascii.eqb c "-") r)
  end.

(** [http.CanonicalHeaderKey(s)]: the first letter and every letter after
    a hyphen in upper case, the others in lower case; a key holding a byte
    that is not a token byte is returned as it is. *)
Definition CanonicalHeaderKey (s : string) : string :=
  if all_token s then canonical_from true s else s.

(** [http.Header], one value per canonical key. *)
Definition Header := gmap string string.

(** [h.Get(key)]: the value under the canonical form of [key], or the
    empty string. *)
Definition Get (h : Header) (key : string) : string :=
  default EmptyString (h !! CanonicalHeaderKey key).

(** [h.Set(key, value)] *)
Definition Set_ (h : Header) (key value : string) : Header :=
  <[CanonicalHeaderKey key := value]> h.

Definition MethodGet : string := "GET".
Definition StatusNotModified : Z := 304.
Definition StatusTooManyRequests : Z := 429.

(** [context.Context]: the instant at which [Done] is closed, if ever, and
    the error [Err] reports from then on. *)
Record Context := mkContext {
  done_at : option Time;
  done_err : error
}.

Definition Background : Context := mkContext None Canceled.

(** Whether [ctx.Done()] is closed at instant [t]. *)
Definition is_done (ctx : Context) (t : Time) : bool :=
  match done_at ctx with
  | Some d => d <=? t
  | None => false
  end.

(** [*http.Request].  [Body] is the byte string the body reader yields,
    [None] for a nil body; [GetBody] is [None] for a nil function and
    otherwise what calling it returns. *)
Record Request := mkRequest {
  Method : string;
  URL : url.URL;
  ReqHeader : Header;
  Ctx : Context;
  Body : option string;
  GetBody : option (error + string);
  ContentLength : Z
}.

(** [*http.Response].  Reading [RespBody] to the end yields [RespBody]
    and then the error [BodyErr], if any. *)
Record Response := mkResponse {
  StatusCode : Z;
  Status : string;
  RespHeader : Header;
  RespBody : string;
  BodyErr : option error
}.

End http.

(* ===================================================================== *)
(** ** The client: data model *)
(* ===================================================================== *)

Import http.

(** [RetryPolicy] *)
Record RetryPolicy := mkRetryPolicy {
  MaxAttempts : Z;
  InitialBackoff : Duration;
  MaxBackoff : Duration
}.

(** [RateLimit] *)
Record RateLimit := mkRateLimit {
  Limit : Z;
  Remaining : Z;
  Reset : Time;
  Source : string
}.

Definition zero_RateLimit : RateLimit := mkRateLimit 0 0 zero_time "".

(** [cacheEntry] *)
Record cacheEntry := mkCacheEntry {
  etag : string;
  body : string;
  storedAt : Time
}.

(** [Options] *)
Record Options := mkOptions {
  opt_BaseURL : string;
  opt_Username : string;
  opt_Password : string;
  opt_UserAgent : string;
  opt_Timeout : Duration;
  opt_EnableCache : bool;
  opt_Retry : RetryPolicy;
  opt_Debug : bool
}.

(** The fields of [Client] that never change after [New]. *)
Record Client := mkClient {
  baseURL : url.URL;
  username : string;
  password : string;
  userAgent : string;
  timeout : Duration;
  enableCache : bool;
  retry : RetryPolicy;
  debug : bool
}.

(** The fields of [Client] that calls mutate ([cache] under [cacheMu],
    [rate] under [rateMu]), together with what the client reads from and
    leaves in its environment: the wall clock [now] and the requests put on
    the wire so far, oldest first. *)
Record World := mkWorld {
  cache : gmap string cacheEntry;
  rate : RateLimit;
  now : Time;
  sent : list Request
}.

Definition set_cache (w : World) (m : gmap string cacheEntry) : World :=
  mkWorld m (rate w) (now w) (sent w).
Definition set_rate (w : World) (r : RateLimit) : World :=
  mkWorld (cache w) r (now w) (sent w).
Definition set_now (w : World) (t : Time) : World :=
  mkWorld (cache w) (rate w) t (sent w).
Definition add_sent (w : World) (r : Request) : World :=
  mkWorld (cache w) (rate w) (now w) (sent w ++ [r]).

(** The world of a client fresh from [New], at instant [t]. *)
Definition fresh_world (t : Time) : World := mkWorld ∅ zero_RateLimit t [].

(** The [body any] argument of [NewRequest], by what [json.Marshal] makes
    of it. *)
Inductive Payload :=
| NoPayload                       (* [nil] *)
| Marshals (bytes : string)       (* encodes to these bytes *)
| MarshalFails (e : error).       (* [json.Marshal] returns this error *)

(** [MultipartFile]; [Reader] is [None] for a nil reader and otherwise the
    bytes it yields and the error that ends them, if not EOF. *)
Record MultipartFile := mkMultipartFile {
  FieldName : string;
  FileName : string;
  Reader : option (string * option error)
}.

Section Construction.
Context `{GoLib}.
Import strings.

(** [New(opts)]; [env_debug] is the value of the environment variable
    [BB_HTTP_DEBUG]. *)
Definition New (env_debug : string) (opts : Options) : error + Client :=
  if String.eqb (opt_BaseURL opts) "" then inl (Errorf "base URL is required")
  else
    match url_Parse (opt_BaseURL opts) with
    | inl e => inl (Wrapf "parse base URL" e)
    | inr base =>
        if String.eqb (url.Scheme base) "" then
          inl (Errorf "base URL must include scheme (e.g. https)")
        else
          let timeout := if opt_Timeout opts =? 0 then 30 * Second
                         else opt_Timeout opts in
          let policy := opt_Retry opts in
          let policy :=
            mkRetryPolicy
              (if MaxAttempts policy =? 0 then 3 else MaxAttempts policy)
              (if InitialBackoff policy =? 0 then 200 * Millisecond
               else InitialBackoff policy)
              (if MaxBackoff policy =? 0 then 2 * Second
               else MaxBackoff policy) in
          inr (mkClient base
                        (TrimSpace (opt_Username opts))
                        (opt_Password opts)
                        (if negb (String.eqb (opt_UserAgent opts) "")
                         then opt_UserAgent opts else "bb-cli")
                        timeout
                        (opt_EnableCache opts)
                        policy
                        (opt_Debug opts || negb (String.eqb env_debug "")))
    end.

(** The target URL of a request: the statements both [NewRequest] and
    [NewMultipartRequest] open with (they are the same text in the two
    functions), from the blank-path test to [u.RawQuery = rel.RawQuery]. *)
Definition targetURL (c : Client) (path : string) : error + url.URL :=
  if String.eqb (TrimSpace path) "" then inl (Errorf "path is required")
  else
    let absolute := HasPrefix path "http://" || HasPrefix path "https://" in
    let path := if absolute then path
                else if negb (HasPrefix path "/") then String "/" path
                else path in
    match url_Parse path with
    | inl e => inl (Wrapf (if absolute then "parse request URL"
                           else "parse request path") e)
    | inr rel =>
        let rel := if String.eqb (url.Path rel) "" then url.set_Path rel "/"
                   else rel in
        let basePath := url.Path (baseURL c) in
        let u :=
          if HasPrefix path "/" && negb (String.eqb basePath "") then
            if HasPrefix (url.Path rel) basePath then
              url.set_Path (baseURL c) (url.Path rel)
            else
              url.set_Path (baseURL c)
                           (TrimSuffix basePath "/" +:+ url.Path rel)
          else ResolveReference (baseURL c) rel in
        inr (url.set_RawQuery u (url.RawQuery rel))
    end.

(** The headers both constructors set last, and [SetBasicAuth]. *)
Definition standard_headers (c : Client) (h : Header) : Header :=
  let h := Set_ h "Accept" "application/json" in
  let h := Set_ h "User-Agent" (userAgent c) in
  if negb (String.eqb (username c) "") || negb (String.eqb (password c) "") then
    Set_ h "Authorization"
         ("Basic " +:+ base64 (username c +:+ ":" +:+ password c))
  else h.

(** [http.NewRequestWithContext(ctx, method, u.String(), reader)] for a
    nil reader or a [bytes.Reader] over [payload].  The library parses the
    text of [u] again; that parse is taken to give [u] back. *)
Definition NewRequestWithContext (ctx : option Context) (method : string)
           (u : url.URL) (payload : option string) : error + Request :=
  let method := if String.eqb method "" then "GET" else method in
  if negb (validMethod method) then inl (Foreign "net/http: invalid method")
  else
    match ctx with
    | None => inl (Foreign "net/http: nil Context")
    | Some ctx =>
        inr (mkRequest method u ∅ ctx payload
                       (match payload with
                        | Some p => Some (inr p)
                        | None => None
                        end)
                       (match payload with
                        | Some p => Z.of_nat (String.length p)
                        | None => 0
                        end))
    end.

(** [Client.NewRequest(ctx, method, path, body)] *)
Definition NewRequest (c : Client) (ctx : option Context)
           (method path : string) (body : Payload) : error + Request :=
  match targetURL c path with
  | inl e => inl e
  | inr u =>
      match body with
      | MarshalFails e => inl (Wrapf "encode request body" e)
      | _ =>
          let payload := match body with
                         | Marshals p => Some p
                         | _ => None
                         end in
          match NewRequestWithContext ctx method u payload with
          | inl e => inl e
          | inr req =>
              let h := ReqHeader req in
              let h := match body with
                       | NoPayload => h
                       | _ => Set_ h "Content-Type" "application/json"
                       end in
              inr (mkRequest (Method req) (URL req) (standard_headers c h)
                             (Ctx req) (Body req) (GetBody req)
                             (ContentLength req))
          end
      end
  end.

(** The verb [%q] on a name that needs no escape: the name between
    double quotes. *)
Definition quoted (s : string) : string :=
  String (ascii_of_nat 34) (s +:+ String (ascii_of_nat 34) EmptyString).

(** The loop of [NewMultipartRequest] over its files: the parts copied so
    far, or the error of the first file that has no reader or whose reader
    fails. *)
Fixpoint copy_files (files : list MultipartFile)
  : error + list (string * string * string) :=
  match files with
  | [] => inr []
  | f :: rest =>
      match Reader f with
      | None => inl (Errorf ("reader is nil for file " +:+ quoted (FileName f)))
      | Some (_, Some e) => inl (Wrapf "copy file content" e)
      | Some (content, None) =>
          match copy_files rest with
          | inl e => inl e
          | inr parts => inr ((FieldName f, FileName f, content) :: parts)
          end
      end
  end.

(** [Client.NewMultipartRequest(ctx, method, path, files)]; [boundary] is
    the random boundary the [multipart.Writer] draws. *)
Definition NewMultipartRequest (boundary : string) (c : Client)
           (ctx : option Context) (method path : string)
           (files : list MultipartFile) : error + Request :=
  match targetURL c path with
  | inl e => inl e
  | inr u =>
      match files with
      | [] => inl (Errorf "at least one file is required")
      | _ =>
          match copy_files files with
          | inl e => inl e
          | inr parts =>
              let payload := multipart_encode boundary parts in
              match NewRequestWithContext ctx method u (Some payload) with
              | inl e => inl e
              | inr req =>
                  let h := Set_ (ReqHeader req) "Content-Type"
                                ("multipart/form-data; boundary=" +:+ boundary) in
                  inr (mkRequest (Method req) (URL req) (standard_headers c h)
                                 (Ctx req) (Body req) (Some (inr payload))
                                 (Z.of_nat (String.length payload)))
              end
          end
      end
  end.

End Construction.

(* ===================================================================== *)
(** ** The client: transport *)
(* ===================================================================== *)

(** What one call of [httpClient.Do] yields: the time it took and either a
    transport error or a response. *)
Record Exchange := mkExchange {
  took : Duration;
  result : error + Response
}.

(** The network as the client sees it: given the requests sent before and
    the request sent now, the exchange that follows. *)
Definition Transport := list Request -> Request -> Exchange.

(** The caller's [v any]: nil, an [io.Writer] (with the error its [Write]
    returns for given bytes), or any other value (with the error
    [json.Unmarshal] returns when decoding given bytes into it). *)
Inductive Target :=
| TNil
| TWriter (write : string -> option error)
| TValue (unmarshal : string -> option error).

(** What reached the caller's target. *)
Inductive Delivery :=
| Nothing
| Written (bytes : string)
| Decoded (bytes : string).

(** The two results of [DoWithHeaders], and what reached the target. *)
Record Outcome := mkOutcome {
  out_headers : option Header;
  out_err : option error;
  delivered : Delivery
}.

Section TransportCore.
Context `{GoLib}.
Import strings.

(** [isCaptchaException(exceptionName)] *)
Definition isCaptchaException (exceptionName : string) : bool :=
  Contains (ToLower exceptionName) "captcharequired".

(** The [for ... range payload.Errors] loop of [decodeError]: the first
    entry whose classifier names the CAPTCHA lock, else [bestErr]. *)
Fixpoint pick_captcha (bestErr : apiErrEntry) (entries : list apiErrEntry)
  : apiErrEntry :=
  match entries with
  | [] => bestErr
  | e :: rest =>
      if isCaptchaException (ExceptionName e) then e
      else pick_captcha bestErr rest
  end.

(** [decodeError(resp)] *)
Definition decodeError (resp : Response) : error :=
  let data := RespBody resp in
  let read_ok := match BodyErr resp with None => true | Some _ => false end in
  let nonempty := negb (String.eqb data "") in
  let payload := if read_ok && nonempty then Unmarshal_apiErr data else [] in
  match payload with
  | first :: _ =>
      let bestErr := pick_captcha first payload in
      let msg := Message bestErr in
      let msg :=
        if isCaptchaException (ExceptionName bestErr)
           && negb (Contains (ToLower msg) "captcha")
        then "CAPTCHA verification required: " +:+ msg
        else msg in
      Errorf (Status resp +:+ ": " +:+ msg)
  | [] =>
      if read_ok && nonempty then
        Errorf (Status resp +:+ ": " +:+ TrimSpace data)
      else Errorf (Status resp)
  end.

(** [cloneRequest(req)] *)
Definition cloneRequest (req : Request) : error + Request :=
  match Body req with
  | None => inr req
  | Some _ =>
      match GetBody req with
      | None => inl (Errorf "request body cannot be replayed")
      | Some (inl e) => inl e
      | Some (inr b) =>
          inr (mkRequest (Method req) (URL req) (ReqHeader req) (Ctx req)
                         (Some b) (GetBody req) (ContentLength req))
      end
  end.

(** [shouldRetryStatus(code)] *)
Definition shouldRetryStatus (code : Z) : bool :=
  if code =? StatusTooManyRequests then true
  else (500 <=? code) && (code <=? 599).

(** [Client.shouldRetry(attempts, status)] *)
Definition shouldRetry (c : Client) (attempts status : Z) : bool :=
  attempts + 1 <? MaxAttempts (retry c).

(** The delay [Client.backoff] settles on before it waits. *)
Definition backoff_delay (c : Client) (attempts : Z) (resp : option Response)
  : Duration :=
  let delay := InitialBackoff (retry c) in
  let delay := if 1 <? attempts then dmul delay (shl1 (attempts - 1))
               else delay in
  let delay := if MaxBackoff (retry c) <? delay then MaxBackoff (retry c)
               else delay in
  match resp with
  | Some r =>
      let retryAfter := Get (RespHeader r) "Retry-After" in
      if negb (String.eqb retryAfter "") then
        match strconv.Atoi retryAfter with
        | Some secs => dmul secs Second
        | None => delay
        end
      else delay
  | None => delay
  end.

(** [Client.backoff(ctx, attempts, resp)].  The [select] between the
    context and the timer goes to the context when it is done before the
    timer fires; when both fall on the same instant the timer is taken. *)
Definition backoff (c : Client) (ctx : Context) (attempts : Z)
           (resp : option Response) (w : World)
  : bool * option error * World :=
  if MaxAttempts (retry c) <=? attempts then (false, None, w)
  else
    let delay := backoff_delay c attempts resp in
    if delay <=? 0 then
      if is_done ctx (now w) then (false, Some (done_err ctx), w)
      else (true, None, w)
    else
      match done_at ctx with
      | Some d =>
          if d <? now w + delay then
            (false, Some (done_err ctx), set_now w (Z.max (now w) d))
          else (true, None, set_now w (now w + delay))
      | None => (true, None, set_now w (now w + delay))
      end.

(** [Client.cacheKey(req)] *)
Definition cacheKey (req : Request) : string :=
  Method req +:+ " " +:+ URL_String (URL req).

(** [Client.cachedETag(req)] *)
Definition cachedETag (w : World) (req : Request) : string :=
  match cache w !! cacheKey req with
  | Some entry => etag entry
  | None => EmptyString
  end.

(** [Client.storeCache(req, body, etag)] *)
Definition storeCache (w : World) (req : Request) (body etag : string)
  : World :=
  if String.eqb etag "" || String.eqb body "" then w
  else set_cache w (<[cacheKey req := mkCacheEntry etag body (now w)]> (cache w)).

(** [Client.applyCachedResponse(req, v)] *)
Definition applyCachedResponse (w : World) (req : Request) (v : Target)
  : option error * Delivery :=
  match v, cache w !! cacheKey req with
  | TNil, _ => (None, Nothing)
  | _, None =>
      (Some (Errorf ("cached response missing for "
                     +:+ URL_String (URL req))), Nothing)
  | TWriter write, Some entry => (write (body entry), Written (body entry))
  | TValue unmarshal, Some entry =>
      if String.eqb (body entry) "" then (None, Nothing)
      else (unmarshal (body entry), Decoded (body entry))
  end.

(** [Client.RateLimitState()] *)
Definition RateLimitState (w : World) : RateLimit := rate w.

(** The closure [readHeader] of [updateRateLimit]. *)
Definition readHeader (headers : Header) (key : string) : Z :=
  let val := Get headers key in
  if String.eqb val "" then 0
  else match strconv.Atoi val with
       | Some n => n
       | None => 0
       end.

(** The reset instant [updateRateLimit] reads from [X-RateLimit-Reset]. *)
Definition parse_reset (resetHeader : string) : Time :=
  if negb (String.eqb resetHeader "") then
    match strconv.ParseInt resetHeader with
    | Some epoch => if 0 <? epoch then time_Unix epoch else zero_time
    | None =>
        match Parse_RFC1123 resetHeader with
        | Some parsed => parsed
        | None => zero_time
        end
    end
  else zero_time.

(** [Client.updateRateLimit(resp)] *)
Definition updateRateLimit (w : World) (resp : Response) : World :=
  let headers := RespHeader resp in
  let limit := readHeader headers "X-RateLimit-Limit" in
  let remaining := readHeader headers "X-RateLimit-Remaining" in
  let reset := parse_reset (Get headers "X-RateLimit-Reset") in
  let source := if negb (limit =? 0) || negb (remaining =? 0)
                then "bitbucket" else EmptyString in
  let '(limit, remaining, source) :=
    if (limit =? 0) && (remaining =? 0) then
      let limit := readHeader headers "X-Attempt-RateLimit-Limit" in
      let remaining := readHeader headers "X-Attempt-RateLimit-Remaining" in
      let '(limit, remaining) :=
        if (limit =? 0) && (remaining =? 0) then
          (readHeader headers "X-RateLimit-Capacity",
           readHeader headers "X-RateLimit-Available")
        else (limit, remaining) in
      (limit, remaining,
       if negb (limit =? 0) || negb (remaining =? 0) then "atlassian"
       else source)
    else (limit, remaining, source) in
  if (limit =? 0) && (remaining =? 0) then w
  else set_rate w (mkRateLimit limit remaining reset source).

(** [Client.applyAdaptiveThrottle()] *)
Definition applyAdaptiveThrottle (w : World) : World :=
  let rl := rate w in
  if (1 <? Remaining rl) || IsZero (Reset rl) then w
  else
    let sleep := time_Sub (Reset rl) (now w) in
    if sleep <=? 0 then w
    else
      let sleep := if 5 * Second <? sleep then 5 * Second else sleep in
      set_now w (now w + sleep).

End TransportCore.

Section Do.
Context `{GoLib}.
Variable transport : Transport.
Variable c : Client.

(** [c.httpClient.Do(req)]: the request goes on the wire, the clock moves
    by the time the exchange took. *)
Definition httpClient_Do (w : World) (req : Request)
  : (error + Response) * World :=
  let ex := transport (sent w) req in
  (result ex, set_now (add_sent w req) (now w + Z.max 0 (took ex))).

Definition with_header (req : Request) (key value : string) : Request :=
  mkRequest (Method req) (URL req) (Set_ (ReqHeader req) key value)
            (Ctx req) (Body req) (GetBody req) (ContentLength req).

(** The request of one attempt: the clone, with the cached ETag attached
    as [If-None-Match] when the cache is enabled and the method is GET. *)
Definition conditional (w : World) (attemptReq : Request) : Request :=
  if enableCache c && String.eqb (Method attemptReq) MethodGet then
    let etag := cachedETag w attemptReq in
    if negb (String.eqb etag "") then with_header attemptReq "If-None-Match" etag
    else attemptReq
  else attemptReq.

Definition failed (headers : option Header) (e : error) : Outcome :=
  mkOutcome headers (Some e) Nothing.

(** The response the retry branch hands to [decodeError]: its body was
    read to the end there (the read error dropped) and is put back as a
    reader over the bytes read. *)
Definition reread (resp : Response) : Response :=
  mkResponse (StatusCode resp) (Status resp) (RespHeader resp)
             (RespBody resp) None.

(** The part of the loop body of [DoWithHeaders] that handles a response
    with a 2xx status. *)
Definition deliver (w : World) (attemptReq : Request) (resp : Response)
           (v : Target) : Outcome * World :=
  let headers := RespHeader resp in
  let is_get := String.eqb (Method attemptReq) MethodGet in
  match v with
  | TNil =>
      let w := if enableCache c && is_get
               then storeCache w attemptReq EmptyString (Get headers "ETag")
               else w in
      (mkOutcome (Some headers) None Nothing, w)
  | TWriter write =>
      let err := match write (RespBody resp) with
                 | Some e => Some e
                 | None => BodyErr resp
                 end in
      (mkOutcome (Some headers) err (Written (RespBody resp)), w)
  | TValue unmarshal =>
      match BodyErr resp with
      | Some e => (failed (Some headers) e, w)
      | None =>
          let bodyBytes := RespBody resp in
          let w := if enableCache c && is_get
                      && negb (String.eqb (Get headers "ETag") "")
                   then storeCache w attemptReq bodyBytes (Get headers "ETag")
                   else w in
          if String.eqb bodyBytes "" then
            (mkOutcome (Some headers) None Nothing, w)
          else
            (mkOutcome (Some headers) (unmarshal bodyBytes) (Decoded bodyBytes), w)
      end
  end.

(** How one turn of the [for] loop of [DoWithHeaders] ends: with a
    [return], or with a [continue] that carries the new count of attempts. *)
Inductive Step :=
| Return (out : Outcome) (w : World)
| Continue (attempts : Z) (w : World).

(** The retry decision the loop body takes twice, after a transport error
    ([resp] is [None]) and after a response with a retryable status:
    [giveup] is what is returned when no retry is left. *)
Definition retry_or (giveup : Outcome) (req : Request) (attempts : Z)
           (status : Z) (resp : option Response) (w : World) : Step :=
  if negb (shouldRetry c attempts status) then Return giveup w
  else
    let attempts := attempts + 1 in
    match backoff c (Ctx req) attempts resp w with
    | (_, Some waitErr, w) => Return (failed None waitErr) w
    | (false, None, w) => Return giveup w
    | (true, None, w) => Continue attempts w
    end.

(** The body of the [for] loop of [DoWithHeaders], entered with [attempts]
    retries behind it. *)
Definition turn (req : Request) (v : Target) (attempts : Z) (w : World)
  : Step :=
  match cloneRequest req with
  | inl e => Return (failed None e) w
  | inr attemptReq =>
      let attemptReq := conditional w attemptReq in
      let '(res, w) := httpClient_Do w attemptReq in
      match res with
      | inl err => retry_or (failed None err) req attempts 0 None w
      | inr resp =>
          let w := updateRateLimit w resp in
          let w := applyAdaptiveThrottle w in
          if (StatusCode resp =? StatusNotModified) && enableCache c
             && String.eqb (Method attemptReq) MethodGet then
            let '(err, d) := applyCachedResponse w attemptReq v in
            Return (mkOutcome (Some (RespHeader resp)) err d) w
          else if shouldRetryStatus (StatusCode resp) then
            retry_or (failed (Some (RespHeader resp)) (decodeError (reread resp)))
                     req attempts (StatusCode resp) (Some resp) w
          else if (StatusCode resp <? 200) || (300 <=? StatusCode resp) then
            Return (failed (Some (RespHeader resp)) (decodeError resp)) w
          else let '(out, w) := deliver w attemptReq resp v in Return out w
      end
  end.

(** The [for] loop of [DoWithHeaders]: turns until one returns.  [fuel]
    bounds the number of turns after the first, and [None] means it ran
    out. *)
Fixpoint attempt_loop (fuel : nat) (req : Request) (v : Target)
         (attempts : Z) (w : World) : option (Outcome * World) :=
  match turn req v attempts w with
  | Return out w => Some (out, w)
  | Continue attempts w =>
      match fuel with
      | S fuel' => attempt_loop fuel' req v attempts w
      | O => None
      end
  end.

(** Turns the loop can still take after the first: one per retry that
    [shouldRetry] can grant from zero attempts. *)
Definition retry_budget : nat := Z.to_nat (MaxAttempts (retry c) - 1).

(** [Client.DoWithHeaders(req, v)] *)
Definition DoWithHeaders (req : option Request) (v : Target) (w : World)
  : option (Outcome * World) :=
  match req with
  | None => Some (failed None (Errorf "request is nil"), w)
  | Some req => attempt_loop retry_budget req v 0 w
  end.

(** [Client.Do(req, v)] *)
Definition Do (req : option Request) (v : Target) (w : World)
  : option (option error * Delivery * World) :=
  match DoWithHeaders req v w with
  | Some (out, w') => Some (out_err out, delivered out, w')
  | None => None
  end.

End Do.

(* ===================================================================== *)
(** ** One instance of the library routines, for the scenarios *)
(* ===================================================================== *)

(** The instance agrees with the Go library on the inputs the scenarios
    feed it: host names without port or user information, references
    without dot segments, error envelopes in the compact layout that
    [json.Marshal] itself produces, and one HTTP date. *)
Module Plain.
Import url strings.

Fixpoint all_bytes (p : ascii -> bool) (s : string) : bool :=
  match s with
  | EmptyString => true
  | String c r => p c && all_bytes p r
  end.

(** A plain host: letters, digits, hyphens and dots. *)
Definition parseAuthority (authority : string)
  : option (option Userinfo * string) :=
  if all_bytes (fun c => is_alnum c || one_of c "-.") authority
  then Some (None, authority) else None.

(** Resolution of a reference that has a scheme, or a host, or an
    absolute path, none with dot segments. *)
Definition ResolveReference (base ref : URL) : URL :=
  if negb (String.eqb (Scheme ref) "") then ref
  else if negb (String.eqb (Host ref) "") then
    mkURL (Scheme base) (Opaque ref) (User ref) (Host ref) (Path ref)
          (RawPath ref) (OmitHost ref) (ForceQuery ref) (RawQuery ref)
          (Fragment ref) (RawFragment ref)
  else
    mkURL (Scheme base) "" (User base) (Host base) (Path ref) (RawPath ref)
          (OmitHost ref) (ForceQuery ref) (RawQuery ref)
          (Fragment ref) (RawFragment ref).

(** The text of a URL that has a scheme and a plain host. *)
Definition URL_String (u : URL) : string :=
  Scheme u +:+ "://" +:+ Host u +:+ escape (Path u) encodePath
    +:+ (if ForceQuery u || negb (String.eqb (RawQuery u) "")
         then String "?" (RawQuery u) else EmptyString)
    +:+ (if negb (String.eqb (Fragment u) "")
         then String "#" (escape (Fragment u) encodeFragment)
         else EmptyString).

Definition dq : ascii := ascii_of_nat 34.

(** Strips [pre] from the front of [s]. *)
Fixpoint strip (pre s : string) : option string :=
  match pre, s with
  | EmptyString, _ => Some s
  | String a p, String b r => if Ascii.eqb a b then strip p r else None
  | _, EmptyString => None
  end.

(** A JSON string without escapes, from after its opening quote: the
    text up to the closing quote and what follows it. *)
Fixpoint plain_string (s : string) : option (string * string) :=
  match s with
  | EmptyString => None
  | String c r =>
      if Ascii.eqb c dq then Some (EmptyString, r)
      else if Ascii.eqb c "\" then None
      else match plain_string r with
           | Some (t, rest) => Some (String c t, rest)
           | None => None
           end
  end.

Definition key (name : string) : string :=
  String dq (name +:+ String dq ":" +:+ String dq EmptyString).

(** One entry, the message first and the classifier optional. *)
Definition entry (s : string) : option (apiErrEntry * string) :=
  match strip (String "{" (key "message")) s with
  | None => None
  | Some s1 =>
      match plain_string s1 with
      | None => None
      | Some (msg, s2) =>
          match strip (String "," (key "exceptionName")) s2 with
          | Some s3 =>
              match plain_string s3 with
              | Some (exc, s4) =>
                  match strip "}" s4 with
                  | Some s5 => Some (mkEntry msg exc, s5)
                  | None => None
                  end
              | None => None
              end
          | None =>
              match strip "}" s2 with
              | Some s5 => Some (mkEntry msg EmptyString, s5)
              | None => None
              end
          end
      end
  end.

(** The entries of the array, from after its opening bracket to the end
    of the text. *)
Fixpoint entries (fuel : nat) (s : string) : option (list apiErrEntry) :=
  match fuel with
  | O => None
  | S fuel' =>
      match entry s with
      | None => None
      | Some (e, rest) =>
          match strip "," rest with
          | Some rest' =>
              match entries fuel' rest' with
              | Some es => Some (e :: es)
              | None => None
              end
          | None =>
              if String.eqb rest "]}" then Some [e] else None
          end
      end
  end.

(** The envelope decoder for the compact layout; any other text decodes
    to no entries. *)
Definition Unmarshal_apiErr (data : string) : list apiErrEntry :=
  match strip (String "{" (String dq ("errors" +:+ String dq ":["))) data with
  | None => []
  | Some s =>
      if String.eqb s "]}" then []
      else default [] (entries (String.length data) s)
  end.

(** The one date the scenarios use. *)
Definition Parse_RFC1123 (s : string) : option Time :=
  if String.eqb s "Thu, 01 Jan 2026 00:00:00 GMT"
  then Some (time_Unix 1767225600) else None.

Definition b64_alphabet : string :=
  "ABCDEFGHIJKLMNOPQRSTUVWXYZabcdefghijklmnopqrstuvwxyz0123456789+/".

Definition b64_char (n : nat) : ascii :=
  match String.get n b64_alphabet with
  | Some c => c
  | None => "="%char
  end.

(** Standard base64 with padding. *)
Fixpoint base64 (s : string) : string :=
  match s with
  | EmptyString => EmptyString
  | String a EmptyString =>
      let x := nat_of_ascii a in
      String (b64_char (x / 4))
        (String (b64_char (x mod 4 * 16)) "==")
  | String a (String b EmptyString) =>
      let x := nat_of_ascii a in
      let y := nat_of_ascii b in
      String (b64_char (x / 4))
        (String (b64_char (x mod 4 * 16 + y / 16))
           (String (b64_char (y mod 16 * 4)) "="))
  | String a (String b (String d r)) =>
      let x := nat_of_ascii a in
      let y := nat_of_ascii b in
      let z := nat_of_ascii d in
      String (b64_char (x / 4))
        (String (b64_char (x mod 4 * 16 + y / 16))
           (String (b64_char (y mod 16 * 4 + z / 64))
              (String (b64_char (z mod 64)) (base64 r))))
  end.

Definition crlf : string :=
  String (ascii_of_nat 13) (String (ascii_of_nat 10) EmptyString).

(** The multipart body for parts whose names need no escape. *)
Fixpoint multipart_parts (boundary : string)
         (parts : list (string * string * string)) : string :=
  match parts with
  | [] => "--" +:+ boundary +:+ "--" +:+ crlf
  | (field, file, content) :: rest =>
      "--" +:+ boundary +:+ crlf
        +:+ "Content-Disposition: form-data; name=" +:+ String dq field
        +:+ String dq "; filename=" +:+ String dq file +:+ String dq crlf
        +:+ "Content-Type: application/octet-stream" +:+ crlf +:+ crlf
        +:+ content +:+ crlf
        +:+ multipart_parts boundary rest
  end.

Definition lib : GoLib :=
  Build_GoLib base64 multipart_parts parseAuthority ResolveReference
              URL_String Unmarshal_apiErr Parse_RFC1123.

End Plain.

(* ===================================================================== *)
(** ** Scenarios: concrete clients, servers and requests *)
(* ===================================================================== *)

Module Scenario.
Import url.

Definition dq : string := String (ascii_of_nat 34) EmptyString.

(** The JSON text of an object with one string member. *)
Definition json_object (key value : string) : string :=
  "{" +:+ dq +:+ key +:+ dq +:+ ":" +:+ dq +:+ value +:+ dq +:+ "}".

(** The body [{"message":"ok"}]. *)
Definition ok_body : string := json_object "message" "ok".

(** The JSON text of an error entry with both members. *)
Definition json_entry (message exceptionName : string) : string :=
  "{" +:+ dq +:+ "message" +:+ dq +:+ ":" +:+ dq +:+ message +:+ dq +:+ ","
      +:+ dq +:+ "exceptionName" +:+ dq +:+ ":" +:+ dq +:+ exceptionName
      +:+ dq +:+ "}".

Fixpoint join_comma (parts : list string) : string :=
  match parts with
  | [] => EmptyString
  | [p] => p
  | p :: rest => p +:+ "," +:+ join_comma rest
  end.

(** The JSON text of an error envelope with the given entries. *)
Definition envelope (entries : list string) : string :=
  "{" +:+ dq +:+ "errors" +:+ dq +:+ ":[" +:+ join_comma entries +:+ "]}".

(** The two-entry body of the package's CAPTCHA test: a generic error
    first, the CAPTCHA lock second. *)
Definition captcha_body : string :=
  envelope
    [json_entry "XSRF check failed" "";
     json_entry "Account locked"
       "com.atlassian.bitbucket.auth.CaptchaRequiredAuthenticationException"].

(** The one-entry body of the package's not-found test. *)
Definition not_found_body : string :=
  envelope [json_object "message" "Repository not found"].

Definition options (base : string) (cache : bool) (policy : RetryPolicy)
  : Options :=
  mkOptions base "" "" "" 0 cache policy false.

(** The client [New] makes for a base URL with the plain library
    instance; a base URL it rejects gives a client without base. *)
Definition client (base : string) (cache : bool) (policy : RetryPolicy)
  : Client :=
  match New (H := Plain.lib) "" (options base cache policy) with
  | inr c => c
  | inl _ => mkClient url.empty "" "" "" 0 cache policy false
  end.

Definition base_2_0 : string := "https://api.example.com/2.0".

Definition default_policy : RetryPolicy := mkRetryPolicy 0 0 0.

(** The default backoff with room for 64 attempts. *)
Definition patient_policy : RetryPolicy :=
  mkRetryPolicy 64 (200 * Millisecond) (2 * Second).

(** A GET request for [path] with a context that is never done. *)
Definition get (c : Client) (ctx : Context) (path : string) : option Request :=
  match NewRequest (H := Plain.lib) c (Some ctx) "GET" path NoPayload with
  | inr r => Some r
  | inl _ => None
  end.

Definition response (code : Z) (status : string) (headers : Header)
           (body : string) : Response :=
  mkResponse code status headers body None.

(** A server that fails the first request with 500 and answers every
    later one with 200 and [ok_body]. *)
Definition flaky : Transport :=
  fun hist _ =>
    match hist with
    | [] => mkExchange 0 (inr (response 500 "500 Internal Server Error" ∅ ""))
    | _ => mkExchange 0 (inr (response 200 "200 OK" ∅ ok_body))
    end.

(** A server that answers every request with 500. *)
Definition always_500 : Transport :=
  fun _ _ => mkExchange 0 (inr (response 500 "500 Internal Server Error" ∅ "")).

(** A server that answers every request with 304 and no body. *)
Definition always_304 : Transport :=
  fun _ _ => mkExchange 0 (inr (response 304 "304 Not Modified" ∅ "")).

(** A server with one resource version: 304 to a request that carries the
    current ETag in [If-None-Match], else 200 with ETag and body. *)
Definition versioned (tag body : string) : Transport :=
  fun _ req =>
    let headers := Set_ ∅ "ETag" tag in
    if String.eqb (Get (ReqHeader req) "If-None-Match") tag then
      mkExchange 0 (inr (response 304 "304 Not Modified" headers ""))
    else mkExchange 0 (inr (response 200 "200 OK" headers body)).

(** A server that answers the first request with 200, the ETag [tag] and
    [body], and every later one with 304, whatever the request carries. *)
Definition once_then_304 (tag body : string) : Transport :=
  fun hist _ =>
    let headers := Set_ ∅ "ETag" tag in
    match hist with
    | [] => mkExchange 0 (inr (response 200 "200 OK" headers body))
    | _ => mkExchange 0 (inr (response 304 "304 Not Modified" headers ""))
    end.

(** Response headers from a list of fields. *)
Definition headers (fields : list (string * string)) : Header :=
  fold_right (fun kv h => Set_ h (fst kv) (snd kv)) ∅ fields.

(** A GET for [path] carried out from world [w], when the request can be
    built. *)
Definition run (transport : Transport) (c : Client) (ctx : Context)
           (path : string) (v : Target) (w : World) : option (Outcome * World) :=
  match get c ctx path with
  | Some req => DoWithHeaders (H := Plain.lib) transport c (Some req) v w
  | None => None
  end.

(** What a call returned and left behind, in brief: the error, what
    reached the target, the number of requests sent so far and the clock. *)
Definition summary (r : option (Outcome * World))
  : option (option error * Delivery * nat * Time) :=
  match r with
  | Some (out, w) => Some (out_err out, delivered out, length (sent w), now w)
  | None => None
  end.

(** A target that accepts every text, and a writer that never fails. *)
Definition any_value : Target := TValue (fun _ => None).
Definition any_writer : Target := TWriter (fun _ => None).

End Scenario.

(* ===================================================================== *)
(** ** Vocabulary of the statements *)
(* ===================================================================== *)

(** A caller's path that is nothing but a path: it starts with one slash
    and has no control byte, query, fragment or percent escape. *)
Definition plain_path (p : string) : bool :=
  strings.HasPrefix p "/" && negb (strings.HasPrefix p "//")
  && negb (url.stringContainsCTLByte p)
  && Nat.eqb (strings.Count p "?") 0
  && Nat.eqb (strings.Count p "#") 0
  && Nat.eqb (strings.Count p "%") 0.

(** The delay the retry policy asks for before retry [n]: the initial
    backoff doubled [n - 1] times, capped at the maximum backoff. *)
Definition policy_delay (p : RetryPolicy) (n : Z) : Duration :=
  Z.min (InitialBackoff p * 2 ^ (n - 1)) (MaxBackoff p).

(** The world in which the loop body looks at a response: the request is
    on the wire, the rate limit is updated and the throttle has slept. *)
Definition after_response `{GoLib} (transport : Transport) (w : World)
           (r : Request) (resp : Response) : World :=
  applyAdaptiveThrottle (updateRateLimit (snd (httpClient_Do transport w r)) resp).

(** A cache entry under [key] that was made from a GET response of the
    server: some 2xx response to a GET request whose cache key is [key]
    carried this entry's ETag and body, both non-empty. *)
Definition from_get_response `{GoLib} (transport : Transport)
           (key : string) (e : cacheEntry) : Prop :=
  exists hist r resp,
    result (transport hist r) = inr resp /\
    Method r = MethodGet /\
    key = MethodGet +:+ " " +:+ URL_String (URL r) /\
    200 <= StatusCode resp < 300 /\
    etag e = Get (RespHeader resp) "ETag" /\
    body e = RespBody resp /\
    etag e <> EmptyString /\ body e <> EmptyString.

(** What a step may do to the cache: keep every key, and leave each entry
    as it was or replace it by one made from a GET response. *)
Definition cache_grows `{GoLib} (transport : Transport) (w w' : World) : Prop :=
  (forall k, is_Some (cache w !! k) -> is_Some (cache w' !! k)) /\
  (forall k e, cache w' !! k = Some e ->
               cache w !! k = Some e \/ from_get_response transport k e).

(** When a call cannot write the cache: caching is off, the method is not
    GET, or the target is nil or a writer. *)
Definition cannot_store (c : Client) (req : Request) (v : Target) : Prop :=
  enableCache c = false \/ Method req <> MethodGet \/ v = TNil
  \/ exists write, v = TWriter write.

(** Whether a response carries quota headers that [updateRateLimit] acts
    on: one of the three header pairs has a non-zero value. *)
Definition has_quota (h : Header) : bool :=
  negb ((readHeader h "X-RateLimit-Limit" =? 0)
        && (readHeader h "X-RateLimit-Remaining" =? 0)
        && (readHeader h "X-Attempt-RateLimit-Limit" =? 0)
        && (readHeader h "X-Attempt-RateLimit-Remaining" =? 0)
        && (readHeader h "X-RateLimit-Capacity" =? 0)
        && (readHeader h "X-RateLimit-Available" =? 0)).

(* ===================================================================== *)
(** ** The Bitbucket Cloud client built on the transport ([bbcloud]) *)
(* ===================================================================== *)

Module bbcloud.

Local Abbreviation httpx_Client := Client (only parsing).
Local Abbreviation httpx_mkOptions := mkOptions (only parsing).
Local Abbreviation httpx_New := New (only parsing).
Local Abbreviation httpx_NewRequest := NewRequest (only parsing).
Local Abbreviation httpx_Do := Do (only parsing).
Local Abbreviation httpx_DoWithHeaders := DoWithHeaders (only parsing).

Definition DefaultBaseURL : string := "https://api.bitbucket.org/2.0".
Definition DefaultUserAgent : string := "bb-cli".

(** [bbcloud.Options] *)
Record Options := mkOptions {
  BaseURL : string;
  Username : string;
  Token : string;
  Workspace : string;
  UserAgent : string;
  Timeout : Duration;
  Debug : bool
}.

(** [bbcloud.Client] *)
Record Client := mkClient {
  client : httpx_Client;
  workspace : string
}.

Section Calls.
Context `{GoLib}.
Variable transport : Transport.

(** [bbcloud.New(opts)]; [env_debug] is the value of [BB_HTTP_DEBUG] that
    the transport's constructor reads. *)
Definition New (env_debug : string) (opts : Options) : error + Client :=
  if String.eqb (Username opts) "" then inl (Errorf "username is required")
  else if String.eqb (Token opts) "" then inl (Errorf "token is required")
  else if String.eqb (Workspace opts) "" then
    inl (Errorf "workspace is required")
  else
    let baseURL := if String.eqb (BaseURL opts) "" then DefaultBaseURL
                   else BaseURL opts in
    let userAgent := if String.eqb (UserAgent opts) "" then DefaultUserAgent
                     else UserAgent opts in
    let timeout := if Timeout opts =? 0 then 30 * Second else Timeout opts in
    let retryPolicy := mkRetryPolicy 3 (1 * Second) (30 * Second) in
    match httpx_New env_debug
                    (httpx_mkOptions baseURL (Username opts) (Token opts)
                                     userAgent timeout false retryPolicy
                                     (Debug opts)) with
    | inl err => inl (Wrapf "create HTTP client" err)
    | inr httpClient => inr (mkClient httpClient (Workspace opts))
    end.

(** A call that builds a request and carries it out with [Do]: the shape
    of [Get], [Post], [Put] and [Delete]. *)
Definition call (c : Client) (ctx : option Context) (method path : string)
           (body : Payload) (v : Target) (w : World)
  : option (option error * Delivery * World) :=
  match httpx_NewRequest (client c) ctx method path body with
  | inl err => Some (Some err, Nothing, w)
  | inr req => httpx_Do transport (client c) (Some req) v w
  end.

(** [Client.Get(ctx, path, v)] *)
Definition Get (c : Client) (ctx : option Context) (path : string)
           (v : Target) (w : World) :=
  call c ctx "GET" path NoPayload v w.

(** [Client.GetWithHeaders(ctx, path, v)] *)
Definition GetWithHeaders (c : Client) (ctx : option Context) (path : string)
           (v : Target) (w : World) : option (Outcome * World) :=
  match httpx_NewRequest (client c) ctx "GET" path NoPayload with
  | inl err => Some (mkOutcome None (Some err) Nothing, w)
  | inr req => httpx_DoWithHeaders transport (client c) (Some req) v w
  end.

(** [Client.Post(ctx, path, body, v)] *)
Definition Post (c : Client) (ctx : option Context) (path : string)
           (body : Payload) (v : Target) (w : World) :=
  call c ctx "POST" path body v w.

(** [Client.Put(ctx, path, body, v)] *)
Definition Put (c : Client) (ctx : option Context) (path : string)
           (body : Payload) (v : Target) (w : World) :=
  call c ctx "PUT" path body v w.

(** [Client.Delete(ctx, path)] *)
Definition Delete (c : Client) (ctx : option Context) (path : string)
           (w : World) :=
  call c ctx "DELETE" path NoPayload TNil w.

End Calls.

(** [Client.validatePRArgs(repoSlug, prID)]; the receiver is not used. *)
Definition validatePRArgs (repoSlug : string) (prID : Z) : option error :=
  if String.eqb repoSlug "" then Some (Errorf "repository slug is required")
  else if prID <=? 0 then Some (Errorf "pull request ID must be positive")
  else None.

(** [Client.validateCommentArgs(repoSlug, prID, commentID)] *)
Definition validateCommentArgs (repoSlug : string) (prID commentID : Z)
  : option error :=
  match validatePRArgs repoSlug prID with
  | Some err => Some err
  | None =>
      if commentID <=? 0 then Some (Errorf "comment ID must be positive")
      else None
  end.

(** The verb [%d] of [fmt.Sprintf] on an [int]. *)
Definition Itoa (n : Z) : string := NilZero.string_of_int (Z.to_int n).

(** [shouldEscape(c, encodePathSegment)] of Go's [net/url]. *)
Definition shouldEscape_segment (c : ascii) : bool :=
  if url.is_alnum c then false
  else if url.one_of c "-_.~" then false
  else if url.one_of c "$&+,/:;=?@" then url.one_of c "/;,?"
  else true.

(** [url.PathEscape(s)] *)
Fixpoint PathEscape (s : string) : string :=
  match s with
  | EmptyString => EmptyString
  | String c r =>
      if shouldEscape_segment c then
        let n := nat_of_ascii c in
        String "%" (String (url.upperhex (n / 16))
                           (String (url.upperhex (n mod 16)) (PathEscape r)))
      else String c (PathEscape r)
  end.

(** What a [bytes.Buffer] handed to [Do] as the target holds afterwards;
    its [Write] never returns an error. *)
Definition into_buffer : Target := TWriter (fun _ => None).

Definition buffer_String (d : Delivery) : string :=
  match d with
  | Written bytes => bytes
  | _ => EmptyString
  end.

Section PullRequests.
Context `{GoLib}.
Variable transport : Transport.

Definition diff_path (c : Client) (repoSlug : string) (prID : Z) : string :=
  "/repositories/" +:+ PathEscape (workspace c) +:+ "/"
    +:+ PathEscape repoSlug +:+ "/pullrequests/" +:+ Itoa prID +:+ "/diff".

(** [Client.GetPRDiff(ctx, repoSlug, prID)] *)
Definition GetPRDiff (c : Client) (ctx : option Context) (repoSlug : string)
           (prID : Z) (w : World) : option ((error + string) * World) :=
  if String.eqb repoSlug "" then
    Some (inl (Errorf "repository slug is required"), w)
  else if prID <=? 0 then
    Some (inl (Errorf "pull request ID must be positive"), w)
  else
    match httpx_NewRequest (client c) ctx "GET" (diff_path c repoSlug prID)
                           NoPayload with
    | inl err => Some (inl (Wrapf "create request" err), w)
    | inr req =>
        let req := with_header req "Accept" "text/plain" in
        match httpx_Do transport (client c) (Some req) into_buffer w with
        | None => None
        | Some (Some err, _, w) => Some (inl (Wrapf "get PR diff" err), w)
        | Some (None, buf, w) => Some (inr (buffer_String buf), w)
        end
    end.

End PullRequests.

(** [PaginatedResponse] *)
Record PaginatedResponse := mkPaginatedResponse {
  Size : Z;
  Page : Z;
  PageLen : Z;
  Next : string;
  Previous : string
}.

(** [RepositoryList], over the type of its [Values]. *)
Record RepositoryList (Repository : Type) := mkRepositoryList {
  Paginated : PaginatedResponse;
  Values : list Repository
}.
Arguments mkRepositoryList {Repository} _ _.
Arguments Paginated {Repository} _.
Arguments Values {Repository} _.

Section Repositories.
Context `{GoLib}.
Variable transport : Transport.

(** The type [Repository], and what [json.Unmarshal] makes of a text when
    it decodes into a zero [RepositoryList]. *)
Variable Repository : Type.
Variable Unmarshal_RepositoryList : string -> error + RepositoryList Repository.

Definition zero_RepositoryList : RepositoryList Repository :=
  mkRepositoryList (mkPaginatedResponse 0 0 0 "" "") [].

(** The target [&result] of a page request. *)
Definition into_result : Target :=
  TValue (fun data => match Unmarshal_RepositoryList data with
                      | inl err => Some err
                      | inr _ => None
                      end).

(** The variable [result] after a [Get] that returned no error: decoded
    from the bytes that reached it, or still zero when none did. *)
Definition result_after (d : Delivery) : RepositoryList Repository :=
  match d with
  | Decoded data =>
      match Unmarshal_RepositoryList data with
      | inr result => result
      | inl _ => zero_RepositoryList
      end
  | _ => zero_RepositoryList
  end.

Definition repositories_path (c : Client) (pageLen page : Z) : string :=
  "/repositories/" +:+ PathEscape (workspace c) +:+ "?pagelen="
    +:+ Itoa pageLen +:+ "&page=" +:+ Itoa page.

(** The [for] loop of [ListRepositories]; [fuel] bounds the number of
    pages requested, and [None] means it ran out. *)
Fixpoint list_pages (fuel : nat) (c : Client) (ctx : option Context)
         (limit pageLen page : Z) (allRepos : list Repository) (w : World)
  : option ((error + list Repository) * World) :=
  match fuel with
  | O => None
  | S fuel' =>
      match Get transport c ctx (repositories_path c pageLen page)
                into_result w with
      | None => None
      | Some (Some err, _, w) =>
          Some (inl (Wrapf ("list repositories (page " +:+ Itoa page +:+ ")")
                           err), w)
      | Some (None, d, w) =>
          let result := result_after d in
          let allRepos := allRepos ++ Values result in
          if (0 <? limit) && (limit <=? Z.of_nat (length allRepos)) then
            Some (inr (if limit <? Z.of_nat (length allRepos)
                       then firstn (Z.to_nat limit) allRepos
                       else allRepos), w)
          else if String.eqb (Next (Paginated result)) "" then
            Some (inr allRepos, w)
          else
            list_pages fuel' c ctx limit pageLen (wrap64 (page + 1)) allRepos w
      end
  end.

(** [Client.ListRepositories(ctx, limit)] *)
Definition ListRepositories (fuel : nat) (c : Client) (ctx : option Context)
           (limit : Z) (w : World)
  : option ((error + list Repository) * World) :=
  let pageLen := if (0 <? limit) && (limit <? 100) then limit else 100 in
  list_pages fuel c ctx limit pageLen 1 [] w.

End Repositories.

End bbcloud.

(** A call of the Bitbucket client from world [w] that came back: it left
    the cache as it was and put at most three requests on the wire, each
    with the method [method], the field [Accept] as [accept], the
    credentials [auth] and no [If-None-Match]. *)
Definition came_back {R : Type} (method accept auth : string) (w : World)
           (r : option (R * World)) : Prop :=
  exists res w' rs,
    r = Some (res, w') /\ cache w' = cache w /\ sent w' = sent w ++ rs /\
    (length rs <= 3)%nat /\
    Forall (fun q => Method q = method /\
                     Get (ReqHeader q) "Accept" = accept /\
                     Get (ReqHeader q) "Authorization" = auth /\
                     Get (ReqHeader q) "If-None-Match" = EmptyString) rs.

(** The credentials a Bitbucket client made from [opts] sends. *)
Definition basic_auth `{GoLib} (opts : bbcloud.Options) : string :=
  "Basic " +:+ base64 (strings.TrimSpace (bbcloud.Username opts) +:+ ":"
                       +:+ bbcloud.Token opts).

Section Pages.
Context `{GoLib}.
Variable transport : Transport.
Variable Repository : Type.
Variable Unmarshal_RepositoryList
  : string -> error + bbcloud.RepositoryList Repository.

(** The server answers the requests for the pages [page], [page + 1], ...
    of the repository list, sent one after the other from world [w], with
    [pages], and the last answer leaves the world [w']. *)
Fixpoint pages_served (c : bbcloud.Client) (ctx : option Context)
         (pageLen page : Z) (w : World)
         (pages : list (bbcloud.RepositoryList Repository)) (w' : World)
  : Prop :=
  match pages with
  | [] => w' = w
  | result :: rest =>
      exists d w1,
        bbcloud.Get transport c ctx (bbcloud.repositories_path c pageLen page)
                    (bbcloud.into_result Repository Unmarshal_RepositoryList) w
        = Some (None, d, w1) /\
        bbcloud.result_after Repository Unmarshal_RepositoryList d = result /\
        pages_served c ctx pageLen (page + 1) w1 rest w'
  end.

(** All repositories of a run of pages, in order. *)
Definition all_values (pages : list (bbcloud.RepositoryList Repository))
  : list Repository :=
  concat (map bbcloud.Values pages).

End Pages.

(* ===================================================================== *)
(** ** More scenarios: credentials, failing servers, the Bitbucket client *)
(* ===================================================================== *)

Module Cloud.

(** A transport client with credentials and the cache on. *)
Definition signed : Client :=
  match New (H := Plain.lib) ""
            (mkOptions Scenario.base_2_0 "user" "secret" "" 0 true
                       Scenario.default_policy false) with
  | inr c => c
  | inl _ => Scenario.client Scenario.base_2_0 true Scenario.default_policy
  end.

(** A request whose body can be read once only. *)
Definition one_shot : Request :=
  mkRequest "POST" url.empty ∅ Background (Some "payload") None 7.

(** A server that answers every request with 404 and the body of the
    package's not-found test. *)
Definition not_found : Transport :=
  fun _ _ => mkExchange 0 (inr (Scenario.response 404 "404 Not Found" ∅
                                                  Scenario.not_found_body)).

(** A network on which no connection is ever made. *)
Definition refused : Transport :=
  fun _ _ => mkExchange 0 (inl (Foreign "dial tcp: connection refused")).

(** A server that answers every request with 204, an ETag and no body. *)
Definition no_content : Transport :=
  fun _ _ => mkExchange 0 (inr (Scenario.response 204 "204 No Content"
                                  (Set_ ∅ "ETag" "v1") "")).

(** The options of a Bitbucket client that leave every default in place. *)
Definition options : bbcloud.Options :=
  bbcloud.mkOptions "" "user" "secret" "acme" "" 0 false.

Definition client : bbcloud.Client :=
  match bbcloud.New (H := Plain.lib) "" options with
  | inr c => c
  | inl _ => bbcloud.mkClient signed "acme"
  end.

(** Repositories by name, and a decoder that knows two page texts: the
    first page holds two repositories and names a next page, the second
    holds one and names none. *)
Definition decode (data : string) : error + bbcloud.RepositoryList string :=
  if String.eqb data "page1" then
    inr (bbcloud.mkRepositoryList
           (bbcloud.mkPaginatedResponse 3 1 2 "page2" "") ["alpha"; "beta"])
  else if String.eqb data "page2" then
    inr (bbcloud.mkRepositoryList
           (bbcloud.mkPaginatedResponse 3 2 2 "" "page1") ["gamma"])
  else inl (Foreign "invalid character").

(** A server that answers the first request with the first page, the
    second with the second page, and every later one with 500. *)
Definition paged : Transport :=
  fun hist _ =>
    match hist with
    | [] => mkExchange 0 (inr (Scenario.response 200 "200 OK" ∅ "page1"))
    | [_] => mkExchange 0 (inr (Scenario.response 200 "200 OK" ∅ "page2"))
    | _ => mkExchange 0 (inr (Scenario.response 500
                                "500 Internal Server Error" ∅ ""))
    end.

(** A server that answers the first request with the first page and
    every later one with 404. *)
Definition truncated : Transport :=
  fun hist _ =>
    match hist with
    | [] => mkExchange 0 (inr (Scenario.response 200 "200 OK" ∅ "page1"))
    | _ => mkExchange 0 (inr (Scenario.response 404 "404 Not Found" ∅
                                                Scenario.not_found_body))
    end.

(** A server that sends the text of a diff. *)
Definition diff_text : string := "--- a/README.md +++ b/README.md".

Definition diffs : Transport :=
  fun _ _ => mkExchange 0 (inr (Scenario.response 200 "200 OK" ∅ diff_text)).

End Cloud.

(** The answer to one page request, computed. *)
Ltac page_served :=
  lazymatch goal with
  | |- exists d w, ?get = Some (None, d, w) /\ _ =>
      let v := eval vm_compute in get in
      lazymatch v with
      | Some (None, ?d, ?w) =>
          exists d, w; split; [vm_compute; reflexivity |];
          split; [vm_compute; reflexivity |]
      end
  end.

(** A text the URL parser takes as part of a path and hands back, its
    escapes undone, as [decoded]: it has no control byte, no [?] and no
    [#], and every [%] in it starts an escape. *)
Definition path_text (s decoded : string) : Prop :=
  url.stringContainsCTLByte s = false /\
  strings.Count s "?" = 0%nat /\ strings.Count s "#" = 0%nat /\
  forall t r, url.unescape t = Some r ->
              url.unescape (s +:+ t) = Some (decoded +:+ r).

(** A name the verb [%q] prints between double quotes as it is: printable
    ASCII without double quote and backslash. *)
Definition prints_as_is (s : string) : bool :=
  forallb (fun c => let n := nat_of_ascii c in
                    Nat.leb 32 n && Nat.leb n 126
                    && negb (Nat.eqb n 34) && negb (Nat.eqb n 92))
          (list_ascii_of_string s).

(* ===================================================================== *)
(** * Properties *)
(* ===================================================================== *)

(** ** Facts about the string routines *)

Section StringFacts.
Import strings.

Lemma append_cons (c : ascii) (a b : string) :
  String c a +:+ b = String c (a +:+ b).
Proof. reflexivity. Qed.

Lemma HasPrefix_app (a b : string) : HasPrefix (a +:+ b) a = true.
Proof.
  induction a as [|c a IH]; [done |].
  rewrite append_cons. cbn [HasPrefix]. by rewrite Ascii.eqb_refl.
Qed.

Lemma Cut_absent (s : string) (sep : ascii) :
  Count s sep = 0%nat -> Cut s sep = (s, EmptyString, false).
Proof.
  induction s as [|c s IH]; simpl; [done |].
  destruct (Ascii.eqb c sep); [done |].
  intros Hc. by rewrite IH.
Qed.

Lemma Cut_first (a q : string) (sep : ascii) :
  Count a sep = 0%nat -> Cut (a +:+ String sep q) sep = (a, q, true).
Proof.
  induction a as [|c a IH]; simpl.
  - by rewrite Ascii.eqb_refl.
  - destruct (Ascii.eqb c sep); [done |].
    intros Hc. by rewrite IH.
Qed.

Lemma Count_app (a b : string) (sep : ascii) :
  Count (a +:+ b) sep = (Count a sep + Count b sep)%nat.
Proof. induction a as [|c a IH]; simpl; [done | rewrite IH; lia]. Qed.

Lemma HasSuffix_Count (s : string) (sep : ascii) :
  HasSuffix s (String sep EmptyString) = true -> (0 < Count s sep)%nat.
Proof.
  induction s as [|c s IH]; simpl; [done |].
  destruct s as [|d s].
  - simpl. destruct (Ascii.eqb_spec c sep); [lia | done].
  - intros Hs. apply orb_prop in Hs as [Hs | Hs].
    + apply andb_prop in Hs as [_ Hs]. done.
    + specialize (IH Hs). lia.
Qed.
End StringFacts.

Section StringFacts2.
Import strings.

Lemma HasPrefix_slash (s : string) :
  HasPrefix s "/" = true -> exists r, s = String "/" r.
Proof.
  destruct s as [|c r]; [done |].
  cbn [HasPrefix]. destruct (Ascii.eqb_spec "/" c) as [<- |]; [by eexists | done].
Qed.

Lemma HasSuffix_after (a q : string) (c sep : ascii) :
  HasSuffix (a +:+ String c q) (String sep EmptyString) = true ->
  q <> EmptyString -> HasSuffix q (String sep EmptyString) = true.
Proof.
  induction a as [|x a IH]; simpl.
  - intros Hs Hq. destruct q as [|d q]; [done |].
    apply orb_prop in Hs as [Hs | Hs]; [| done].
    apply andb_prop in Hs as [_ Hs]. done.
  - intros Hs Hq. apply orb_prop in Hs as [Hs | Hs]; [| by apply IH].
    apply andb_prop in Hs as [_ Hs].
    destruct a; simpl in Hs; done.
Qed.
End StringFacts2.

Section ParseFacts.
Context `{GoLib}.
Import url strings.

Lemma setPath_keeps (u u' : URL) (p : string) :
  setPath u p = Some u' ->
  RawQuery u' = RawQuery u /\ unescape p = Some (Path u').
Proof.
  unfold setPath. destruct (unescape p); [| done].
  intros [= <-]. done.
Qed.

(** The query of a reference that starts with a slash is the text after
    its first question mark. *)
Lemma url_parse_query (s a q : string) (rel : URL) :
  HasPrefix s "/" = true ->
  s = a +:+ String "?" q -> Count a "?" = 0%nat ->
  url_parse s = inr rel -> RawQuery rel = q.
Proof.
  intros Hs -> Ha.
  apply HasPrefix_slash in Hs as [r Hs].
  destruct a as [|c a]; [done |].
  injection Hs as -> _.
  unfold url_parse.
  destruct (stringContainsCTLByte _); [done |].
  change (String.eqb (String "/" a +:+ String "?" q) "*") with false.
  cbv iota.
  change (getScheme (String "/" a +:+ String "?" q))
    with (Some (EmptyString, String "/" a +:+ String "?" q)).
  cbv iota beta. change (ToLower EmptyString) with EmptyString.
  set (s := String "/" a +:+ String "?" q).
  assert (Hcut : Cut s "?" = (String "/" a, q, true)) by by apply Cut_first.
  assert (Hsplit : exists force,
    (if HasSuffix s "?" && Nat.eqb (Count s "?") 1
     then (fst (fst (Cut s "?")), EmptyString, true)
     else let '(before, after, _) := Cut s "?" in (before, after, false))
    = (String "/" a, q, force)).
  { rewrite Hcut. destruct (HasSuffix s "?" && _) eqn:Hc; [| by eexists].
    apply andb_prop in Hc as [Hsuf Hone]. apply Nat.eqb_eq in Hone.
    exists true. simpl. f_equal. f_equal.
    destruct (decide (q = EmptyString)) as [-> | Hq]; [done |].
    unfold s in Hsuf, Hone.
    apply (HasSuffix_after (String "/" a)) in Hsuf; [| done].
    apply HasSuffix_Count in Hsuf.
    change (String "/" a +:+ String "?" q)
      with (String "/" a +:+ String "?" q) in Hone.
    rewrite Count_app in Hone. simpl in Hone. simpl in Ha. lia. }
  destruct Hsplit as [force ->].
  change (HasPrefix (String "/" a) "/") with true.
  cbn [negb andb orb String.eqb].
  destruct (_ && HasPrefix (String "/" a) "//").
  - destruct (Cut _ "/") as [[authority after] found].
    destruct (parseAuthority authority) as [[user host]|]; [| done].
    destruct (setPath _ _) as [u|] eqn:Hp; [| done].
    intros [= <-]. by apply setPath_keeps in Hp as [-> _].
  - destruct (setPath _ _) as [u|] eqn:Hp; [| done].
    intros [= <-]. by apply setPath_keeps in Hp as [-> _].
Qed.

Lemma url_Parse_no_fragment (s : string) (rel : URL) :
  Count s "#" = 0%nat -> url_Parse s = inr rel -> url_parse s = inr rel.
Proof.
  intros Hs. unfold url_Parse. rewrite (Cut_absent _ _ Hs).
  destruct (url_parse s); simpl; [discriminate |]. by intros [= ->].
Qed.

End ParseFacts.

(** ** Request construction *)

Section RequestBuilder.
Context `{GoLib}.
Import strings.

Lemma New_baseURL env opts c :
  New env opts = inr c -> url_Parse (opt_BaseURL opts) = inr (baseURL c).
Proof.
  unfold New. destruct (String.eqb (opt_BaseURL opts) ""); [done |].
  destruct (url_Parse (opt_BaseURL opts)) as [e|base]; [done |].
  destruct (String.eqb (url.Scheme base) ""); [done |].
  by intros [= <-].
Qed.

Lemma parse_base_2_0 (u : url.URL) :
  url_Parse "https://api.example.com/2.0" = inr u -> url.Path u = "/2.0".
Proof.
  cbv -[parseAuthority].
  destruct (parseAuthority _) as [[user host]|]; [| done].
  by intros [= <-].
Qed.

Lemma NewRequest_URL c ctx method path body req :
  NewRequest c ctx method path body = inr req ->
  targetURL c path = inr (URL req).
Proof.
  unfold NewRequest, NewRequestWithContext.
  destruct (targetURL c path) as [e|u]; [done |].
  destruct body; try done;
    (destruct (validMethod _); [| done]);
    (destruct ctx; [| done]); by intros [= <-].
Qed.

Lemma NewMultipartRequest_URL boundary c ctx method path files req :
  NewMultipartRequest boundary c ctx method path files = inr req ->
  targetURL c path = inr (URL req).
Proof.
  unfold NewMultipartRequest, NewRequestWithContext.
  destruct (targetURL c path) as [e|u]; [done |].
  destruct files as [|f files]; [done |].
  destruct (copy_files _); [done |].
  destruct (validMethod _); [| done].
  destruct ctx; [| done]. by intros [= <-].
Qed.

(** What [targetURL] makes of a relative path when the base URL has a
    path of its own. *)
Lemma targetURL_relative c p u :
  HasPrefix p "http://" = false -> HasPrefix p "https://" = false ->
  url.Path (baseURL c) <> EmptyString ->
  targetURL c p = inr u ->
  exists rel,
    url_Parse (if HasPrefix p "/" then p else String "/" p) = inr rel /\
    url.Path u =
      (let relPath := if String.eqb (url.Path rel) "" then "/" else url.Path rel in
       if HasPrefix relPath (url.Path (baseURL c)) then relPath
       else TrimSuffix (url.Path (baseURL c)) "/" +:+ relPath) /\
    url.RawQuery u = url.RawQuery rel.
Proof.
  intros Hh Hhs Hbase. unfold targetURL.
  destruct (String.eqb (TrimSpace p) ""); [done |].
  rewrite Hh, Hhs. cbn [orb].
  set (p' := if negb (HasPrefix p "/") then String "/" p else p).
  assert (Hp' : p' = if HasPrefix p "/" then p else String "/" p)
    by (unfold p'; by destruct (HasPrefix p "/")).
  assert (Hslash : HasPrefix p' "/" = true).
  { rewrite Hp'. destruct (HasPrefix p "/") eqn:E; [done | reflexivity]. }
  rewrite <- Hp'. clearbody p'.
  destruct (url_Parse p') as [e|rel]; [done |].
  rewrite Hslash.
  assert (String.eqb (url.Path (baseURL c)) "" = false) as ->
    by by apply String.eqb_neq.
  cbn [negb andb]. intros [= <-]. exists rel. split; [done |].
  destruct (String.eqb (url.Path rel) ""); cbn zeta;
    destruct (HasPrefix _ (url.Path (baseURL c))); done.
Qed.
End RequestBuilder.

Section PlainPaths.
Context `{GoLib}.
Import strings.

Lemma unescape_cons (c : ascii) (s : string) :
  Ascii.eqb c "%" = false ->
  url.unescape (String c s) =
    match url.unescape s with
    | Some r => Some (String c r)
    | None => None
    end.
Proof.
  intros Hc.
  destruct c as [[] [] [] [] [] [] [] []]; try reflexivity; discriminate Hc.
Qed.

Lemma unescape_plain (s : string) :
  Count s "%" = 0%nat -> url.unescape s = Some s.
Proof.
  induction s as [|c s IH]; [done |].
  cbn [Count]. destruct (Ascii.eqb c "%") eqn:Hc; [done |].
  intros Hs. rewrite unescape_cons by done. by rewrite IH.
Qed.

Lemma HasSuffix_absent (s : string) (sep : ascii) :
  Count s sep = 0%nat -> HasSuffix s (String sep EmptyString) = false.
Proof.
  intros Hs. destruct (HasSuffix s _) eqn:E; [| done].
  apply HasSuffix_Count in E. lia.
Qed.

Lemma url_Parse_plain (p : string) :
  plain_path p = true ->
  exists rel, url_Parse p = inr rel /\ url.Path rel = p /\ url.RawQuery rel = "".
Proof.
  unfold plain_path. intros Hp.
  repeat (apply andb_prop in Hp as [Hp ?]).
  repeat match goal with
         | Hx : Nat.eqb _ _ = true |- _ => apply Nat.eqb_eq in Hx
         | Hx : negb _ = true |- _ => apply negb_true_iff in Hx
         end.
  apply HasPrefix_slash in Hp as Hr. destruct Hr as [r ->].
  unfold url_Parse. rewrite Cut_absent by done.
  unfold url_parse.
  match goal with Hx : url.stringContainsCTLByte _ = false |- _ => rewrite Hx end.
  change (String.eqb (String "/" r) "*") with false. cbv iota.
  change (url.getScheme (String "/" r)) with (Some (EmptyString, String "/" r)).
  cbv iota beta. change (ToLower EmptyString) with EmptyString.
  rewrite HasSuffix_absent by done. cbn [andb].
  rewrite Cut_absent by done. rewrite Hp.
  cbn [negb andb orb String.eqb].
  match goal with Hx : HasPrefix _ "//" = false |- _ => rewrite Hx end.
  rewrite andb_false_r.
  unfold url.setPath. rewrite unescape_plain by done.
  cbn [String.eqb]. eexists. split; [reflexivity |]. done.
Qed.
End PlainPaths.

Section BasePathJoin.
Context `{GoLib}.
Import strings.

Lemma targetURL_example c (p : string) (rel : url.URL) :
  url.Path (baseURL c) = "/2.0" ->
  String.eqb (TrimSpace p) "" = false ->
  HasPrefix p "http://" = false -> HasPrefix p "https://" = false ->
  HasPrefix p "/" = true ->
  url_Parse p = inr rel ->
  exists u, targetURL c p = inr u /\
    url.Path u =
      (let relPath := if String.eqb (url.Path rel) "" then "/" else url.Path rel in
       if HasPrefix relPath "/2.0" then relPath else "/2.0" +:+ relPath).
Proof.
  intros Hb Hne Hh Hhs Hs Hp. unfold targetURL.
  rewrite Hne, Hh, Hhs, Hs. cbn [orb negb]. rewrite Hp, Hs, Hb.
  eexists. split; [reflexivity |].
  cbn [negb andb String.eqb Ascii.eqb Bool.eqb].
  destruct (String.eqb (url.Path rel) ""); cbn zeta;
    destruct (HasPrefix _ "/2.0"); done.
Qed.

(** C1.  For a client made by [New] for the base URL
    [https://api.example.com/2.0]: [NewRequest] resolves the path
    [/2.0/x] to a request URL whose path is [/2.0/x] (the base path is
    not doubled) and the path [/x] to [/2.0/x], and both requests are
    built.  In general a path that is not a full URL is given a leading
    slash when it has none and parsed; the path component of the result
    is the parsed path itself when it starts with [/2.0] and is joined
    after [/2.0] otherwise; and the query of the request URL is the query
    of the caller's path, which is the text after its first question
    mark, byte for byte. *)
Theorem NewRequest_joins_base_path env opts c :
  opt_BaseURL opts = "https://api.example.com/2.0" ->
  New env opts = inr c ->
  (forall ctx method body req,
      NewRequest c ctx method "/2.0/x" body = inr req ->
      url.Path (URL req) = "/2.0/x") /\
  (forall ctx method body req,
      NewRequest c ctx method "/x" body = inr req ->
      url.Path (URL req) = "/2.0/x") /\
  (forall ctx, exists r1 r2,
      NewRequest c (Some ctx) "GET" "/2.0/x" NoPayload = inr r1 /\
      NewRequest c (Some ctx) "GET" "/x" NoPayload = inr r2) /\
  (forall ctx method body p req,
      HasPrefix p "http://" = false -> HasPrefix p "https://" = false ->
      NewRequest c ctx method p body = inr req ->
      exists rel,
        url_Parse (if HasPrefix p "/" then p else String "/" p) = inr rel /\
        url.Path (URL req) =
          (let relPath := if String.eqb (url.Path rel) "" then "/"
                          else url.Path rel in
           if HasPrefix relPath "/2.0" then relPath
           else "/2.0" +:+ relPath) /\
        url.RawQuery (URL req) = url.RawQuery rel) /\
  (forall ctx method body p a q req,
      HasPrefix p "http://" = false -> HasPrefix p "https://" = false ->
      (if HasPrefix p "/" then p else String "/" p) = a +:+ String "?" q ->
      Count a "?" = 0%nat -> Count a "#" = 0%nat -> Count q "#" = 0%nat ->
      NewRequest c ctx method p body = inr req ->
      url.RawQuery (URL req) = q).
Proof.
  intros Hopt Hnew.
  assert (Hb : url.Path (baseURL c) = "/2.0").
  { apply New_baseURL in Hnew. rewrite Hopt in Hnew.
    by apply parse_base_2_0. }
  assert (Hrel : forall ctx method body p req,
    HasPrefix p "http://" = false -> HasPrefix p "https://" = false ->
    NewRequest c ctx method p body = inr req ->
    exists rel,
      url_Parse (if HasPrefix p "/" then p else String "/" p) = inr rel /\
      url.Path (URL req) =
        (let relPath := if String.eqb (url.Path rel) "" then "/"
                        else url.Path rel in
         if HasPrefix relPath "/2.0" then relPath
         else "/2.0" +:+ relPath) /\
      url.RawQuery (URL req) = url.RawQuery rel).
  { intros ctx method body p req Hh Hhs Hreq.
    apply NewRequest_URL in Hreq.
    apply targetURL_relative in Hreq as (rel & Hp & Hpath & Hq);
      [| done | done | by rewrite Hb].
    exists rel. rewrite Hb in Hpath. done. }
  split; [| split; [| split; [| split]]].
  - intros ctx method body req Hreq.
    apply Hrel in Hreq as (rel & Hp & -> & _); [| done | done].
    cbv -[parseAuthority] in Hp. by injection Hp as <-.
  - intros ctx method body req Hreq.
    apply Hrel in Hreq as (rel & Hp & -> & _); [| done | done].
    cbv -[parseAuthority] in Hp. by injection Hp as <-.
  - intros ctx.
    destruct (targetURL_example c "/2.0/x" (url.set_Path url.empty "/2.0/x") Hb)
      as (u1 & Hu1 & _); try done.
    destruct (targetURL_example c "/x" (url.set_Path url.empty "/x") Hb)
      as (u2 & Hu2 & _); try done.
    unfold NewRequest. rewrite Hu1, Hu2. by eexists _, _.
  - exact Hrel.
  - intros ctx method body p a q req Hh Hhs Hp Ha Ha' Hq Hreq.
    apply Hrel in Hreq as (rel & Hparse & _ & ->); [| done | done].
    assert (Hslash : HasPrefix (if HasPrefix p "/" then p else String "/" p) "/"
                     = true).
    { destruct (HasPrefix p "/") eqn:E; [done | reflexivity]. }
    apply url_Parse_no_fragment in Hparse.
    + by apply (url_parse_query _ a q) in Hparse.
    + rewrite Hp, Count_app. cbn [Count]. rewrite Ha', Hq. done.
Qed.
End BasePathJoin.

(** [NewRequest_joins_base_path] at the client of the scenarios: the
    request for [/2.0/x], and the one for [rest/projects?limit=25&start=0]
    with its query. *)
Lemma NewRequest_joins_base_path_witness :
  opt_BaseURL (Scenario.options Scenario.base_2_0 false Scenario.default_policy)
    = "https://api.example.com/2.0" /\
  New (H := Plain.lib) ""
      (Scenario.options Scenario.base_2_0 false Scenario.default_policy)
    = inr (Scenario.client Scenario.base_2_0 false Scenario.default_policy) /\
  (exists req,
      NewRequest (H := Plain.lib)
                 (Scenario.client Scenario.base_2_0 false Scenario.default_policy)
                 (Some Background) "GET" "/2.0/x" NoPayload = inr req /\
      url.Path (URL req) = "/2.0/x") /\
  (exists req,
      NewRequest (H := Plain.lib)
                 (Scenario.client Scenario.base_2_0 false Scenario.default_policy)
                 (Some Background) "GET" "rest/projects?limit=25&start=0"
                 NoPayload = inr req /\
      url.Path (URL req) = "/2.0/rest/projects" /\
      url.RawQuery (URL req) = "limit=25&start=0").
Proof.
  pose proof (NewRequest_joins_base_path (H := Plain.lib) ""
                (Scenario.options Scenario.base_2_0 false Scenario.default_policy)
                (Scenario.client Scenario.base_2_0 false Scenario.default_policy)
                eq_refl eq_refl) as (H1 & _ & _ & _ & H5).
  split; [reflexivity |]. split; [reflexivity |]. split.
  - eexists. split; [reflexivity |].
    apply (H1 (Some Background) "GET" NoPayload). reflexivity.
  - eexists. split; [reflexivity |]. split; [reflexivity |].
    apply (H5 (Some Background) "GET" NoPayload "rest/projects?limit=25&start=0"
              "/rest/projects" "limit=25&start=0"); reflexivity.
Defined.

Section PrefixGuard.
Context `{GoLib}.
Import strings.

Lemma slash_not_absolute (p : string) :
  HasPrefix p "/" = true ->
  HasPrefix p "http://" = false /\ HasPrefix p "https://" = false.
Proof. intros Hp. apply HasPrefix_slash in Hp as [r ->]. done. Qed.

Lemma HasPrefix_empty (pre : string) :
  HasPrefix EmptyString pre = true -> pre = EmptyString.
Proof. by destruct pre. Qed.

(** The path [targetURL] gives a request when the parsed path of the
    caller starts, byte for byte, with the path of the base URL. *)
Lemma targetURL_guard c p rel u :
  url.Path (baseURL c) <> EmptyString ->
  HasPrefix p "/" = true ->
  url_Parse p = inr rel ->
  HasPrefix (url.Path rel) (url.Path (baseURL c)) = true ->
  targetURL c p = inr u ->
  url.Path u = url.Path rel.
Proof.
  intros Hb Hp Hparse Hpre Hu.
  destruct (slash_not_absolute p Hp) as [Hh Hhs].
  apply targetURL_relative in Hu as (rel' & Hparse' & -> & _); try done.
  rewrite Hp, Hparse in Hparse'. injection Hparse' as <-.
  destruct (String.eqb_spec (url.Path rel) "") as [E|_].
  - rewrite E in Hpre. by apply HasPrefix_empty in Hpre.
  - cbn zeta. by rewrite Hpre.
Qed.

(** C10.  The guard against a doubled base path, in [NewRequest] and in
    [NewMultipartRequest], compares bytes and not path segments.  For a
    client whose base URL has a path: whenever the caller's path starts
    with a slash and its parsed path component starts with the base path
    as a string, the request path is that path component and nothing is
    put before it; for a caller's path that is a bare path this is the
    caller's text itself; and with base path [/2.0] the caller's path
    [/2.0abc/x], which leaves the base path in the middle of a segment,
    becomes the request path as it is. *)
Theorem base_path_guard_is_string_prefix c :
  url.Path (baseURL c) <> EmptyString ->
  (forall ctx method body p rel req,
      HasPrefix p "/" = true -> url_Parse p = inr rel ->
      HasPrefix (url.Path rel) (url.Path (baseURL c)) = true ->
      NewRequest c ctx method p body = inr req ->
      url.Path (URL req) = url.Path rel) /\
  (forall boundary ctx method files p rel req,
      HasPrefix p "/" = true -> url_Parse p = inr rel ->
      HasPrefix (url.Path rel) (url.Path (baseURL c)) = true ->
      NewMultipartRequest boundary c ctx method p files = inr req ->
      url.Path (URL req) = url.Path rel) /\
  (forall ctx method body p req,
      plain_path p = true -> HasPrefix p (url.Path (baseURL c)) = true ->
      NewRequest c ctx method p body = inr req ->
      url.Path (URL req) = p) /\
  (forall boundary ctx method files p req,
      plain_path p = true -> HasPrefix p (url.Path (baseURL c)) = true ->
      NewMultipartRequest boundary c ctx method p files = inr req ->
      url.Path (URL req) = p) /\
  (url.Path (baseURL c) = "/2.0" ->
   (forall ctx method body req,
       NewRequest c ctx method "/2.0abc/x" body = inr req ->
       url.Path (URL req) = "/2.0abc/x") /\
   (forall boundary ctx method files req,
       NewMultipartRequest boundary c ctx method "/2.0abc/x" files = inr req ->
       url.Path (URL req) = "/2.0abc/x")).
Proof.
  intros Hb.
  assert (Hplain : forall p u,
    plain_path p = true -> HasPrefix p (url.Path (baseURL c)) = true ->
    targetURL c p = inr u -> url.Path u = p).
  { intros p u Hp Hpre Hu.
    destruct (url_Parse_plain p Hp) as (rel & Hparse & Hpath & _).
    transitivity (url.Path rel); [| done].
    apply (targetURL_guard c p rel u); try done.
    - unfold plain_path in Hp.
      repeat (apply andb_prop in Hp as [Hp _]). done.
    - by rewrite Hpath. }
  split; [| split; [| split; [| split]]].
  - intros ctx method body p rel req Hp Hparse Hpre Hreq.
    apply NewRequest_URL in Hreq. by apply (targetURL_guard c p).
  - intros boundary ctx method files p rel req Hp Hparse Hpre Hreq.
    apply NewMultipartRequest_URL in Hreq. by apply (targetURL_guard c p).
  - intros ctx method body p req Hp Hpre Hreq.
    apply NewRequest_URL in Hreq. by apply Hplain.
  - intros boundary ctx method files p req Hp Hpre Hreq.
    apply NewMultipartRequest_URL in Hreq. by apply Hplain.
  - intros Hb2. split.
    + intros ctx method body req Hreq.
      apply NewRequest_URL in Hreq. apply Hplain; [done | by rewrite Hb2 | done].
    + intros boundary ctx method files req Hreq.
      apply NewMultipartRequest_URL in Hreq.
      apply Hplain; [done | by rewrite Hb2 | done].
Qed.

End PrefixGuard.

(** [base_path_guard_is_string_prefix] at the client of the scenarios, whose
    base path is [/2.0]: the JSON request and the upload for [/2.0abc/x]. *)
Lemma base_path_guard_is_string_prefix_witness :
  url.Path (baseURL (Scenario.client Scenario.base_2_0 false Scenario.default_policy))
    <> EmptyString /\
  (exists req,
      NewRequest (H := Plain.lib)
                 (Scenario.client Scenario.base_2_0 false Scenario.default_policy)
                 (Some Background) "GET" "/2.0abc/x" NoPayload = inr req /\
      url.Path (URL req) = "/2.0abc/x") /\
  (exists req,
      NewMultipartRequest (H := Plain.lib) "b"
                 (Scenario.client Scenario.base_2_0 false Scenario.default_policy)
                 (Some Background) "POST" "/2.0abc/x"
                 [mkMultipartFile "files" "test.txt" (Some ("", None))] = inr req /\
      url.Path (URL req) = "/2.0abc/x").
Proof.
  assert (Hb : url.Path (baseURL (Scenario.client Scenario.base_2_0 false
                                     Scenario.default_policy)) <> EmptyString)
    by discriminate.
  pose proof (base_path_guard_is_string_prefix (H := Plain.lib) _ Hb)
    as (_ & _ & _ & _ & Hex).
  destruct (Hex eq_refl) as [H1 H2].
  split; [exact Hb |]. split.
  - eexists. split; [reflexivity |].
    apply (H1 (Some Background) "GET" NoPayload). reflexivity.
  - eexists. split; [reflexivity |].
    apply (H2 "b" (Some Background) "POST"
              [mkMultipartFile "files" "test.txt" (Some ("", None))]).
    reflexivity.
Defined.

(** ** Backoff *)

Lemma wrap64_small (z : Z) : min_int64 <= z <= max_int64 -> wrap64 z = z.
Proof.
unfold wrap64, min_int64, max_int64. intros Hz.
rewrite Z.mod_small; lia.
Qed.

(** Where no product leaves the 64-bit range, the delay computed without a
    response is the one the policy asks for. *)
Lemma backoff_delay_in_range (c : Client) (n : Z) :
  1 <= n ->
  0 <= InitialBackoff (retry c) ->
  InitialBackoff (retry c) * 2 ^ (n - 1) <= max_int64 ->
  backoff_delay c n None = policy_delay (retry c) n.
Proof.
intros Hn Hi Hmax. unfold backoff_delay, policy_delay.
assert (Hpow : 0 < 2 ^ (n - 1)) by (apply Z.pow_pos_nonneg; lia).
assert (Hd : (if 1 <? n then dmul (InitialBackoff (retry c)) (shl1 (n - 1))
              else InitialBackoff (retry c))
             = InitialBackoff (retry c) * 2 ^ (n - 1)).
{ destruct (Z.ltb_spec 1 n) as [Hlt | Hge].
  - unfold dmul, shl1. rewrite Z.shiftl_1_l.
    destruct (Z.eq_dec (InitialBackoff (retry c)) 0) as [-> | Hnz].
    + by rewrite !Z.mul_0_l.
    + rewrite (wrap64_small (2 ^ (n - 1))).
      * apply wrap64_small. unfold min_int64. split; [| done].
        transitivity 0; [done | by apply Z.mul_nonneg_nonneg; lia].
      * unfold min_int64. split; [lia |]. nia.
  - replace n with 1 by lia. simpl. lia. }
rewrite Hd.
destruct (Z.ltb_spec (MaxBackoff (retry c)) (InitialBackoff (retry c) * 2 ^ (n - 1)));
  lia.
Qed.

(** A [Retry-After] header that holds a number of seconds whose nanosecond
    count fits 64 bits replaces the computed delay. *)
Lemma backoff_delay_retry_after (c : Client) (n secs : Z) (resp : Response) :
  Get (RespHeader resp) "Retry-After" <> EmptyString ->
  strconv.Atoi (Get (RespHeader resp) "Retry-After") = Some secs ->
  min_int64 <= secs * Second <= max_int64 ->
  backoff_delay c n (Some resp) = secs * Second.
Proof.
intros Hne Hsecs Hrange. unfold backoff_delay.
apply String.eqb_neq in Hne. rewrite Hne, Hsecs. cbn [negb].
by apply wrap64_small.
Qed.

(** C3, at the input where the code leaves it.  With room for 64 attempts,
    an initial backoff of 200ms and a maximum of 2s, the policy asks for a
    delay of 2s before retry 37; the product [200ms * 2^36] computed in 64
    bits is negative, passes under the cap, and [backoff] returns at once
    without waiting.  Against a server that always answers 500 the whole
    call sends its 64 requests and has waited 81s when it returns, where
    the delays of the policy add up to 121s. *)
Theorem backoff_delay_overflows_at_37 :
  let c := Scenario.client "https://example.com" false Scenario.patient_policy in
  policy_delay (retry c) 37 = 2 * Second /\
  backoff_delay c 37 None = -4702848726509551616 /\
  (forall w, backoff c Background 37 None w = (true, None, w)) /\
  fold_right Z.add 0
    (map (fun n => policy_delay (retry c) (Z.of_nat n)) (seq 1 63))
    = 121 * Second /\
  Scenario.summary
    (Scenario.run Scenario.always_500 c Background "/api" TNil (fresh_world 0))
    = Some (Some (Errorf "500 Internal Server Error"), Nothing, 64%nat,
            81 * Second).
Proof.
intros c.
split; [reflexivity |]. split; [reflexivity |].
split; [intros w; reflexivity |]. split; [reflexivity |].
vm_compute. reflexivity.
Qed.

(** ** The retry loop *)

Section Loop.
Context `{GoLib}.
Variable transport : Transport.
Variable c : Client.

(** *** What each step leaves of the world *)

Lemma updateRateLimit_frame (w : World) (resp : Response) :
  cache (updateRateLimit w resp) = cache w /\
  now (updateRateLimit w resp) = now w /\
  sent (updateRateLimit w resp) = sent w.
Proof.
unfold updateRateLimit.
repeat match goal with
       | |- context [if ?b then _ else _] => destruct b
       end; done.
Qed.

Lemma applyAdaptiveThrottle_frame (w : World) :
  cache (applyAdaptiveThrottle w) = cache w /\
  rate (applyAdaptiveThrottle w) = rate w /\
  sent (applyAdaptiveThrottle w) = sent w /\
  now w <= now (applyAdaptiveThrottle w).
Proof.
unfold applyAdaptiveThrottle.
destruct (_ || _); [done |].
destruct (Z.leb_spec (time_Sub (Reset (rate w)) (now w)) 0); [done |].
destruct (_ <? _); simpl; repeat split; unfold Second in *; lia.
Qed.

Lemma backoff_frame (ctx : Context) (attempts : Z) (resp : option Response)
      (w w' : World) (go : bool) (err : option error) :
  backoff c ctx attempts resp w = (go, err, w') ->
  cache w' = cache w /\ rate w' = rate w /\ sent w' = sent w.
Proof.
unfold backoff.
repeat match goal with
       | |- context [if ?b then _ else _] => destruct b
       | |- context [match done_at ctx with _ => _ end] => destruct (done_at ctx)
       end; by intros [= <- <- <-].
Qed.

(** [backoff] lets the loop go on only when it reports no error. *)
Lemma backoff_error_stops (ctx : Context) (attempts : Z)
      (resp : option Response) (w w' : World) (go : bool) (e : error) :
  backoff c ctx attempts resp w = (go, Some e, w') ->
  go = false /\ e = done_err ctx.
Proof.
unfold backoff.
repeat match goal with
       | |- context [if ?b then _ else _] => destruct b
       | |- context [match done_at ctx with _ => _ end] => destruct (done_at ctx)
       end; intros [= <- <- <-]; done.
Qed.

Lemma httpClient_Do_frame (w w' : World) (req : Request)
      (res : error + Response) :
  httpClient_Do transport w req = (res, w') ->
  res = result (transport (sent w) req) /\
  cache w' = cache w /\ rate w' = rate w /\ sent w' = sent w ++ [req].
Proof. unfold httpClient_Do. by intros [= <- <-]. Qed.

Lemma retry_or_frame (giveup : Outcome) (req : Request) (attempts status : Z)
      (resp : option Response) (w : World) :
  match retry_or c giveup req attempts status resp w with
  | Return _ w' => cache w' = cache w /\ sent w' = sent w
  | Continue a w' =>
      cache w' = cache w /\ sent w' = sent w /\
      a = attempts + 1 /\ attempts + 1 < MaxAttempts (retry c)
  end.
Proof.
unfold retry_or, shouldRetry.
destruct (Z.ltb_spec (attempts + 1) (MaxAttempts (retry c))); cbn [negb]; [| done].
destruct (backoff c (Ctx req) (attempts + 1) resp w) as [[go err] w'] eqn:Hb.
apply backoff_frame in Hb as (Hc & _ & Hs).
destruct go, err; cbn; repeat split; done.
Qed.

Lemma storeCache_frame (w : World) (req : Request) (body etag : string) :
  rate (storeCache w req body etag) = rate w /\
  now (storeCache w req body etag) = now w /\
  sent (storeCache w req body etag) = sent w.
Proof. unfold storeCache. by destruct (_ || _). Qed.

Lemma deliver_frame (w w' : World) (req : Request) (resp : Response)
      (v : Target) (out : Outcome) :
  deliver c w req resp v = (out, w') ->
  rate w' = rate w /\ now w' = now w /\ sent w' = sent w.
Proof.
unfold deliver. destruct v as [|write|unmarshal].
- intros [= <- <-]. destruct (_ && _); [apply storeCache_frame | done].
- by intros [= <- <-].
- destruct (BodyErr resp); [by intros [= <- <-] |].
  destruct (String.eqb (RespBody resp) ""); intros [= <- <-];
    (destruct (_ && _); [apply storeCache_frame | done]).
Qed.

(** One turn puts at most one request on the wire, and goes round again
    only after it has sent one and found [attempts + 1 < MaxAttempts]. *)
Lemma turn_sent (req : Request) (v : Target) (attempts : Z) (w : World) :
  match turn transport c req v attempts w with
  | Return _ w' => sent w' = sent w \/ exists r, sent w' = sent w ++ [r]
  | Continue a w' =>
      a = attempts + 1 /\ attempts + 1 < MaxAttempts (retry c) /\
      exists r, sent w' = sent w ++ [r]
  end.
Proof.
unfold turn. destruct (cloneRequest req) as [e|attemptReq]; [by left |].
destruct (httpClient_Do _ _ _) as [res w1] eqn:Hdo.
apply httpClient_Do_frame in Hdo as (_ & _ & _ & Hs1).
destruct res as [err|resp].
- pose proof (retry_or_frame (failed None err) req attempts 0 None w1) as Hr.
  destruct (retry_or _ _ _ _ _ _ _) as [out w2|a w2].
  + destruct Hr as [_ ->]. right. by eexists.
  + destruct Hr as (_ & -> & -> & Hlt). repeat split; [done |]. by eexists.
- destruct (updateRateLimit_frame w1 resp) as (_ & _ & Hs2).
  destruct (applyAdaptiveThrottle_frame (updateRateLimit w1 resp))
    as (_ & _ & Hs3 & _).
  set (w3 := applyAdaptiveThrottle (updateRateLimit w1 resp)) in *.
  assert (Hs : sent w3 = sent w ++ [conditional c w attemptReq])
    by (by rewrite Hs3, Hs2, Hs1).
  destruct (_ && _ && _).
  { destruct (applyCachedResponse _ _ _). right. by eexists. }
  destruct (shouldRetryStatus _).
  { match goal with
    | |- context [retry_or c ?g req attempts ?st ?r w3] =>
        pose proof (retry_or_frame g req attempts st r w3) as Hr;
        destruct (retry_or c g req attempts st r w3) as [out w4|a w4]
    end.
    - destruct Hr as [_ ->]. right. by eexists.
    - destruct Hr as (_ & -> & -> & Hlt). repeat split; [done |]. by eexists. }
  destruct (_ || _); [right; by eexists |].
  destruct (deliver _ _ _ _ _) as [out w4] eqn:Hd.
  apply deliver_frame in Hd as (_ & _ & ->). right. by eexists.
Qed.

(** The loop never sends more than [MaxAttempts - attempts] requests, or
    one when that is less. *)
Lemma attempt_loop_sent (fuel : nat) (req : Request) (v : Target) :
  forall (attempts : Z) (w w' : World) (out : Outcome),
    attempt_loop transport c fuel req v attempts w = Some (out, w') ->
    Z.of_nat (length (sent w')) <=
    Z.of_nat (length (sent w)) + Z.max 1 (MaxAttempts (retry c) - attempts).
Proof.
induction fuel as [|fuel IH]; intros attempts w w' out; cbn [attempt_loop];
  pose proof (turn_sent req v attempts w) as Ht;
  destruct (turn _ _ _ _ _ _) as [out1 w1|a w1]; try done.
- intros [= <- <-]. destruct Ht as [-> | [r ->]]; [lia |].
  rewrite length_app. simpl. lia.
- intros [= <- <-]. destruct Ht as [-> | [r ->]]; [lia |].
  rewrite length_app. simpl. lia.
- intros Hloop. apply IH in Hloop.
  destruct Ht as (-> & Hlt & r & Hs). rewrite Hs, length_app in Hloop.
  simpl in Hloop. lia.
Qed.

(** With fuel for every retry the policy still allows, the loop returns. *)
Lemma attempt_loop_returns (fuel : nat) (req : Request) (v : Target) :
  forall (attempts : Z) (w : World),
    MaxAttempts (retry c) - 1 - attempts <= Z.of_nat fuel ->
    exists out w', attempt_loop transport c fuel req v attempts w = Some (out, w').
Proof.
induction fuel as [|fuel IH]; intros attempts w Hfuel; cbn [attempt_loop];
  pose proof (turn_sent req v attempts w) as Ht;
  destruct (turn _ _ _ _ _ _) as [out1 w1|a w1]; try by eexists _, _.
- destruct Ht as (_ & Hlt & _). lia.
- destruct Ht as (-> & Hlt & _). apply IH. lia.
Qed.

(** *** What one turn does with a response *)

Lemma after_response_frame (w : World) (r : Request) (resp : Response) :
  cache (after_response transport w r resp) = cache w /\
  sent (after_response transport w r resp) = sent w ++ [r].
Proof.
unfold after_response.
destruct (applyAdaptiveThrottle_frame
            (updateRateLimit (snd (httpClient_Do transport w r)) resp))
  as (-> & _ & -> & _).
destruct (updateRateLimit_frame (snd (httpClient_Do transport w r)) resp)
  as (-> & _ & ->).
done.
Qed.

Lemma retryable_not_304 (code : Z) :
  shouldRetryStatus code = true -> (code =? StatusNotModified) = false.
Proof.
unfold shouldRetryStatus, StatusNotModified, StatusTooManyRequests.
destruct (Z.eqb_spec code 429); [intros _; lia | intros Hc; lia].
Qed.

Lemma success_not_retryable (code : Z) :
  200 <= code < 300 ->
  (code =? StatusNotModified) = false /\ shouldRetryStatus code = false /\
  (code <? 200) || (300 <=? code) = false.
Proof.
unfold shouldRetryStatus, StatusNotModified, StatusTooManyRequests.
intros Hc. destruct (Z.eqb_spec code 429); lia.
Qed.

(** A turn that receives a 2xx response returns what [deliver] makes of
    it. *)
Lemma turn_success (req req0 : Request) (v : Target) (attempts : Z)
      (w : World) (resp : Response) :
  cloneRequest req = inr req0 ->
  result (transport (sent w) (conditional c w req0)) = inr resp ->
  200 <= StatusCode resp < 300 ->
  turn transport c req v attempts w =
    (let '(out, w') :=
       deliver c (after_response transport w (conditional c w req0) resp)
               (conditional c w req0) resp v in
     Return out w').
Proof.
intros Hclone Hres Hcode. unfold turn, after_response, httpClient_Do.
rewrite Hclone. cbn [fst snd]. rewrite Hres.
destruct (success_not_retryable _ Hcode) as (-> & -> & ->). done.
Qed.

(** A turn of a caching client that receives 304 for a GET returns what
    [applyCachedResponse] finds. *)
Lemma turn_not_modified (req req0 : Request) (v : Target) (attempts : Z)
      (w : World) (resp : Response) :
  cloneRequest req = inr req0 ->
  enableCache c = true -> Method req0 = MethodGet ->
  result (transport (sent w) (conditional c w req0)) = inr resp ->
  StatusCode resp = StatusNotModified ->
  turn transport c req v attempts w =
    (let w' := after_response transport w (conditional c w req0) resp in
     let '(err, d) := applyCachedResponse w' (conditional c w req0) v in
     Return (mkOutcome (Some (RespHeader resp)) err d) w').
Proof.
intros Hclone Hcache Hget Hres Hcode. unfold turn, after_response, httpClient_Do.
rewrite Hclone. cbn [fst snd]. rewrite Hres, Hcode, Hcache.
assert (Method (conditional c w req0) = MethodGet) as ->.
{ unfold conditional. rewrite Hcache, Hget. cbn.
  by destruct (negb _). }
done.
Qed.

(** A turn that receives a retryable status, has a retry left and a
    context that is never done goes round again after the backoff. *)
Lemma turn_retry (req req0 : Request) (v : Target) (attempts : Z)
      (w : World) (resp : Response) :
  cloneRequest req = inr req0 ->
  result (transport (sent w) (conditional c w req0)) = inr resp ->
  shouldRetryStatus (StatusCode resp) = true ->
  attempts + 1 < MaxAttempts (retry c) ->
  done_at (Ctx req) = None ->
  exists w', turn transport c req v attempts w = Continue (attempts + 1) w' /\
             cache w' = cache w /\
             sent w' = sent w ++ [conditional c w req0].
Proof.
intros Hclone Hres Hretry Hlt Hctx. unfold turn, httpClient_Do.
rewrite Hclone. cbn [fst snd]. rewrite Hres.
rewrite (retryable_not_304 _ Hretry), Hretry. cbn [andb].
fold (snd (httpClient_Do transport w (conditional c w req0))).
change (applyAdaptiveThrottle (updateRateLimit _ resp))
  with (after_response transport w (conditional c w req0) resp).
destruct (after_response_frame w (conditional c w req0) resp) as [Hc Hs].
set (w3 := after_response transport w (conditional c w req0) resp) in *.
unfold retry_or, shouldRetry.
destruct (Z.ltb_spec (attempts + 1) (MaxAttempts (retry c))); [| lia].
cbn [negb]. unfold backoff, is_done. rewrite Hctx.
destruct (Z.leb_spec (MaxAttempts (retry c)) (attempts + 1)); [lia |].
destruct (_ <=? 0); eexists; (split; [reflexivity |]); done.
Qed.

End Loop.

Section Retry.
Context `{GoLib}.
Variable transport : Transport.
Variable c : Client.

Lemma conditional_cache (w1 w2 : World) (r : Request) :
  cache w1 = cache w2 -> conditional c w1 r = conditional c w2 r.
Proof. intros Hc. unfold conditional, cachedETag. by rewrite Hc. Qed.

(** [DoWithHeaders] always returns, having sent no more requests than the
    policy allows. *)
Lemma DoWithHeaders_returns (req : option Request) (v : Target) (w : World) :
  exists out w',
    DoWithHeaders transport c req v w = Some (out, w') /\
    Z.of_nat (length (sent w')) <=
    Z.of_nat (length (sent w)) + Z.max 1 (MaxAttempts (retry c)).
Proof.
destruct req as [req|]; cbn [DoWithHeaders].
- destruct (attempt_loop_returns transport c (retry_budget c) req v 0 w)
    as (out & w' & Hloop).
  { unfold retry_budget. lia. }
  exists out, w'. split; [done |].
  apply attempt_loop_sent in Hloop. lia.
- exists (failed None (Errorf "request is nil")), w. split; [done | lia].
Qed.

(** C2.  [shouldRetry] grants a retry exactly when
    [attempts + 1 < MaxAttempts], so the loop stops as soon as
    [attempts + 1 >= MaxAttempts]: [DoWithHeaders] always returns and sends
    at most [MaxAttempts] requests (one when [MaxAttempts] is below one).
    In particular, with [MaxAttempts = 3], a request that can be cloned and
    a context that is never done, when the server answers the first attempt
    with 500 and the second with 200 and the body [{"message":"ok"}], exactly
    two requests are sent and that body is decoded into the caller's
    target, the call returning what the decoder returns. *)
Theorem retries_stop_at_MaxAttempts :
  (forall attempts status,
      shouldRetry c attempts status = true <->
      attempts + 1 < MaxAttempts (retry c)) /\
  (forall req v w, exists out w',
      DoWithHeaders transport c req v w = Some (out, w') /\
      Z.of_nat (length (sent w')) <=
      Z.of_nat (length (sent w)) + Z.max 1 (MaxAttempts (retry c))) /\
  (forall req req0 w resp1 resp2 unmarshal,
      MaxAttempts (retry c) = 3 ->
      cloneRequest req = inr req0 ->
      done_at (Ctx req) = None ->
      result (transport (sent w) (conditional c w req0)) = inr resp1 ->
      StatusCode resp1 = 500 ->
      result (transport (sent w ++ [conditional c w req0]) (conditional c w req0))
        = inr resp2 ->
      StatusCode resp2 = 200 ->
      RespBody resp2 = Scenario.ok_body ->
      BodyErr resp2 = None ->
      exists out w',
        DoWithHeaders transport c (Some req) (TValue unmarshal) w
          = Some (out, w') /\
        sent w' = sent w ++ [conditional c w req0; conditional c w req0] /\
        out_headers out = Some (RespHeader resp2) /\
        out_err out = unmarshal Scenario.ok_body /\
        delivered out = Decoded Scenario.ok_body).
Proof.
split; [| split].
- intros attempts status. unfold shouldRetry. apply Z.ltb_lt.
- apply DoWithHeaders_returns.
- intros req req0 w resp1 resp2 unmarshal Hmax Hclone Hctx Hres1 Hcode1 Hres2
         Hcode2 Hok Herr.
  cbn [DoWithHeaders]. unfold retry_budget. rewrite Hmax.
  change (Z.to_nat (3 - 1)) with 2%nat. cbn [attempt_loop].
  destruct (turn_retry transport c req req0 (TValue unmarshal) 0 w resp1)
    as (w1 & -> & Hc1 & Hs1); try done.
  { by rewrite Hcode1. }
  { lia. }
  rewrite (turn_success transport c req req0 (TValue unmarshal) (0 + 1) w1 resp2);
    try done.
  + rewrite (conditional_cache w1 w req0 Hc1).
    destruct (deliver _ _ _ _ _) as [out w2] eqn:Hd.
    exists out, w2. split; [done |].
    pose proof Hd as Hframe. apply deliver_frame in Hframe as (_ & _ & ->).
    destruct (after_response_frame transport w1 (conditional c w req0) resp2)
      as [_ ->].
    rewrite Hs1, <- app_assoc. split; [done |].
    unfold deliver in Hd. rewrite Herr, Hok in Hd.
    change (String.eqb Scenario.ok_body "") with false in Hd.
    by injection Hd as <- _.
  + by rewrite (conditional_cache w1 w req0 Hc1), Hs1.
  + lia.
Qed.

End Retry.

(** [retries_stop_at_MaxAttempts] at the server of the scenarios, which
    fails the first request: the call [Do(req, &out)] of a client with
    [MaxAttempts = 3]. *)
Lemma retries_stop_at_MaxAttempts_witness :
  let c := Scenario.client "https://example.com"
                           false (mkRetryPolicy 3 (10 * Millisecond)
                                                (20 * Millisecond)) in
  exists req out w',
    Scenario.get c Background "/api" = Some req /\
    DoWithHeaders (H := Plain.lib) Scenario.flaky c (Some req)
                  Scenario.any_value (fresh_world 0) = Some (out, w') /\
    length (sent w') = 2%nat /\
    out_err out = None /\
    delivered out = Decoded Scenario.ok_body.
Proof.
intros c.
destruct (Scenario.get c Background "/api") as [req|] eqn:Hreq;
  [| discriminate Hreq].
pose proof (retries_stop_at_MaxAttempts (H := Plain.lib) Scenario.flaky c)
  as (_ & _ & Hscenario).
destruct (Hscenario req req (fresh_world 0)
            (Scenario.response 500 "500 Internal Server Error" ∅ "")
            (Scenario.response 200 "200 OK" ∅ Scenario.ok_body)
            (fun _ => None))
  as (out & w' & Hdo & Hsent & _ & Herr & Hd);
  try reflexivity.
- by injection Hreq as <-.
- by injection Hreq as <-.
- exists req, out, w'. split; [done |]. split; [exact Hdo |].
  split; [by rewrite Hsent |]. done.
Defined.

(** ** The response cache *)

Section Cache.
Context `{GoLib}.
Variable transport : Transport.
Variable c : Client.

Lemma cache_grows_refl (w w' : World) :
  cache w' = cache w -> cache_grows transport w w'.
Proof. intros Hc. unfold cache_grows. rewrite Hc. split; [done | by left]. Qed.

Lemma cache_grows_trans (w1 w2 w3 : World) :
  cache_grows transport w1 w2 -> cache_grows transport w2 w3 ->
  cache_grows transport w1 w3.
Proof.
intros [Hk1 He1] [Hk2 He2]. split.
- intros k Hk. by apply Hk2, Hk1.
- intros k e Hk. destruct (He2 k e Hk) as [Hold | Hnew]; [| by right].
  by apply He1.
Qed.

(** [storeCache] either leaves the cache alone or writes, under the key of
    the request, an entry with the given ETag and body, both non-empty. *)
Lemma storeCache_cache (w : World) (req : Request) (body etag : string) :
  storeCache w req body etag = w \/
  (etag <> EmptyString /\ body <> EmptyString /\
   cache (storeCache w req body etag)
   = <[cacheKey req := mkCacheEntry etag body (now w)]> (cache w)).
Proof.
unfold storeCache.
destruct (String.eqb_spec etag ""); [by left |].
destruct (String.eqb_spec body ""); [by left |]. by right.
Qed.

Lemma insert_grows (w w' : World) (r : Request) (resp : Response) (t : Time) :
  result (transport (sent w) r) = inr resp ->
  Method r = MethodGet ->
  200 <= StatusCode resp < 300 ->
  Get (RespHeader resp) "ETag" <> EmptyString ->
  RespBody resp <> EmptyString ->
  cache w' = <[cacheKey r := mkCacheEntry (Get (RespHeader resp) "ETag")
                                         (RespBody resp) t]> (cache w) ->
  cache_grows transport w w'.
Proof.
intros Hres Hget Hcode Htag Hbody Hc. unfold cache_grows. rewrite Hc. split.
- intros k Hk. destruct (decide (cacheKey r = k)) as [<- | Hne].
  + by rewrite lookup_insert_eq.
  + by rewrite lookup_insert_ne.
- intros k e. destruct (decide (cacheKey r = k)) as [<- | Hne].
  + rewrite lookup_insert_eq. intros [= <-]. right.
    exists (sent w), r, resp. unfold cacheKey. rewrite Hget. done.
  + rewrite lookup_insert_ne by done. by left.
Qed.

(** [deliver] touches the cache only to record the response it was given,
    and only for a GET. *)
Lemma deliver_cache (w0 w w' : World) (r : Request) (resp : Response)
      (v : Target) (out : Outcome) :
  result (transport (sent w0) r) = inr resp ->
  cache w = cache w0 ->
  200 <= StatusCode resp < 300 ->
  deliver c w r resp v = (out, w') ->
  cache_grows transport w0 w'.
Proof.
intros Hres Hc Hcode. unfold deliver.
destruct v as [|write|unmarshal].
- intros [= <- <-]. apply cache_grows_refl.
  destruct (_ && _); [| done].
  destruct (storeCache_cache w r EmptyString (Get (RespHeader resp) "ETag"))
    as [-> | (_ & Hne & _)]; done.
- intros [= <- <-]. by apply cache_grows_refl.
- destruct (BodyErr resp); [intros [= <- <-]; by apply cache_grows_refl |].
  assert (Hstore : cache_grows transport w0
            (if enableCache c && String.eqb (Method r) MethodGet
                && negb (String.eqb (Get (RespHeader resp) "ETag") "")
             then storeCache w r (RespBody resp) (Get (RespHeader resp) "ETag")
             else w)).
  { destruct (enableCache c); cbn [andb]; [| by apply cache_grows_refl].
    destruct (String.eqb_spec (Method r) MethodGet) as [Hget|];
      cbn [andb]; [| by apply cache_grows_refl].
    destruct (negb _); [| by apply cache_grows_refl].
    destruct (storeCache_cache w r (RespBody resp) (Get (RespHeader resp) "ETag"))
      as [-> | (Htag & Hbody & Hins)]; [by apply cache_grows_refl |].
    apply (insert_grows w0 _ r resp (now w)); try done.
    by rewrite Hins, Hc. }
  destruct (String.eqb (RespBody resp) ""); by intros [= <- <-].
Qed.

(** One turn of the loop lets the cache grow, no more. *)
Lemma turn_cache (req : Request) (v : Target) (attempts : Z) (w : World) :
  match turn transport c req v attempts w with
  | Return _ w' => cache_grows transport w w'
  | Continue _ w' => cache w' = cache w /\ cache_grows transport w w'
  end.
Proof.
unfold turn. destruct (cloneRequest req) as [e|req0];
  [by apply cache_grows_refl |].
destruct (httpClient_Do _ _ _) as [res w1] eqn:Hdo.
apply httpClient_Do_frame in Hdo as (Hres & Hc1 & _ & _).
destruct res as [err|resp].
- pose proof (retry_or_frame c (failed None err) req attempts 0 None w1) as Hr.
  destruct (retry_or _ _ _ _ _ _ _) as [out w2|a w2].
  + destruct Hr as [Hc _]. apply cache_grows_refl. by rewrite Hc.
  + destruct Hr as (Hc & _). rewrite Hc, Hc1.
    split; [done |]. apply cache_grows_refl. by rewrite Hc.
- destruct (updateRateLimit_frame w1 resp) as (Hc2 & _ & _).
  destruct (applyAdaptiveThrottle_frame (updateRateLimit w1 resp))
    as (Hc3 & _ & _ & _).
  set (w3 := applyAdaptiveThrottle (updateRateLimit w1 resp)) in *.
  assert (Hc : cache w3 = cache w) by (by rewrite Hc3, Hc2, Hc1).
  destruct (_ && _ && _).
  { destruct (applyCachedResponse _ _ _). by apply cache_grows_refl. }
  destruct (shouldRetryStatus _).
  { match goal with
    | |- context [retry_or c ?g req attempts ?st ?r w3] =>
        pose proof (retry_or_frame c g req attempts st r w3) as Hr;
        destruct (retry_or c g req attempts st r w3) as [out w4|a w4]
    end.
    - destruct Hr as [Hc4 _]. apply cache_grows_refl. by rewrite Hc4.
    - destruct Hr as (Hc4 & _). rewrite Hc4, Hc.
      split; [done |]. apply cache_grows_refl. by rewrite Hc4. }
  destruct ((StatusCode resp <? 200) || (300 <=? StatusCode resp)) eqn:Hcode;
    [by apply cache_grows_refl |].
  destruct (deliver _ _ _ _ _) as [out w4] eqn:Hd.
  apply (deliver_cache w w3 w4 (conditional c w req0) resp v out); try done.
  apply orb_false_iff in Hcode as [Hlo Hhi]. lia.
Qed.

Lemma attempt_loop_cache (fuel : nat) (req : Request) (v : Target) :
  forall (attempts : Z) (w w' : World) (out : Outcome),
    attempt_loop transport c fuel req v attempts w = Some (out, w') ->
    cache_grows transport w w'.
Proof.
induction fuel as [|fuel IH]; intros attempts w w' out; cbn [attempt_loop];
  pose proof (turn_cache req v attempts w) as Ht;
  destruct (turn _ _ _ _ _ _) as [out1 w1|a w1]; try done.
- by intros [= <- <-].
- by intros [= <- <-].
- intros Hloop. apply IH in Hloop. destruct Ht as [_ Ht].
  by apply (cache_grows_trans w w1 w').
Qed.

(** C4.  The cache of a fresh client is empty, and every call of
    [DoWithHeaders] keeps every key the cache had (nothing is evicted) and
    leaves each entry either as it was or as an entry made from a 2xx
    response to a GET, filed under the method and the full URL of that
    request, with the response's ETag and body, both non-empty.  So when
    every entry was made from such a response before the call, every entry
    is afterwards: no other response creates or changes one. *)
Theorem cache_entries_come_from_get_responses :
  (forall t, cache (fresh_world t) = ∅) /\
  (forall req v w out w',
      DoWithHeaders transport c req v w = Some (out, w') ->
      (forall k, is_Some (cache w !! k) -> is_Some (cache w' !! k)) /\
      (forall k e, cache w' !! k = Some e ->
                   cache w !! k = Some e \/ from_get_response transport k e) /\
      ((forall k e, cache w !! k = Some e -> from_get_response transport k e) ->
       forall k e, cache w' !! k = Some e -> from_get_response transport k e)).
Proof.
split; [done |].
intros req v w out w' Hdo.
assert (Hg : cache_grows transport w w').
{ destruct req as [req|]; cbn [DoWithHeaders] in Hdo.
  - by apply attempt_loop_cache in Hdo.
  - injection Hdo as _ <-. by apply cache_grows_refl. }
destruct Hg as [Hkeys Hentries].
split; [done |]. split; [done |].
intros Hinv k e Hk. destruct (Hentries k e Hk) as [Hold | Hnew]; [| done].
by apply Hinv.
Qed.

End Cache.

(** [cache_entries_come_from_get_responses] at the first GET of a caching
    client against the server with one resource version: the call leaves
    one entry, and it comes from the response. *)
Lemma cache_entries_come_from_get_responses_witness :
  let c := Scenario.client "https://example.com" true Scenario.default_policy in
  let server := Scenario.versioned "etag-123" Scenario.ok_body in
  exists req out w',
    Scenario.get c Background "/api" = Some req /\
    DoWithHeaders (H := Plain.lib) server c (Some req) Scenario.any_value
                  (fresh_world 0) = Some (out, w') /\
    cache w' !! "GET https://example.com/api"
      = Some (mkCacheEntry "etag-123" Scenario.ok_body 0) /\
    forall k e, cache w' !! k = Some e ->
                from_get_response (H := Plain.lib) server k e.
Proof.
intros c server.
destruct (Scenario.get c Background "/api") as [req|] eqn:Hreq;
  [| discriminate Hreq].
destruct (DoWithHeaders (H := Plain.lib) server c (Some req) Scenario.any_value
                        (fresh_world 0)) as [[out w']|] eqn:Hdo.
- exists req, out, w'. split; [done |]. split; [done |]. split.
  + injection Hreq as <-. vm_compute in Hdo. injection Hdo as _ <-.
    vm_compute. reflexivity.
  + pose proof (cache_entries_come_from_get_responses (H := Plain.lib) server c)
      as [_ Hcall].
    destruct (Hcall (Some req) Scenario.any_value (fresh_world 0) out w' Hdo)
      as (_ & _ & Hinv).
    apply Hinv. intros k e Hk. unfold fresh_world in Hk. cbn [cache] in Hk.
    by rewrite lookup_empty in Hk.
- injection Hreq as <-. vm_compute in Hdo. discriminate Hdo.
Defined.

Section RoundTrip.
Context `{GoLib}.
Variable transport : Transport.
Variable c : Client.

Lemma attempt_loop_return (fuel : nat) (req : Request) (v : Target)
      (attempts : Z) (w w' : World) (out : Outcome) :
  turn transport c req v attempts w = Return out w' ->
  attempt_loop transport c fuel req v attempts w = Some (out, w').
Proof. intros Ht. destruct fuel; cbn [attempt_loop]; by rewrite Ht. Qed.

Lemma cloneRequest_same (req req0 : Request) :
  cloneRequest req = inr req0 ->
  Method req0 = Method req /\ URL req0 = URL req /\
  ReqHeader req0 = ReqHeader req /\ Ctx req0 = Ctx req.
Proof.
unfold cloneRequest. destruct (Body req); [| by intros [= <-]].
destruct (GetBody req) as [[e|b]|]; try done. by intros [= <-].
Qed.

Lemma conditional_same (w : World) (r : Request) :
  Method (conditional c w r) = Method r /\
  URL (conditional c w r) = URL r.
Proof.
unfold conditional. destruct (_ && _); [| done]. by destruct (negb _).
Qed.

Lemma cacheKey_conditional (w : World) (r : Request) :
  cacheKey (conditional c w r) = cacheKey r.
Proof.
unfold cacheKey. by destruct (conditional_same w r) as [-> ->].
Qed.

(** The request of an attempt carries the ETag of the cached entry. *)
Lemma conditional_cached (w : World) (r : Request) (e : cacheEntry) :
  enableCache c = true -> Method r = MethodGet ->
  cache w !! cacheKey r = Some e -> etag e <> EmptyString ->
  conditional c w r = with_header r "If-None-Match" (etag e).
Proof.
intros Hcache Hget Hk Htag. unfold conditional, cachedETag.
rewrite Hcache, Hget, Hk. cbn [andb]. apply String.eqb_neq in Htag.
rewrite Htag. done.
Qed.

(** Without an entry the request goes out as the caller made it. *)
Lemma conditional_uncached (w : World) (r : Request) :
  cache w !! cacheKey r = None -> conditional c w r = r.
Proof.
intros Hk. unfold conditional, cachedETag. rewrite Hk.
by destruct (_ && _).
Qed.

(** C6, as amended.  When a caching client sends a GET, receives 304 and
    holds no cache entry for the method and URL of the request,
    [DoWithHeaders] returns the error [cached response missing for <URL>]
    for every target that is not nil, writer or value, and nothing reaches
    the target. *)
Theorem not_modified_without_entry_is_an_error
        (req req0 : Request) (v : Target) (w : World) (resp : Response) :
  enableCache c = true ->
  cloneRequest req = inr req0 ->
  Method req = MethodGet ->
  cache w !! cacheKey req = None ->
  result (transport (sent w) req0) = inr resp ->
  StatusCode resp = StatusNotModified ->
  v <> TNil ->
  exists w',
    DoWithHeaders transport c (Some req) v w
    = Some (mkOutcome (Some (RespHeader resp))
                      (Some (Errorf ("cached response missing for "
                                     +:+ URL_String (URL req))))
                      Nothing, w') /\
    sent w' = sent w ++ [req0].
Proof.
intros Hcache Hclone Hget Hmiss Hres Hcode Hv.
destruct (cloneRequest_same req req0 Hclone) as (Hm & Hu & _ & _).
assert (Hkey : cacheKey req0 = cacheKey req)
  by (unfold cacheKey; by rewrite Hm, Hu).
assert (Hcond : conditional c w req0 = req0)
  by (apply conditional_uncached; by rewrite Hkey).
cbn [DoWithHeaders].
eexists. split.
- apply attempt_loop_return.
  rewrite (turn_not_modified transport c req req0 v 0 w resp); try done.
  + rewrite Hcond. cbn zeta.
    destruct (after_response_frame transport w req0 resp) as [Hc _].
    unfold applyCachedResponse. rewrite Hc, Hkey, Hmiss, Hu.
    destruct v; done.
  + by rewrite Hm.
  + by rewrite Hcond.
- by destruct (after_response_frame transport w req0 resp) as [_ ->].
Qed.

End RoundTrip.

Section EtagRoundTrip.
Context `{GoLib}.
Variable transport : Transport.
Variable c : Client.

(** What a target that is not nil observes of given bytes: the bytes, as
    written or as decoded, and the error of the write or of the decoding. *)
Lemma applyCachedResponse_hit (w : World) (r : Request) (v : Target)
      (e : cacheEntry) :
  cache w !! cacheKey r = Some e -> body e <> EmptyString ->
  applyCachedResponse w r v =
    match v with
    | TNil => (None, Nothing)
    | TWriter write => (write (body e), Written (body e))
    | TValue unmarshal => (unmarshal (body e), Decoded (body e))
    end.
Proof.
intros Hk Hb. unfold applyCachedResponse. rewrite Hk.
apply String.eqb_neq in Hb. rewrite Hb. by destruct v.
Qed.

(** C5, as amended.  With caching enabled, take a GET whose 2xx response
    carries the ETag [E1] and the non-empty body [B1], and whose target is a
    value to decode into (not nil, not a writer): the caller's decoder is
    given [B1].  A second GET for the same method and URL then goes out
    with [If-None-Match: E1]; when the server answers it with 304, the
    caller's target, a value or a writer, is given [B1] again, from the
    cache and whatever the 304 response holds, and the two calls together
    have sent exactly two requests. *)
Theorem etag_round_trip (req req0 : Request) (w : World)
        (resp1 resp2 : Response) (unmarshal1 : string -> option error)
        (v2 : Target) :
  enableCache c = true ->
  cloneRequest req = inr req0 ->
  Method req = MethodGet ->
  result (transport (sent w) (conditional c w req0)) = inr resp1 ->
  200 <= StatusCode resp1 < 300 ->
  BodyErr resp1 = None ->
  Get (RespHeader resp1) "ETag" <> EmptyString ->
  RespBody resp1 <> EmptyString ->
  result (transport (sent w ++ [conditional c w req0])
                    (with_header req0 "If-None-Match"
                                 (Get (RespHeader resp1) "ETag")))
    = inr resp2 ->
  StatusCode resp2 = StatusNotModified ->
  v2 <> TNil ->
  exists out1 w1 out2 w2,
    DoWithHeaders transport c (Some req) (TValue unmarshal1) w
      = Some (out1, w1) /\
    delivered out1 = Decoded (RespBody resp1) /\
    out_err out1 = unmarshal1 (RespBody resp1) /\
    DoWithHeaders transport c (Some req) v2 w1 = Some (out2, w2) /\
    sent w2 = sent w ++ [conditional c w req0;
                         with_header req0 "If-None-Match"
                                     (Get (RespHeader resp1) "ETag")] /\
    delivered out2 = match v2 with
                     | TWriter _ => Written (RespBody resp1)
                     | _ => Decoded (RespBody resp1)
                     end /\
    out_err out2 = match v2 with
                   | TNil => None
                   | TWriter write => write (RespBody resp1)
                   | TValue unmarshal => unmarshal (RespBody resp1)
                   end.
Proof.
intros Hcache Hclone Hget Hres1 Hcode1 Herr1 Htag Hbody Hres2 Hcode2 Hv2.
destruct (cloneRequest_same req req0 Hclone) as (Hm & Hu & _ & _).
assert (Hget0 : Method req0 = MethodGet) by (by rewrite Hm).
set (r1 := conditional c w req0) in *.
set (E1 := Get (RespHeader resp1) "ETag") in *.
set (B1 := RespBody resp1) in *.
set (r2 := with_header req0 "If-None-Match" E1) in *.
set (w3 := after_response transport w r1 resp1).
destruct (after_response_frame transport w r1 resp1) as [Hc3 Hs3].
fold w3 in Hc3, Hs3.
set (entry := mkCacheEntry E1 B1 (now w3)).
set (w1 := set_cache w3 (<[cacheKey r1 := entry]> (cache w3))).
assert (Hkey1 : cacheKey r1 = cacheKey req0)
  by apply cacheKey_conditional.
assert (Hturn1 : turn transport c req (TValue unmarshal1) 0 w
                 = Return (mkOutcome (Some (RespHeader resp1))
                                     (unmarshal1 B1) (Decoded B1)) w1).
{ rewrite (turn_success transport c req req0 (TValue unmarshal1) 0 w resp1)
    by done.
  fold r1 w3. unfold deliver. rewrite Herr1, Hcache.
  destruct (conditional_same c w req0) as [Hm1 _]. fold r1 in Hm1.
  rewrite Hm1, Hget0. fold E1 B1.
  apply String.eqb_neq in Htag as Htag'. apply String.eqb_neq in Hbody as Hbody'.
  rewrite Htag', Hbody'. cbn [andb negb String.eqb].
  unfold storeCache. rewrite Htag', Hbody'. cbn [orb]. done. }
assert (Hlook : cache w1 !! cacheKey req0 = Some entry).
{ unfold w1. cbn [cache set_cache]. rewrite <- Hkey1. apply lookup_insert_eq. }
assert (Hcond2 : conditional c w1 req0 = r2).
{ by apply (conditional_cached c w1 req0 entry). }
assert (Hs1 : sent w1 = sent w ++ [r1]) by done.
set (w4 := after_response transport w1 r2 resp2).
destruct (after_response_frame transport w1 r2 resp2) as [Hc4 Hs4].
fold w4 in Hc4, Hs4.
assert (Hkey2 : cacheKey r2 = cacheKey req0) by done.
assert (Hturn2 : turn transport c req v2 0 w1
                 = (let '(err, d) := applyCachedResponse w4 r2 v2 in
                    Return (mkOutcome (Some (RespHeader resp2)) err d) w4)).
{ rewrite (turn_not_modified transport c req req0 v2 0 w1 resp2); try done.
  - by rewrite Hcond2.
  - by rewrite Hcond2, Hs1. }
rewrite (applyCachedResponse_hit w4 r2 v2 entry) in Hturn2;
  [| by rewrite Hc4, Hkey2 | done].
cbn [body entry] in Hturn2.
exists (mkOutcome (Some (RespHeader resp1)) (unmarshal1 B1) (Decoded B1)), w1,
       (mkOutcome (Some (RespHeader resp2))
                  match v2 with
                  | TNil => None
                  | TWriter write => write B1
                  | TValue unmarshal => unmarshal B1
                  end
                  match v2 with
                  | TWriter _ => Written B1
                  | _ => Decoded B1
                  end), w4.
cbn [DoWithHeaders].
split; [by apply attempt_loop_return |].
split; [done |]. split; [done |].
split.
{ apply attempt_loop_return. rewrite Hturn2. by destruct v2. }
split; [| done].
rewrite Hs4, Hs1, <- app_assoc. done.
Qed.

End EtagRoundTrip.

(** [etag_round_trip] at the server with one resource version: the first
    GET is decoded into a value, the second is written to a stream. *)
Lemma etag_round_trip_witness :
  let c := Scenario.client "https://example.com" true Scenario.default_policy in
  let server := Scenario.versioned "etag-123" Scenario.ok_body in
  exists req out1 w1 out2 w2,
    Scenario.get c Background "/api" = Some req /\
    DoWithHeaders (H := Plain.lib) server c (Some req) Scenario.any_value
                  (fresh_world 0) = Some (out1, w1) /\
    delivered out1 = Decoded Scenario.ok_body /\
    DoWithHeaders (H := Plain.lib) server c (Some req) Scenario.any_writer w1
      = Some (out2, w2) /\
    map (fun r => Get (ReqHeader r) "If-None-Match") (sent w2)
      = [EmptyString; "etag-123"] /\
    delivered out2 = Written Scenario.ok_body /\
    out_err out2 = None.
Proof.
intros c server.
destruct (Scenario.get c Background "/api") as [req|] eqn:Hreq;
  [| discriminate Hreq].
injection Hreq as Hreq.
destruct (etag_round_trip (H := Plain.lib) server c req req (fresh_world 0)
            (Scenario.response 200 "200 OK" (Set_ ∅ "ETag" "etag-123")
                               Scenario.ok_body)
            (Scenario.response 304 "304 Not Modified"
                               (Set_ ∅ "ETag" "etag-123") "")
            (fun _ => None) Scenario.any_writer)
  as (out1 & w1 & out2 & w2 & Hdo1 & Hd1 & _ & Hdo2 & Hsent & Hd2 & He2);
  try reflexivity; try (rewrite <- Hreq; reflexivity); try discriminate.
- cbn [StatusCode Scenario.response]. lia.
- exists req, out1, w1, out2, w2.
  split; [reflexivity |]. split; [exact Hdo1 |]. split; [exact Hd1 |].
  split; [exact Hdo2 |]. split; [| split; [exact Hd2 | exact He2]].
  rewrite Hsent, <- Hreq. reflexivity.
Defined.

(** C5 as stated fails for a stream target.  A caching client streams a
    GET whose response carries the ETag [E1] and the body [B1] to a writer:
    the writer receives [B1] and the cache stays empty.  The second GET for
    the same URL goes out without [If-None-Match], and when the server
    answers it with 304 the call fails with [cached response missing] and
    the writer receives nothing. *)
Lemma streamed_response_is_not_cached :
  let c := Scenario.client "https://example.com" true Scenario.default_policy in
  let server := Scenario.once_then_304 "E1" "B1" in
  exists req out1 w1 out2 w2,
    Scenario.get c Background "/api" = Some req /\
    DoWithHeaders (H := Plain.lib) server c (Some req) Scenario.any_writer
                  (fresh_world 0) = Some (out1, w1) /\
    delivered out1 = Written "B1" /\ out_err out1 = None /\
    cache w1 = ∅ /\
    DoWithHeaders (H := Plain.lib) server c (Some req) Scenario.any_writer w1
      = Some (out2, w2) /\
    map (fun r => Get (ReqHeader r) "If-None-Match") (sent w2)
      = [EmptyString; EmptyString] /\
    map (fun r => Plain.URL_String (URL r)) (sent w2)
      = ["https://example.com/api"; "https://example.com/api"] /\
    delivered out2 = Nothing /\
    out_err out2
      = Some (Errorf "cached response missing for https://example.com/api").
Proof.
intros c server.
destruct (Scenario.get c Background "/api") as [req|] eqn:Hreq;
  [| discriminate Hreq].
destruct (DoWithHeaders (H := Plain.lib) server c (Some req) Scenario.any_writer
                        (fresh_world 0)) as [[out1 w1]|] eqn:Hdo1.
- destruct (DoWithHeaders (H := Plain.lib) server c (Some req)
                          Scenario.any_writer w1) as [[out2 w2]|] eqn:Hdo2.
  + exists req, out1, w1, out2, w2.
    injection Hreq as <-.
    vm_compute in Hdo1. injection Hdo1 as <- <-.
    vm_compute in Hdo2. injection Hdo2 as <- <-.
    repeat split; reflexivity.
  + injection Hreq as <-.
    vm_compute in Hdo1. injection Hdo1 as <- <-.
    vm_compute in Hdo2. discriminate Hdo2.
- injection Hreq as <-. vm_compute in Hdo1. discriminate Hdo1.
Qed.

(** [not_modified_without_entry_is_an_error] at a fresh caching client whose
    server answers 304: the call with a value target. *)
Lemma not_modified_without_entry_is_an_error_witness :
  let c := Scenario.client "https://example.com" true Scenario.default_policy in
  exists req out w',
    Scenario.get c Background "/api" = Some req /\
    DoWithHeaders (H := Plain.lib) Scenario.always_304 c (Some req)
                  Scenario.any_value (fresh_world 0) = Some (out, w') /\
    out_err out
      = Some (Errorf "cached response missing for https://example.com/api") /\
    delivered out = Nothing.
Proof.
intros c.
destruct (Scenario.get c Background "/api") as [req|] eqn:Hreq;
  [| discriminate Hreq].
injection Hreq as Hreq.
destruct (not_modified_without_entry_is_an_error (H := Plain.lib)
            Scenario.always_304 c req req Scenario.any_value (fresh_world 0)
            (Scenario.response 304 "304 Not Modified" ∅ ""))
  as (w' & Hdo & _);
  try reflexivity; try (rewrite <- Hreq; reflexivity); try discriminate.
eexists req, _, w'. split; [reflexivity |]. split; [exact Hdo |].
cbn [out_err delivered]. rewrite <- Hreq. split; reflexivity.
Defined.

(** C6 as stated fails for a nil target.  A fresh caching client sends a
    GET, the server answers 304, no entry exists for the request, and
    [DoWithHeaders] with a nil target returns no error. *)
Lemma not_modified_without_entry_nil_target :
  let c := Scenario.client "https://example.com" true Scenario.default_policy in
  exists req out w',
    Scenario.get c Background "/api" = Some req /\
    cache (fresh_world 0) !! cacheKey (H := Plain.lib) req = None /\
    DoWithHeaders (H := Plain.lib) Scenario.always_304 c (Some req) TNil
                  (fresh_world 0) = Some (out, w') /\
    map (fun r => Plain.URL_String (URL r)) (sent w')
      = ["https://example.com/api"] /\
    out_err out = None /\
    delivered out = Nothing.
Proof.
intros c.
destruct (Scenario.get c Background "/api") as [req|] eqn:Hreq;
  [| discriminate Hreq].
destruct (DoWithHeaders (H := Plain.lib) Scenario.always_304 c (Some req) TNil
                        (fresh_world 0)) as [[out w']|] eqn:Hdo.
- exists req, out, w'. injection Hreq as <-.
  vm_compute in Hdo. injection Hdo as <- <-.
  repeat split; reflexivity.
- injection Hreq as <-. vm_compute in Hdo. discriminate Hdo.
Qed.

(** ** The error decoder *)

Section ErrorDecoder.
Context `{GoLib}.
Import strings.

Lemma pick_captcha_none (bestErr : apiErrEntry) (entries : list apiErrEntry) :
  Forall (fun e => isCaptchaException (ExceptionName e) = false) entries ->
  pick_captcha bestErr entries = bestErr.
Proof.
induction 1 as [|e entries He _ IH]; cbn [pick_captcha]; [done |].
by rewrite He.
Qed.

Lemma pick_captcha_first (bestErr e : apiErrEntry)
      (pre post : list apiErrEntry) :
  Forall (fun x => isCaptchaException (ExceptionName x) = false) pre ->
  isCaptchaException (ExceptionName e) = true ->
  pick_captcha bestErr (pre ++ e :: post) = e.
Proof.
intros Hpre He. induction Hpre as [|x pre Hx _ IH]; cbn [pick_captcha app].
- by rewrite He.
- by rewrite Hx.
Qed.

(** C7, as amended.  For a response whose body was read in full, is not
    empty and decodes to a non-empty list of entries: when no entry's
    classifier names the CAPTCHA lock the message is built from the first
    entry, with nothing put before it; otherwise it is built from the first
    entry whose classifier does, and the hint
    [CAPTCHA verification required: ] is put before that entry's message
    unless the message already mentions CAPTCHA in any letter case.  When
    the body decodes to no entry the result is the status text, a colon and
    the trimmed body; when the body is empty it is the status text alone. *)
Theorem decodeError_message (resp : Response) :
  (forall first rest,
      BodyErr resp = None -> RespBody resp <> EmptyString ->
      Unmarshal_apiErr (RespBody resp) = first :: rest ->
      Forall (fun e => isCaptchaException (ExceptionName e) = false)
             (first :: rest) ->
      decodeError resp = Errorf (Status resp +:+ ": " +:+ Message first)) /\
  (forall pre e post,
      BodyErr resp = None -> RespBody resp <> EmptyString ->
      Unmarshal_apiErr (RespBody resp) = pre ++ e :: post ->
      Forall (fun x => isCaptchaException (ExceptionName x) = false) pre ->
      isCaptchaException (ExceptionName e) = true ->
      decodeError resp =
        Errorf (Status resp +:+ ": " +:+
                (if Contains (ToLower (Message e)) "captcha" then Message e
                 else "CAPTCHA verification required: " +:+ Message e))) /\
  (BodyErr resp = None -> RespBody resp <> EmptyString ->
   Unmarshal_apiErr (RespBody resp) = [] ->
   decodeError resp = Errorf (Status resp +:+ ": " +:+ TrimSpace (RespBody resp))) /\
  (RespBody resp = EmptyString -> decodeError resp = Errorf (Status resp)).
Proof.
split; [| split; [| split]].
- intros first rest Herr Hbody Hdec Hnone. unfold decodeError.
  apply String.eqb_neq in Hbody. rewrite Herr, Hbody, Hdec. cbn [andb negb].
  rewrite (pick_captcha_none first _ Hnone).
  apply Forall_cons in Hnone as [-> _]. done.
- intros pre e post Herr Hbody Hdec Hpre He. unfold decodeError.
  apply String.eqb_neq in Hbody. rewrite Herr, Hbody, Hdec. cbn [andb negb].
  destruct (pre ++ e :: post) as [|first rest] eqn:Hl;
    [by destruct pre |].
  rewrite <- Hl, (pick_captcha_first first e pre post Hpre He), He.
  by destruct (Contains _ "captcha").
- intros Herr Hbody Hdec. unfold decodeError.
  apply String.eqb_neq in Hbody. by rewrite Herr, Hbody, Hdec.
- intros Hbody. unfold decodeError. rewrite Hbody. cbn.
  by destruct (BodyErr resp).
Qed.

End ErrorDecoder.

(** [decodeError_message] at the bodies of the package's own test: the
    CAPTCHA entry wins over the generic one and gets the hint; the empty
    body gives the status alone. *)
Lemma decodeError_message_witness :
  decodeError (H := Plain.lib)
              (Scenario.response 403 "403 Forbidden" ∅ Scenario.captcha_body)
    = Errorf "403 Forbidden: CAPTCHA verification required: Account locked" /\
  decodeError (H := Plain.lib) (Scenario.response 403 "403 Forbidden" ∅ "")
    = Errorf "403 Forbidden".
Proof.
split.
- pose proof (decodeError_message (H := Plain.lib)
                (Scenario.response 403 "403 Forbidden" ∅ Scenario.captcha_body))
    as (_ & Hcaptcha & _).
  apply (Hcaptcha
           [mkEntry "XSRF check failed" ""]
           (mkEntry "Account locked"
              "com.atlassian.bitbucket.auth.CaptchaRequiredAuthenticationException")
           []); try reflexivity.
  + discriminate.
  + by constructor.
- pose proof (decodeError_message (H := Plain.lib)
                (Scenario.response 403 "403 Forbidden" ∅ ""))
    as (_ & _ & _ & Hempty).
  by apply Hempty.
Defined.

(** C7 as stated fails for an entry that is not a CAPTCHA lock.  The body
    of the not-found test decodes to one entry whose classifier is empty
    and whose message does not mention CAPTCHA; the error is the status and
    that message, with no hint before it. *)
Lemma generic_error_gets_no_hint :
  Plain.Unmarshal_apiErr Scenario.not_found_body
    = [mkEntry "Repository not found" ""] /\
  strings.Contains (strings.ToLower "Repository not found") "captcha" = false /\
  decodeError (H := Plain.lib)
              (Scenario.response 404 "404 Not Found" ∅ Scenario.not_found_body)
    = Errorf "404 Not Found: Repository not found".
Proof. repeat split; reflexivity. Qed.

(** ** The rate limit *)

Section RateLimitUpdate.
Context `{GoLib}.

(** The reset instant: a positive Unix epoch in seconds, or else an
    RFC 1123 date, or else the zero time. *)
Lemma parse_reset_cases :
  (forall s n, strconv.ParseInt s = Some n -> 0 < n ->
               parse_reset s = time_Unix n) /\
  (forall s t, strconv.ParseInt s = None -> s <> EmptyString ->
               Parse_RFC1123 s = Some t -> parse_reset s = t) /\
  (forall s n, strconv.ParseInt s = Some n -> n <= 0 ->
               parse_reset s = zero_time) /\
  (forall s, strconv.ParseInt s = None -> Parse_RFC1123 s = None ->
             parse_reset s = zero_time) /\
  parse_reset EmptyString = zero_time.
Proof.
unfold parse_reset. repeat split.
- intros s n Hn Hpos. rewrite Hn.
  destruct (String.eqb_spec s ""); [by subst |]. cbn [negb].
  by destruct (Z.ltb_spec 0 n); [| lia].
- intros s t Hn Hne Ht. apply String.eqb_neq in Hne. by rewrite Hne, Hn, Ht.
- intros s n Hn Hle. rewrite Hn. destruct (negb _); [| done].
  by destruct (Z.ltb_spec 0 n); [lia |].
- intros s Hn Ht. rewrite Hn, Ht. by destruct (negb _).
Qed.

(** C8.  [updateRateLimit] changes nothing but the stored rate limit.  It
    leaves that exactly as it was when neither the primary headers
    ([X-RateLimit-Limit], [X-RateLimit-Remaining]) nor the vendor headers
    ([X-Attempt-RateLimit-*], then [X-RateLimit-Capacity] and
    [X-RateLimit-Available]) give a non-zero limit or remaining value.
    Otherwise it replaces the whole record: with the primary pair and the
    label [bitbucket] when that pair has a non-zero value, else with the
    first vendor pair that has one and the label [atlassian]; the reset
    instant is read from [X-RateLimit-Reset], as a positive Unix epoch or
    else as an HTTP date, and is the zero time when neither parses. *)
Theorem updateRateLimit_effect (w : World) (resp : Response) :
  let h := RespHeader resp in
  let w' := updateRateLimit w resp in
  let l1 := readHeader h "X-RateLimit-Limit" in
  let r1 := readHeader h "X-RateLimit-Remaining" in
  let l2 := readHeader h "X-Attempt-RateLimit-Limit" in
  let r2 := readHeader h "X-Attempt-RateLimit-Remaining" in
  let l3 := readHeader h "X-RateLimit-Capacity" in
  let r3 := readHeader h "X-RateLimit-Available" in
  let reset := parse_reset (Get h "X-RateLimit-Reset") in
  (cache w' = cache w /\ now w' = now w /\ sent w' = sent w) /\
  (l1 = 0 /\ r1 = 0 -> l2 = 0 /\ r2 = 0 -> l3 = 0 /\ r3 = 0 -> w' = w) /\
  (l1 <> 0 \/ r1 <> 0 ->
   rate w' = mkRateLimit l1 r1 reset "bitbucket") /\
  (l1 = 0 /\ r1 = 0 -> l2 <> 0 \/ r2 <> 0 ->
   rate w' = mkRateLimit l2 r2 reset "atlassian") /\
  (l1 = 0 /\ r1 = 0 -> l2 = 0 /\ r2 = 0 -> l3 <> 0 \/ r3 <> 0 ->
   rate w' = mkRateLimit l3 r3 reset "atlassian") /\
  (forall n, strconv.ParseInt (Get h "X-RateLimit-Reset") = Some n -> 0 < n ->
             reset = time_Unix n) /\
  (forall t, strconv.ParseInt (Get h "X-RateLimit-Reset") = None ->
             Get h "X-RateLimit-Reset" <> EmptyString ->
             Parse_RFC1123 (Get h "X-RateLimit-Reset") = Some t ->
             reset = t).
Proof.
intros h w' l1 r1 l2 r2 l3 r3 reset.
split; [apply updateRateLimit_frame |].
destruct parse_reset_cases as (Hunix & Hdate & _).
assert (Hw : w' =
  if (l1 =? 0) && (r1 =? 0) then
    if (l2 =? 0) && (r2 =? 0) then
      if (l3 =? 0) && (r3 =? 0) then w
      else set_rate w (mkRateLimit l3 r3 reset "atlassian")
    else set_rate w (mkRateLimit l2 r2 reset "atlassian")
  else set_rate w (mkRateLimit l1 r1 reset "bitbucket")).
{ unfold w', updateRateLimit. fold h l1 r1 l2 r2 l3 r3 reset.
  destruct (l1 =? 0) eqn:E1, (r1 =? 0) eqn:E2, (l2 =? 0) eqn:E3,
           (r2 =? 0) eqn:E4, (l3 =? 0) eqn:E5, (r3 =? 0) eqn:E6;
    repeat (cbn [andb negb orb]; rewrite ?E1, ?E2, ?E3, ?E4, ?E5, ?E6);
    reflexivity. }
rewrite Hw. repeat split.
- intros [-> ->] [-> ->] [-> ->]. done.
- intros Hnz.
  destruct (Z.eqb_spec l1 0), (Z.eqb_spec r1 0); cbn [andb]; try done.
  destruct Hnz; done.
- intros [-> ->] Hnz. cbn [Z.eqb andb].
  destruct (Z.eqb_spec l2 0), (Z.eqb_spec r2 0); cbn [andb]; try done.
  destruct Hnz; done.
- intros [-> ->] [-> ->] Hnz. cbn [Z.eqb andb].
  destruct (Z.eqb_spec l3 0), (Z.eqb_spec r3 0); cbn [andb]; try done.
  destruct Hnz; done.
- intros n Hn Hpos. by apply Hunix.
- intros t Hn Hne Ht. by apply Hdate.
Qed.

End RateLimitUpdate.

(** [updateRateLimit_effect] at three responses: the primary headers of the
    package's caching test, vendor headers with an HTTP date, and a
    response without quota headers. *)
Lemma updateRateLimit_effect_witness :
  let stored := set_rate (fresh_world 0) (mkRateLimit 7 7 zero_time "bitbucket") in
  RateLimitState
    (updateRateLimit (H := Plain.lib) stored
       (Scenario.response 200 "200 OK"
          (Scenario.headers [("X-RateLimit-Limit", "100");
                             ("X-RateLimit-Remaining", "42");
                             ("X-RateLimit-Reset", "1767225600")]) ""))
    = mkRateLimit 100 42 (time_Unix 1767225600) "bitbucket" /\
  RateLimitState
    (updateRateLimit (H := Plain.lib) stored
       (Scenario.response 200 "200 OK"
          (Scenario.headers [("X-RateLimit-Capacity", "60");
                             ("X-RateLimit-Reset",
                              "Thu, 01 Jan 2026 00:00:00 GMT")]) ""))
    = mkRateLimit 60 0 (time_Unix 1767225600) "atlassian" /\
  updateRateLimit (H := Plain.lib) stored
    (Scenario.response 200 "200 OK"
       (Scenario.headers [("X-RateLimit-Limit", "0");
                          ("Content-Type", "application/json")]) "")
    = stored.
Proof.
intros stored. split; [| split].
- pose proof (updateRateLimit_effect (H := Plain.lib) stored
      (Scenario.response 200 "200 OK"
          (Scenario.headers [("X-RateLimit-Limit", "100");
                             ("X-RateLimit-Remaining", "42");
                             ("X-RateLimit-Reset", "1767225600")]) ""))
    as (_ & _ & Hprimary & _).
  unfold RateLimitState. rewrite Hprimary; [reflexivity |].
  left. vm_compute. discriminate.
- pose proof (updateRateLimit_effect (H := Plain.lib) stored
      (Scenario.response 200 "200 OK"
          (Scenario.headers [("X-RateLimit-Capacity", "60");
                             ("X-RateLimit-Reset",
                              "Thu, 01 Jan 2026 00:00:00 GMT")]) ""))
    as (_ & _ & _ & _ & Hvendor & _).
  unfold RateLimitState.
  rewrite Hvendor;
    [reflexivity | split; reflexivity | split; reflexivity
     | left; vm_compute; discriminate].
- pose proof (updateRateLimit_effect (H := Plain.lib) stored
      (Scenario.response 200 "200 OK"
         (Scenario.headers [("X-RateLimit-Limit", "0");
                            ("Content-Type", "application/json")]) ""))
    as (_ & Hsame & _).
  apply Hsame; split; reflexivity.
Defined.

(** ** Cancellation during the backoff *)

Section Cancellation.
Context `{GoLib}.
Variable transport : Transport.
Variable c : Client.

Lemma set_now_same (w : World) : set_now w (now w) = w.
Proof. by destruct w. Qed.

(** [backoff] with a context that is done before the wait would end:
    it reports the context's error, and the clock stands at the instant
    the context was done (or where it stood, when that was earlier). *)
Lemma backoff_cancelled (ctx : Context) (attempts : Z)
      (resp : option Response) (w : World) (t : Time) :
  attempts < MaxAttempts (retry c) ->
  done_at ctx = Some t ->
  t < now w + backoff_delay c attempts resp ->
  (backoff_delay c attempts resp <= 0 -> t <= now w) ->
  backoff c ctx attempts resp w
  = (false, Some (done_err ctx), set_now w (Z.max (now w) t)).
Proof.
intros Hlt Hctx Ht Hpast. unfold backoff, is_done. rewrite Hctx.
destruct (Z.leb_spec (MaxAttempts (retry c)) attempts); [lia |].
destruct (Z.leb_spec (backoff_delay c attempts resp) 0) as [Hle | Hgt].
- specialize (Hpast Hle).
  destruct (Z.leb_spec t (now w)); [| lia].
  by rewrite Z.max_l, set_now_same by lia.
- by destruct (Z.ltb_spec t (now w + backoff_delay c attempts resp)); [| lia].
Qed.

(** C9.  Take any turn of the retry loop that ends in a backoff: the
    attempt got a retryable status (or a transport error) and a retry is
    left.  If the caller's context is done before that backoff's wait is
    over, the wait ends at the instant of the cancellation rather than at
    the end of the delay, [DoWithHeaders] returns with the context's own
    error and without headers, and the request of this attempt is the last
    one sent. *)
Theorem cancellation_during_backoff_aborts
        (req req0 : Request) (v : Target) (attempts : Z) (w : World) (t : Time) :
  cloneRequest req = inr req0 ->
  attempts + 1 < MaxAttempts (retry c) ->
  done_at (Ctx req) = Some t ->
  (forall resp,
      result (transport (sent w) (conditional c w req0)) = inr resp ->
      shouldRetryStatus (StatusCode resp) = true ->
      let w1 := after_response transport w (conditional c w req0) resp in
      let delay := backoff_delay c (attempts + 1) (Some resp) in
      now w1 <= t < now w1 + delay ->
      forall fuel, exists w',
        attempt_loop transport c fuel req v attempts w
        = Some (mkOutcome None (Some (done_err (Ctx req))) Nothing, w') /\
        now w' = t /\
        sent w' = sent w ++ [conditional c w req0]) /\
  (forall err,
      result (transport (sent w) (conditional c w req0)) = inl err ->
      let w1 := snd (httpClient_Do transport w (conditional c w req0)) in
      let delay := backoff_delay c (attempts + 1) None in
      now w1 <= t < now w1 + delay ->
      forall fuel, exists w',
        attempt_loop transport c fuel req v attempts w
        = Some (mkOutcome None (Some (done_err (Ctx req))) Nothing, w') /\
        now w' = t /\
        sent w' = sent w ++ [conditional c w req0]).
Proof.
intros Hclone Hlt Hctx. split.
- intros resp Hres Hretry w1 delay Ht fuel.
  exists (set_now w1 (Z.max (now w1) t)). split; [| split].
  + apply attempt_loop_return. unfold turn, httpClient_Do.
    rewrite Hclone. cbn [fst snd]. rewrite Hres.
    rewrite (retryable_not_304 _ Hretry), Hretry. cbn [andb].
    fold (snd (httpClient_Do transport w (conditional c w req0))).
    change (applyAdaptiveThrottle (updateRateLimit _ resp)) with w1.
    unfold retry_or, shouldRetry.
    destruct (Z.ltb_spec (attempts + 1) (MaxAttempts (retry c))); [| lia].
    cbn [negb].
    rewrite (backoff_cancelled (Ctx req) (attempts + 1) (Some resp) w1 t);
      try done; fold delay; lia.
  + cbn [now set_now]. lia.
  + cbn [sent set_now]. unfold w1.
    by destruct (after_response_frame transport w (conditional c w req0) resp)
      as [_ ->].
- intros err Hres w1 delay Ht fuel.
  exists (set_now w1 (Z.max (now w1) t)). split; [| split].
  + apply attempt_loop_return. unfold turn, httpClient_Do.
    rewrite Hclone. cbn [fst snd]. rewrite Hres.
    change (set_now (add_sent w (conditional c w req0)) _) with w1.
    unfold retry_or, shouldRetry.
    destruct (Z.ltb_spec (attempts + 1) (MaxAttempts (retry c))); [| lia].
    cbn [negb].
    rewrite (backoff_cancelled (Ctx req) (attempts + 1) None w1 t);
      try done; fold delay; lia.
  + cbn [now set_now]. lia.
  + cbn [sent set_now]. unfold w1, httpClient_Do. done.
Qed.

End Cancellation.

(** [cancellation_during_backoff_aborts] at the package's cancellation test:
    every answer is 500, the first backoff is 500ms, and the caller cancels
    50ms into the call. *)
Lemma cancellation_during_backoff_aborts_witness :
  let c := Scenario.client "https://example.com" false
                           (mkRetryPolicy 3 (500 * Millisecond) Second) in
  let ctx := mkContext (Some (50 * Millisecond)) Canceled in
  exists req w',
    Scenario.get c ctx "/fail" = Some req /\
    DoWithHeaders (H := Plain.lib) Scenario.always_500 c (Some req) TNil
                  (fresh_world 0)
      = Some (mkOutcome None (Some Canceled) Nothing, w') /\
    now w' = 50 * Millisecond /\
    length (sent w') = 1%nat.
Proof.
intros c ctx.
destruct (Scenario.get c ctx "/fail") as [req|] eqn:Hreq;
  [| discriminate Hreq].
injection Hreq as Hreq.
pose proof (cancellation_during_backoff_aborts (H := Plain.lib)
              Scenario.always_500 c req req TNil 0 (fresh_world 0)
              (50 * Millisecond)) as Hcancel.
destruct Hcancel as [Hstatus _].
- by rewrite <- Hreq.
- reflexivity.
- by rewrite <- Hreq.
- destruct (Hstatus (Scenario.response 500 "500 Internal Server Error" ∅ "")
                    eq_refl eq_refl) with (fuel := retry_budget c)
    as (w' & Hloop & Hnow & Hsent).
  + rewrite <- Hreq. vm_compute. split; [discriminate | reflexivity].
  + exists req, w'. split; [reflexivity |]. split; [| split].
    * cbn [DoWithHeaders]. rewrite Hloop. by rewrite <- Hreq.
    * exact Hnow.
    * by rewrite Hsent.
Defined.

(* ===================================================================== *)
(** * Further properties of the client *)
(* ===================================================================== *)

(** ** Construction *)

Section Headers.

Lemma Get_Set_same (h : Header) (k v : string) : Get (Set_ h k v) k = v.
Proof. unfold Get, Set_, Header in *. by rewrite lookup_insert_eq. Qed.

Lemma Get_Set_other (h : Header) (k k' v : string) :
  CanonicalHeaderKey k <> CanonicalHeaderKey k' ->
  Get (Set_ h k v) k' = Get h k'.
Proof.
intros Hne. unfold Get, Set_, Header in *. by rewrite lookup_insert_ne.
Qed.

Lemma Get_empty (k : string) : Get ∅ k = EmptyString.
Proof. unfold Get, Header. by rewrite lookup_empty. Qed.

End Headers.

Section Constructors.
Context `{GoLib}.
Import strings.


Lemma standard_headers_Get (c : Client) (h : Header) :
  Get (standard_headers c h) "Accept" = "application/json" /\
  Get (standard_headers c h) "User-Agent" = userAgent c /\
  Get (standard_headers c h) "Authorization"
  = (if negb (String.eqb (username c) "") || negb (String.eqb (password c) "")
     then "Basic " +:+ base64 (username c +:+ ":" +:+ password c)
     else Get h "Authorization") /\
  Get (standard_headers c h) "Content-Type" = Get h "Content-Type".
Proof.
unfold standard_headers.
destruct (negb (String.eqb (username c) "") || negb (String.eqb (password c) ""));
  repeat split;
  repeat first [ rewrite Get_Set_same
               | rewrite Get_Set_other by (vm_compute; discriminate) ];
  reflexivity.
Qed.

(** X2.  Every request [NewRequest] returns asks for JSON, names the
    configured user agent, carries Basic credentials exactly when a user
    name or a password is configured, and declares a JSON body exactly
    when the caller gave one. *)
Theorem NewRequest_headers (c : Client) ctx method path body req :
  NewRequest c ctx method path body = inr req ->
  Get (ReqHeader req) "Accept" = "application/json" /\
  Get (ReqHeader req) "User-Agent" = userAgent c /\
  Get (ReqHeader req) "Authorization"
  = (if negb (String.eqb (username c) "") || negb (String.eqb (password c) "")
     then "Basic " +:+ base64 (username c +:+ ":" +:+ password c)
     else EmptyString) /\
  Get (ReqHeader req) "Content-Type"
  = match body with
    | NoPayload => EmptyString
    | _ => "application/json"
    end.
Proof.
unfold NewRequest, NewRequestWithContext.
destruct (targetURL c path) as [e|u]; [done |].
destruct body as [|p|e]; try done;
  (destruct (validMethod _); [| done]);
  (destruct ctx; [| done]); intros [= <-]; cbn [ReqHeader];
  match goal with
  | |- context [standard_headers c ?h] =>
      destruct (standard_headers_Get c h) as (-> & -> & -> & ->)
  end;
  repeat split; try (by rewrite ?Get_Set_same, ?Get_empty);
  by destruct (_ || _);
    rewrite ?Get_Set_other by (vm_compute; discriminate);
    rewrite ?Get_empty.
Qed.

End Constructors.


(** [NewRequest_headers] at a POST with a body, from a client with
    credentials. *)
Lemma NewRequest_headers_witness :
  exists req,
    NewRequest (H := Plain.lib) Cloud.signed (Some Background) "POST"
               "/repositories" (Marshals Scenario.ok_body) = inr req /\
    Get (ReqHeader req) "Accept" = "application/json" /\
    Get (ReqHeader req) "Authorization" = "Basic dXNlcjpzZWNyZXQ=" /\
    Get (ReqHeader req) "Content-Type" = "application/json".
Proof.
destruct (NewRequest (H := Plain.lib) Cloud.signed (Some Background) "POST"
               "/repositories" (Marshals Scenario.ok_body)) as [e|req] eqn:Hreq;
  [vm_compute in Hreq; discriminate |].
destruct (NewRequest_headers (H := Plain.lib) _ _ _ _ _ _ Hreq)
  as (Ha & _ & Hz & Hc).
exists req. split; [reflexivity |]. rewrite Ha, Hz, Hc. repeat split.
Defined.

Section Replay.
Context `{GoLib}.

Lemma copy_files_nil_reader (pre post : list MultipartFile) (f : MultipartFile) :
  Forall (fun g => exists content, Reader g = Some (content, None)) pre ->
  Reader f = None ->
  copy_files (pre ++ f :: post)
  = inl (Errorf ("reader is nil for file " +:+ quoted (FileName f))).
Proof.
intros Hpre Hf. induction Hpre as [|g pre [content Hg] _ IH];
  cbn [copy_files app].
- by rewrite Hf.
- by rewrite Hg, IH.
Qed.

Lemma copy_files_parts (files : list MultipartFile)
      (parts : list (string * string * string)) :
  copy_files files = inr parts ->
  Forall (fun g => exists content, Reader g = Some (content, None)) files /\
  parts = map (fun g => (FieldName g, FileName g,
                         match Reader g with
                         | Some (content, _) => content
                         | None => EmptyString
                         end)) files.
Proof.
revert parts. induction files as [|g files IH]; intros parts; cbn [copy_files].
- by intros [= <-].
- destruct (Reader g) as [[content [e|]]|] eqn:Hg; try done.
  destruct (copy_files files) as [e|rest]; [done |].
  intros [= <-]. destruct (IH rest eq_refl) as [Hall ->].
  split; [constructor; [by eexists | done] |].
  cbn [map]. by rewrite Hg.
Qed.

(** X3.  Every request the two constructors return can be replayed: its
    body is the encoded payload (none when [NewRequest] got a nil body),
    its content length is the length of that payload, and [cloneRequest]
    succeeds on it and gives the request back with the same body bytes. *)
Theorem built_requests_can_be_replayed (c : Client) :
  (forall ctx method path body req,
      NewRequest c ctx method path body = inr req ->
      Body req = match body with
                 | Marshals p => Some p
                 | _ => None
                 end /\
      ContentLength req = match Body req with
                          | Some p => Z.of_nat (String.length p)
                          | None => 0
                          end /\
      cloneRequest req = inr req) /\
  (forall boundary ctx method path files req,
      NewMultipartRequest boundary c ctx method path files = inr req ->
      (exists parts, copy_files files = inr parts /\
                     Body req = Some (multipart_encode boundary parts)) /\
      ContentLength req = match Body req with
                          | Some p => Z.of_nat (String.length p)
                          | None => 0
                          end /\
      cloneRequest req = inr req).
Proof.
split.
- intros ctx method path body req.
  unfold NewRequest, NewRequestWithContext.
  destruct (targetURL c path) as [e|u]; [done |].
  destruct body as [|p|e]; try done;
    (destruct (validMethod _); [| done]);
    (destruct ctx; [| done]); by intros [= <-].
- intros boundary ctx method path files req.
  unfold NewMultipartRequest, NewRequestWithContext.
  destruct (targetURL c path) as [e|u]; [done |].
  destruct files as [|f files]; [done |].
  destruct (copy_files (f :: files)) as [e|parts]; [done |].
  destruct (validMethod _); [| done].
  destruct ctx; [| done]. intros [= <-].
  split; [by exists parts | done].
Qed.

(** X4.  [NewMultipartRequest] checks its files before it builds anything.
    For a path it accepts: an empty list fails with
    [at least one file is required]; a list whose first file without a
    reader is [f], the files before it all readable, fails with
    [reader is nil for file "<name of f>"] (for a name that needs no
    escape between the quotes); and when a request is returned,
    the list was not empty, every file had a reader that ended without
    error, and the body is the multipart encoding of all files in their
    order. *)
Theorem NewMultipartRequest_checks_files
        (boundary : string) (c : Client) ctx method path (u : url.URL) :
  targetURL c path = inr u ->
  NewMultipartRequest boundary c ctx method path []
  = inl (Errorf "at least one file is required") /\
  (forall pre f post,
      Forall (fun g => exists content, Reader g = Some (content, None)) pre ->
      Reader f = None -> prints_as_is (FileName f) = true ->
      NewMultipartRequest boundary c ctx method path (pre ++ f :: post)
      = inl (Errorf ("reader is nil for file " +:+ quoted (FileName f)))) /\
  (forall files req,
      NewMultipartRequest boundary c ctx method path files = inr req ->
      files <> [] /\
      Forall (fun g => exists content, Reader g = Some (content, None)) files /\
      Body req
      = Some (multipart_encode boundary
                (map (fun g => (FieldName g, FileName g,
                                match Reader g with
                                | Some (content, _) => content
                                | None => EmptyString
                                end)) files))).
Proof.
intros Hu. unfold NewMultipartRequest. rewrite Hu. split; [done |]. split.
- intros pre f post Hpre Hf _.
  rewrite (copy_files_nil_reader pre post f Hpre Hf).
  by destruct pre.
- intros files req. destruct files as [|f files]; [done |].
  destruct (copy_files (f :: files)) as [e|parts] eqn:Hcopy; [done |].
  apply copy_files_parts in Hcopy as [Hall ->].
  unfold NewRequestWithContext.
  destruct (validMethod _); [| done].
  destruct ctx; [| done]. by intros [= <-].
Qed.

End Replay.

(** [built_requests_can_be_replayed] at a POST with a JSON body and at an
    upload of one file. *)
Lemma built_requests_can_be_replayed_witness :
  (exists req,
     NewRequest (H := Plain.lib) Cloud.signed (Some Background) "POST"
                "/repositories" (Marshals Scenario.ok_body) = inr req /\
     Body req = Some Scenario.ok_body /\
     cloneRequest req = inr req) /\
  (exists req,
     NewMultipartRequest (H := Plain.lib) "xyz" Cloud.signed (Some Background)
                         "POST" "/upload"
                         [mkMultipartFile "files" "test.txt"
                                          (Some ("hello", None))] = inr req /\
     ContentLength req = match Body req with
                         | Some p => Z.of_nat (String.length p)
                         | None => 0
                         end /\
     cloneRequest req = inr req).
Proof.
pose proof (built_requests_can_be_replayed (H := Plain.lib) Cloud.signed)
  as [Hjson Hfiles].
split.
- destruct (NewRequest (H := Plain.lib) Cloud.signed (Some Background) "POST"
                "/repositories" (Marshals Scenario.ok_body)) as [e|req] eqn:Hreq;
    [vm_compute in Hreq; discriminate |].
  destruct (Hjson _ _ _ _ _ Hreq) as (Hb & _ & Hc).
  exists req. split; [reflexivity |]. split; [exact Hb | exact Hc].
- destruct (NewMultipartRequest (H := Plain.lib) "xyz" Cloud.signed
                (Some Background) "POST" "/upload"
                [mkMultipartFile "files" "test.txt" (Some ("hello", None))])
    as [e|req] eqn:Hreq; [vm_compute in Hreq; discriminate |].
  destruct (Hfiles _ _ _ _ _ _ Hreq) as (_ & Hl & Hc).
  exists req. split; [reflexivity |]. split; [exact Hl | exact Hc].
Defined.

(** [NewMultipartRequest_checks_files] at the two failing uploads of the
    package's tests: no file, and a file named [test.txt] without reader
    after one that can be read. *)
Lemma NewMultipartRequest_checks_files_witness :
  NewMultipartRequest (H := Plain.lib) "xyz" Cloud.signed (Some Background)
                      "POST" "/upload" []
  = inl (Errorf "at least one file is required") /\
  NewMultipartRequest (H := Plain.lib) "xyz" Cloud.signed (Some Background)
                      "POST" "/upload"
                      [mkMultipartFile "files" "a.txt" (Some ("hello", None));
                       mkMultipartFile "files" "test.txt" None]
  = inl (Errorf ("reader is nil for file " +:+ quoted "test.txt")).
Proof.
destruct (targetURL (H := Plain.lib) Cloud.signed "/upload") as [e|u] eqn:Hu;
  [vm_compute in Hu; discriminate |].
pose proof (NewMultipartRequest_checks_files (H := Plain.lib) "xyz"
              Cloud.signed (Some Background) "POST" "/upload" u Hu)
  as (Hnone & Hnil & _).
split; [exact Hnone |].
apply (Hnil [mkMultipartFile "files" "a.txt" (Some ("hello", None))]
            (mkMultipartFile "files" "test.txt" None) []).
- constructor; [by exists "hello" | constructor].
- reflexivity.
- reflexivity.
Defined.

(** ** Outcomes of a call *)

Section Outcomes.
Context `{GoLib}.
Variable transport : Transport.
Variable c : Client.

(** [backoff] under a context that is never done lets the loop go on
    whenever an attempt is left. *)
Lemma backoff_continues (ctx : Context) (attempts : Z)
      (resp : option Response) (w : World) :
  done_at ctx = None -> attempts < MaxAttempts (retry c) ->
  exists w', backoff c ctx attempts resp w = (true, None, w') /\
             cache w' = cache w /\ sent w' = sent w.
Proof.
intros Hctx Hlt. unfold backoff, is_done. rewrite Hctx.
destruct (Z.leb_spec (MaxAttempts (retry c)) attempts); [lia |].
destruct (_ <=? 0); by eexists.
Qed.

(** X5.  A request that has a body but no way to produce it again is
    refused before anything is sent: [DoWithHeaders] returns
    [request body cannot be replayed], without headers, and the world is
    as it was. *)
Theorem unreplayable_request_is_not_sent
        (req : Request) (v : Target) (w : World) (b : string) :
  Body req = Some b -> GetBody req = None ->
  DoWithHeaders transport c (Some req) v w
  = Some (mkOutcome None (Some (Errorf "request body cannot be replayed"))
                    Nothing, w).
Proof.
intros Hb Hg. cbn [DoWithHeaders]. apply attempt_loop_return.
unfold turn, cloneRequest. by rewrite Hb, Hg.
Qed.

(** X6.  A status that is neither 2xx nor retryable (and not a 304 the
    cache answers) ends the call at once, whatever the retry policy: one
    request is sent, and the result is the response's headers and the
    decoded error of the response. *)
Theorem client_error_is_returned_at_once
        (req req0 : Request) (v : Target) (w : World) (resp : Response) :
  cloneRequest req = inr req0 ->
  result (transport (sent w) (conditional c w req0)) = inr resp ->
  StatusCode resp < 200 \/ 300 <= StatusCode resp ->
  shouldRetryStatus (StatusCode resp) = false ->
  StatusCode resp <> StatusNotModified \/ enableCache c = false
  \/ Method req <> MethodGet ->
  exists w',
    DoWithHeaders transport c (Some req) v w
    = Some (mkOutcome (Some (RespHeader resp)) (Some (decodeError resp))
                      Nothing, w') /\
    sent w' = sent w ++ [conditional c w req0].
Proof.
intros Hclone Hres Hcode Hretry Hnot304.
exists (after_response transport w (conditional c w req0) resp). split.
- cbn [DoWithHeaders]. apply attempt_loop_return.
  unfold turn, httpClient_Do. rewrite Hclone. cbn [fst snd]. rewrite Hres, Hretry.
  assert ((StatusCode resp =? StatusNotModified) && enableCache c
          && String.eqb (Method (conditional c w req0)) MethodGet = false) as ->.
  { destruct (conditional_same c w req0) as [-> _].
    destruct (cloneRequest_same req req0 Hclone) as (-> & _).
    destruct Hnot304 as [H304 | [Hc | Hm]].
    - apply Z.eqb_neq in H304. by rewrite H304.
    - rewrite Hc. by rewrite andb_false_r.
    - apply String.eqb_neq in Hm. rewrite Hm. by rewrite andb_false_r. }
  assert ((StatusCode resp <? 200) || (300 <=? StatusCode resp) = true) as ->.
  { apply orb_true_iff. destruct Hcode; [left | right]; lia. }
  done.
- by destruct (after_response_frame transport w (conditional c w req0) resp)
    as [_ ->].
Qed.

(** The loop against a server whose every answer has a retryable status,
    under a context that is never done. *)
Lemma attempt_loop_exhausts_status (req req0 : Request) (v : Target) :
  cloneRequest req = inr req0 ->
  done_at (Ctx req) = None ->
  (forall hist r, exists resp,
      result (transport hist r) = inr resp /\
      shouldRetryStatus (StatusCode resp) = true) ->
  forall (fuel : nat) (attempts : Z) (w : World),
    MaxAttempts (retry c) - 1 - attempts <= Z.of_nat fuel ->
    exists resp hist r w',
      attempt_loop transport c fuel req v attempts w
      = Some (mkOutcome (Some (RespHeader resp))
                        (Some (decodeError (reread resp))) Nothing, w') /\
      result (transport hist r) = inr resp /\
      Z.of_nat (length (sent w'))
      = Z.of_nat (length (sent w))
        + Z.max 1 (MaxAttempts (retry c) - attempts).
Proof.
intros Hclone Hctx Hserver.
induction fuel as [|fuel IH]; intros attempts w Hfuel;
  destruct (Hserver (sent w) (conditional c w req0)) as (resp & Hres & Hretry);
  destruct (Z.lt_ge_cases (attempts + 1) (MaxAttempts (retry c))) as [Hlt | Hge];
  try lia.
- (* no fuel needed: no retry is left *)
  exists resp, (sent w), (conditional c w req0),
         (after_response transport w (conditional c w req0) resp).
  split; [| split; [done |]].
  + apply attempt_loop_return. unfold turn, httpClient_Do.
    rewrite Hclone. cbn [fst snd].
    rewrite Hres, (retryable_not_304 _ Hretry), Hretry. cbn [andb].
    unfold retry_or, shouldRetry.
    by destruct (Z.ltb_spec (attempts + 1) (MaxAttempts (retry c))); [lia |].
  + destruct (after_response_frame transport w (conditional c w req0) resp)
      as [_ ->].
    rewrite length_app. cbn [length]. lia.
- (* a retry is left *)
  destruct (turn_retry transport c req req0 v attempts w resp)
    as (w1 & Hturn & _ & Hs1); try done.
  destruct (IH (attempts + 1) w1) as (resp' & hist & r & w' & Hloop & Hres' & Hlen);
    [lia |].
  exists resp', hist, r, w'. cbn [attempt_loop]. rewrite Hturn.
  split; [done |]. split; [done |].
  rewrite Hlen, Hs1, length_app. cbn [length]. lia.
- exists resp, (sent w), (conditional c w req0),
         (after_response transport w (conditional c w req0) resp).
  split; [| split; [done |]].
  + apply attempt_loop_return. unfold turn, httpClient_Do.
    rewrite Hclone. cbn [fst snd].
    rewrite Hres, (retryable_not_304 _ Hretry), Hretry. cbn [andb].
    unfold retry_or, shouldRetry.
    by destruct (Z.ltb_spec (attempts + 1) (MaxAttempts (retry c))); [lia |].
  + destruct (after_response_frame transport w (conditional c w req0) resp)
      as [_ ->].
    rewrite length_app. cbn [length]. lia.
Qed.

(** X7.  Against a server that answers every attempt with 429 or 5xx, and
    with a context that is never done, [DoWithHeaders] makes exactly
    [MaxAttempts] attempts (one when [MaxAttempts] is below one) and then
    returns the headers and the decoded error of a response the server
    gave. *)
Theorem retryable_status_is_decoded_after_last_attempt
        (req req0 : Request) (v : Target) (w : World) :
  cloneRequest req = inr req0 ->
  done_at (Ctx req) = None ->
  (forall hist r, exists resp,
      result (transport hist r) = inr resp /\
      shouldRetryStatus (StatusCode resp) = true) ->
  exists resp hist r w',
    DoWithHeaders transport c (Some req) v w
    = Some (mkOutcome (Some (RespHeader resp))
                      (Some (decodeError (reread resp))) Nothing, w') /\
    result (transport hist r) = inr resp /\
    Z.of_nat (length (sent w'))
    = Z.of_nat (length (sent w)) + Z.max 1 (MaxAttempts (retry c)).
Proof.
intros Hclone Hctx Hserver. cbn [DoWithHeaders].
destruct (attempt_loop_exhausts_status req req0 v Hclone Hctx Hserver
            (retry_budget c) 0 w)
  as (resp & hist & r & w' & Hloop & Hres & Hlen).
{ unfold retry_budget. lia. }
exists resp, hist, r, w'. split; [done |]. split; [done |].
rewrite Hlen. lia.
Qed.

(** The loop against a transport that fails every attempt, under a context
    that is never done. *)
Lemma attempt_loop_exhausts_errors (req req0 : Request) (v : Target) :
  cloneRequest req = inr req0 ->
  done_at (Ctx req) = None ->
  (forall hist r, exists err, result (transport hist r) = inl err) ->
  forall (fuel : nat) (attempts : Z) (w : World),
    MaxAttempts (retry c) - 1 - attempts <= Z.of_nat fuel ->
    exists err hist r w',
      attempt_loop transport c fuel req v attempts w
      = Some (mkOutcome None (Some err) Nothing, w') /\
      result (transport hist r) = inl err /\
      Z.of_nat (length (sent w'))
      = Z.of_nat (length (sent w))
        + Z.max 1 (MaxAttempts (retry c) - attempts).
Proof.
intros Hclone Hctx Hserver.
assert (Hturn : forall attempts w err,
  result (transport (sent w) (conditional c w req0)) = inl err ->
  turn transport c req v attempts w
  = retry_or c (failed None err) req attempts 0 None
             (snd (httpClient_Do transport w (conditional c w req0)))).
{ intros attempts w err Hres. unfold turn, httpClient_Do.
  rewrite Hclone. cbn [fst snd]. by rewrite Hres. }
assert (Hsent : forall w, sent (snd (httpClient_Do transport w (conditional c w req0)))
                          = sent w ++ [conditional c w req0]) by done.
induction fuel as [|fuel IH]; intros attempts w Hfuel;
  destruct (Hserver (sent w) (conditional c w req0)) as (err & Hres);
  destruct (Z.lt_ge_cases (attempts + 1) (MaxAttempts (retry c))) as [Hlt | Hge];
  try lia.
- exists err, (sent w), (conditional c w req0),
         (snd (httpClient_Do transport w (conditional c w req0))).
  split; [| split; [done |]].
  + apply attempt_loop_return. rewrite (Hturn _ _ err Hres).
    unfold retry_or, shouldRetry.
    by destruct (Z.ltb_spec (attempts + 1) (MaxAttempts (retry c))); [lia |].
  + rewrite Hsent, length_app. cbn [length]. lia.
- destruct (backoff_continues (Ctx req) (attempts + 1) None
              (snd (httpClient_Do transport w (conditional c w req0))) Hctx Hlt)
    as (w1 & Hb & _ & Hs1).
  destruct (IH (attempts + 1) w1) as (err' & hist & r & w' & Hloop & Hres' & Hlen);
    [lia |].
  exists err', hist, r, w'. cbn [attempt_loop]. rewrite (Hturn _ _ err Hres).
  unfold retry_or, shouldRetry.
  destruct (Z.ltb_spec (attempts + 1) (MaxAttempts (retry c))); [| lia].
  cbn [negb]. rewrite Hb.
  split; [done |]. split; [done |].
  rewrite Hlen, Hs1, Hsent, length_app. cbn [length]. lia.
- exists err, (sent w), (conditional c w req0),
         (snd (httpClient_Do transport w (conditional c w req0))).
  split; [| split; [done |]].
  + apply attempt_loop_return. rewrite (Hturn _ _ err Hres).
    unfold retry_or, shouldRetry.
    by destruct (Z.ltb_spec (attempts + 1) (MaxAttempts (retry c))); [lia |].
  + rewrite Hsent, length_app. cbn [length]. lia.
Qed.

(** X8.  When the transport fails every attempt and the context is never
    done, [DoWithHeaders] makes exactly [MaxAttempts] attempts (one when
    [MaxAttempts] is below one) and then returns an error of the transport
    as it is, not wrapped and without headers. *)
Theorem transport_error_is_returned_after_last_attempt
        (req req0 : Request) (v : Target) (w : World) :
  cloneRequest req = inr req0 ->
  done_at (Ctx req) = None ->
  (forall hist r, exists err, result (transport hist r) = inl err) ->
  exists err hist r w',
    DoWithHeaders transport c (Some req) v w
    = Some (mkOutcome None (Some err) Nothing, w') /\
    result (transport hist r) = inl err /\
    Z.of_nat (length (sent w'))
    = Z.of_nat (length (sent w)) + Z.max 1 (MaxAttempts (retry c)).
Proof.
intros Hclone Hctx Hserver. cbn [DoWithHeaders].
destruct (attempt_loop_exhausts_errors req req0 v Hclone Hctx Hserver
            (retry_budget c) 0 w)
  as (err & hist & r & w' & Hloop & Hres & Hlen).
{ unfold retry_budget. lia. }
exists err, hist, r, w'. split; [done |]. split; [done |].
rewrite Hlen. lia.
Qed.

(** X9.  A 2xx response to a call with a value target ends the call on the
    first attempt.  When its body is empty the call succeeds without
    decoding anything, and nothing is cached even if the response has an
    ETag; when reading the body fails the read error is returned with the
    headers, and nothing is decoded or cached. *)
Theorem empty_or_unreadable_body
        (req req0 : Request) (w : World) (resp : Response)
        (unmarshal : string -> option error) :
  cloneRequest req = inr req0 ->
  result (transport (sent w) (conditional c w req0)) = inr resp ->
  200 <= StatusCode resp < 300 ->
  (RespBody resp = EmptyString -> BodyErr resp = None ->
   exists w',
     DoWithHeaders transport c (Some req) (TValue unmarshal) w
     = Some (mkOutcome (Some (RespHeader resp)) None Nothing, w') /\
     cache w' = cache w /\ sent w' = sent w ++ [conditional c w req0]) /\
  (forall e, BodyErr resp = Some e ->
   exists w',
     DoWithHeaders transport c (Some req) (TValue unmarshal) w
     = Some (mkOutcome (Some (RespHeader resp)) (Some e) Nothing, w') /\
     cache w' = cache w /\ sent w' = sent w ++ [conditional c w req0]).
Proof.
intros Hclone Hres Hcode.
destruct (after_response_frame transport w (conditional c w req0) resp)
  as [Hc Hs].
pose proof (turn_success transport c req req0 (TValue unmarshal) 0 w resp
              Hclone Hres Hcode) as Hturn.
split.
- intros Hbody Herr.
  exists (after_response transport w (conditional c w req0) resp).
  split; [| done]. cbn [DoWithHeaders]. apply attempt_loop_return.
  rewrite Hturn. unfold deliver. rewrite Herr, Hbody.
  unfold storeCache. cbn [String.eqb orb]. rewrite orb_true_r.
  by destruct (_ && _).
- intros e Herr.
  exists (after_response transport w (conditional c w req0) resp).
  split; [| done]. cbn [DoWithHeaders]. apply attempt_loop_return.
  rewrite Hturn. unfold deliver. by rewrite Herr.
Qed.

End Outcomes.

(** [unreplayable_request_is_not_sent] at a POST whose body has no
    [GetBody]. *)
Lemma unreplayable_request_is_not_sent_witness :
  DoWithHeaders (H := Plain.lib) Scenario.always_500 Cloud.signed
                (Some Cloud.one_shot) TNil (fresh_world 0)
  = Some (mkOutcome None (Some (Errorf "request body cannot be replayed"))
                    Nothing, fresh_world 0).
Proof.
apply (unreplayable_request_is_not_sent (H := Plain.lib) Scenario.always_500
         Cloud.signed Cloud.one_shot TNil (fresh_world 0) "payload");
  reflexivity.
Defined.

(** [client_error_is_returned_at_once] at a server that answers 404, for a
    client that would retry up to five times. *)
Lemma client_error_is_returned_at_once_witness :
  let c := Scenario.client Scenario.base_2_0 false
                           (mkRetryPolicy 5 (10 * Millisecond)
                                          (20 * Millisecond)) in
  exists req w',
    Scenario.get c Background "/repositories/acme/none" = Some req /\
    DoWithHeaders (H := Plain.lib) Cloud.not_found c (Some req)
                  Scenario.any_value (fresh_world 0)
    = Some (mkOutcome (Some ∅)
                      (Some (Errorf "404 Not Found: Repository not found"))
                      Nothing, w') /\
    length (sent w') = 1%nat.
Proof.
intros c.
destruct (Scenario.get c Background "/repositories/acme/none") as [req|] eqn:Hreq;
  [| vm_compute in Hreq; discriminate].
destruct (client_error_is_returned_at_once (H := Plain.lib) Cloud.not_found c
            req req Scenario.any_value (fresh_world 0)
            (Scenario.response 404 "404 Not Found" ∅ Scenario.not_found_body))
  as (w' & Hdo & Hsent).
- vm_compute in Hreq. by injection Hreq as <-.
- reflexivity.
- right. vm_compute. discriminate.
- reflexivity.
- left. discriminate.
- exists req, w'. split; [reflexivity |]. split; [exact Hdo |].
  by rewrite Hsent.
Defined.

(** [retryable_status_is_decoded_after_last_attempt] at the server that
    always answers 500, for a client with three attempts. *)
Lemma retryable_status_is_decoded_after_last_attempt_witness :
  let c := Scenario.client Scenario.base_2_0 false
                           (mkRetryPolicy 3 (10 * Millisecond)
                                          (20 * Millisecond)) in
  exists req out w',
    Scenario.get c Background "/repositories" = Some req /\
    DoWithHeaders (H := Plain.lib) Scenario.always_500 c (Some req)
                  Scenario.any_value (fresh_world 0) = Some (out, w') /\
    out_err out = Some (Errorf "500 Internal Server Error") /\
    length (sent w') = 3%nat.
Proof.
intros c.
destruct (Scenario.get c Background "/repositories") as [req|] eqn:Hreq;
  [| vm_compute in Hreq; discriminate].
destruct (retryable_status_is_decoded_after_last_attempt (H := Plain.lib)
            Scenario.always_500 c req req Scenario.any_value (fresh_world 0))
  as (resp & hist & r & w' & Hdo & Hres & Hlen).
- vm_compute in Hreq. by injection Hreq as <-.
- vm_compute in Hreq. by injection Hreq as <-.
- intros hist r. eexists. split; reflexivity.
- injection Hres as <-.
  exists req, (mkOutcome (Some ∅)
                 (Some (decodeError (H := Plain.lib)
                          (reread (Scenario.response 500
                                     "500 Internal Server Error" ∅ ""))))
                 Nothing), w'.
  split; [reflexivity |]. split; [exact Hdo |]. split; [reflexivity |].
  change (MaxAttempts (retry c)) with 3 in Hlen. cbn [sent fresh_world length] in Hlen.
  lia.
Defined.

(** [transport_error_is_returned_after_last_attempt] on a network that
    refuses every connection, for a client with the default policy. *)
Lemma transport_error_is_returned_after_last_attempt_witness :
  let c := Scenario.client Scenario.base_2_0 false Scenario.default_policy in
  exists req w',
    Scenario.get c Background "/repositories" = Some req /\
    DoWithHeaders (H := Plain.lib) Cloud.refused c (Some req)
                  Scenario.any_value (fresh_world 0)
    = Some (mkOutcome None (Some (Foreign "dial tcp: connection refused"))
                      Nothing, w') /\
    length (sent w') = 3%nat.
Proof.
intros c.
destruct (Scenario.get c Background "/repositories") as [req|] eqn:Hreq;
  [| vm_compute in Hreq; discriminate].
destruct (transport_error_is_returned_after_last_attempt (H := Plain.lib)
            Cloud.refused c req req Scenario.any_value (fresh_world 0))
  as (err & hist & r & w' & Hdo & Hres & Hlen).
- vm_compute in Hreq. by injection Hreq as <-.
- vm_compute in Hreq. by injection Hreq as <-.
- intros hist r. eexists. reflexivity.
- injection Hres as <-. exists req, w'.
  split; [reflexivity |]. split; [exact Hdo |].
  change (MaxAttempts (retry c)) with 3 in Hlen. cbn [sent fresh_world length] in Hlen.
  lia.
Defined.

(** [empty_or_unreadable_body] at a server that answers 204 with an ETag
    and no body, for a client that caches. *)
Lemma empty_or_unreadable_body_witness :
  let c := Scenario.client Scenario.base_2_0 true Scenario.default_policy in
  exists req w',
    Scenario.get c Background "/repositories" = Some req /\
    DoWithHeaders (H := Plain.lib) Cloud.no_content c (Some req)
                  Scenario.any_value (fresh_world 0)
    = Some (mkOutcome (Some (Set_ ∅ "ETag" "v1")) None Nothing, w') /\
    cache w' = ∅ /\ length (sent w') = 1%nat.
Proof.
intros c.
destruct (Scenario.get c Background "/repositories") as [req|] eqn:Hreq;
  [| vm_compute in Hreq; discriminate].
destruct (empty_or_unreadable_body (H := Plain.lib) Cloud.no_content c
            req req (fresh_world 0)
            (Scenario.response 204 "204 No Content" (Set_ ∅ "ETag" "v1") "")
            (fun _ => None))
  as [Hempty _].
- vm_compute in Hreq. by injection Hreq as <-.
- reflexivity.
- cbn. lia.
- destruct (Hempty eq_refl eq_refl) as (w' & Hdo & Hcache & Hsent).
  exists req, w'. split; [reflexivity |]. split; [exact Hdo |].
  split; [exact Hcache | by rewrite Hsent].
Defined.

(** ** Waiting *)

Section Waiting.
Context `{GoLib}.
Variable c : Client.

Lemma backoff_delay_capped (attempts : Z) (resp : option Response) :
  (forall r, resp = Some r ->
             strconv.Atoi (Get (RespHeader r) "Retry-After") = None) ->
  backoff_delay c attempts resp <= MaxBackoff (retry c).
Proof.
intros Hra. unfold backoff_delay.
set (d := if 1 <? attempts then _ else _).
assert (Hcap : (if MaxBackoff (retry c) <? d then MaxBackoff (retry c) else d)
               <= MaxBackoff (retry c))
  by (destruct (Z.ltb_spec (MaxBackoff (retry c)) d); lia).
destruct resp as [r|]; [| done].
rewrite (Hra r eq_refl). by destruct (negb _).
Qed.

(** X10.  Without a usable [Retry-After] header (none, or one that is not
    an integer) a backoff never lasts longer than [MaxBackoff], whatever
    the attempt count and even where the doubling overflows; and whenever
    [backoff] lets the loop go on it reports no error and has waited the
    computed delay, or not at all when that is not positive.  The clock
    never goes back. *)
Theorem backoff_wait_is_bounded
        (ctx : Context) (attempts : Z) (resp : option Response)
        (w w' : World) (go : bool) (err : option error) :
  backoff c ctx attempts resp w = (go, err, w') ->
  now w <= now w' /\
  (go = true ->
   err = None /\
   now w' = now w + Z.max 0 (backoff_delay c attempts resp)) /\
  ((forall r, resp = Some r ->
              strconv.Atoi (Get (RespHeader r) "Retry-After") = None) ->
   now w' <= now w + Z.max 0 (MaxBackoff (retry c))).
Proof.
intros Hb.
assert (Hnow : now w <= now w' <= now w + Z.max 0 (backoff_delay c attempts resp)
               /\ (go = true ->
                   err = None /\
                   now w' = now w + Z.max 0 (backoff_delay c attempts resp))).
{ revert Hb. unfold backoff.
  destruct (Z.leb_spec (MaxAttempts (retry c)) attempts).
  { intros [= <- <- <-]. split; [lia | done]. }
  destruct (Z.leb_spec (backoff_delay c attempts resp) 0).
  { destruct (is_done ctx (now w)); intros [= <- <- <-];
      (split; [lia |]); [done |]. intros _. split; [done | lia]. }
  destruct (done_at ctx) as [d|].
  - destruct (Z.ltb_spec d (now w + backoff_delay c attempts resp));
      intros [= <- <- <-]; cbn [now set_now]; (split; [lia |]); [done |].
    intros _. split; [done | lia].
  - intros [= <- <- <-]. cbn [now set_now]. split; [lia |].
    intros _. split; [done | lia]. }
destruct Hnow as [[Hlo Hhi] Hgo]. split; [done |]. split; [done |].
intros Hra. pose proof (backoff_delay_capped attempts resp Hra). lia.
Qed.

(** X11.  The adaptive throttle changes nothing but the clock.  It does
    not sleep when more than one request remains, when no reset instant is
    known, or when the reset instant has passed; otherwise it sleeps until
    the reset instant, but never more than five seconds. *)
Theorem applyAdaptiveThrottle_sleep (w : World) :
  let w' := applyAdaptiveThrottle w in
  cache w' = cache w /\ rate w' = rate w /\ sent w' = sent w /\
  now w <= now w' <= now w + 5 * Second /\
  (1 < Remaining (rate w) \/ Reset (rate w) = zero_time
   \/ Reset (rate w) <= now w -> w' = w) /\
  (Remaining (rate w) <= 1 -> Reset (rate w) <> zero_time ->
   now w < Reset (rate w) ->
   now w' = Z.min (Reset (rate w)) (now w + 5 * Second)).
Proof.
cbn zeta. unfold applyAdaptiveThrottle, IsZero, time_Sub, min_int64, max_int64.
destruct (Z.ltb_spec 1 (Remaining (rate w))); cbn [orb].
{ repeat split; try done; try (unfold Second; lia). }
destruct (Z.eqb_spec (Reset (rate w)) zero_time).
{ repeat split; try done; try (unfold Second; lia). }
set (sleep := Z.max _ _).
destruct (Z.leb_spec sleep 0).
{ repeat split; try done; intros; unfold sleep, Second in *; lia. }
destruct (Z.ltb_spec (5 * Second) sleep); cbn [cache rate sent now set_now];
  (repeat split; try done; intros; try (unfold sleep, Second in *; lia));
  match goal with
  | Hx : _ \/ _ \/ _ |- _ => destruct Hx as [Hr | [Hz | Hpast]]
  end; try done; unfold sleep, Second in *; lia.
Qed.

End Waiting.

(** [backoff_wait_is_bounded] at the fifth retry of a client with the
    default backoff: the doubled delay of 3.2s is cut to the two seconds
    of [MaxBackoff]. *)
Lemma backoff_wait_is_bounded_witness :
  let c := Scenario.client Scenario.base_2_0 false Scenario.patient_policy in
  exists w',
    backoff c Background 5 None (fresh_world 0) = (true, None, w') /\
    now w' = 2 * Second.
Proof.
intros c.
destruct (backoff c Background 5 None (fresh_world 0)) as [[go err] w'] eqn:Hb.
destruct (backoff_wait_is_bounded c Background 5 None (fresh_world 0) w' go err Hb)
  as (_ & Hgo & Hcap).
assert (Hgo' : go = true) by (vm_compute in Hb; by injection Hb as <- _ _).
destruct (Hgo Hgo') as [-> Hnow]. subst go.
exists w'. split; [reflexivity |].
assert (Hle : now w' <= 2 * Second) by (apply Hcap; discriminate).
rewrite Hnow in *. vm_compute. reflexivity.
Defined.

(** [applyAdaptiveThrottle_sleep] with the quota used up: a reset two
    seconds ahead is waited for, a reset a minute ahead is not. *)
Lemma applyAdaptiveThrottle_sleep_witness :
  now (applyAdaptiveThrottle
         (set_rate (fresh_world 0)
                   (mkRateLimit 100 0 (time_Unix 2) "bitbucket")))
  = 2 * Second /\
  now (applyAdaptiveThrottle
         (set_rate (fresh_world 0)
                   (mkRateLimit 100 1 (time_Unix 60) "bitbucket")))
  = 5 * Second.
Proof.
split.
- pose proof (applyAdaptiveThrottle_sleep
                (set_rate (fresh_world 0)
                          (mkRateLimit 100 0 (time_Unix 2) "bitbucket")))
    as (_ & _ & _ & _ & _ & Hsleep).
  rewrite Hsleep; [reflexivity | cbn; lia | discriminate | reflexivity].
- pose proof (applyAdaptiveThrottle_sleep
                (set_rate (fresh_world 0)
                          (mkRateLimit 100 1 (time_Unix 60) "bitbucket")))
    as (_ & _ & _ & _ & _ & Hsleep).
  rewrite Hsleep; [reflexivity | cbn; lia | discriminate | reflexivity].
Defined.

(** ** More about the cache and the rate limit *)

Section CacheUse.
Context `{GoLib}.
Variable transport : Transport.
Variable c : Client.

Lemma deliver_keeps_cache (w w' : World) (r : Request) (resp : Response)
      (v : Target) (out : Outcome) :
  cannot_store c r v ->
  deliver c w r resp v = (out, w') -> cache w' = cache w.
Proof.
intros Hno. unfold deliver. destruct v as [|write|unmarshal].
- intros [= <- <-]. destruct (_ && _); [| done].
  by destruct (storeCache_cache w r EmptyString (Get (RespHeader resp) "ETag"))
    as [-> | (_ & Hne & _)].
- by intros [= <- <-].
- destruct Hno as [Hc | [Hm | [Hv | [write Hv]]]]; try done.
  + rewrite Hc. cbn [andb]. destruct (BodyErr resp); [by intros [= <- <-] |].
    by destruct (String.eqb (RespBody resp) ""); intros [= <- <-].
  + apply String.eqb_neq in Hm. rewrite Hm, andb_false_r. cbn [andb].
    destruct (BodyErr resp); [by intros [= <- <-] |].
    by destruct (String.eqb (RespBody resp) ""); intros [= <- <-].
Qed.

Lemma turn_keeps_cache (req req0 : Request) (v : Target) (attempts : Z)
      (w : World) :
  cloneRequest req = inr req0 ->
  cannot_store c req v ->
  match turn transport c req v attempts w with
  | Return _ w' => cache w' = cache w
  | Continue _ w' => cache w' = cache w
  end.
Proof.
intros Hclone Hno. unfold turn. rewrite Hclone.
destruct (httpClient_Do _ _ _) as [res w1] eqn:Hdo.
apply httpClient_Do_frame in Hdo as (_ & Hc1 & _ & _).
destruct res as [err|resp].
- pose proof (retry_or_frame c (failed None err) req attempts 0 None w1) as Hr.
  destruct (retry_or _ _ _ _ _ _ _) as [out w2|a w2];
    destruct Hr as [-> _]; done.
- destruct (updateRateLimit_frame w1 resp) as (Hc2 & _ & _).
  destruct (applyAdaptiveThrottle_frame (updateRateLimit w1 resp))
    as (Hc3 & _ & _ & _).
  set (w3 := applyAdaptiveThrottle (updateRateLimit w1 resp)) in *.
  assert (Hc : cache w3 = cache w) by (by rewrite Hc3, Hc2, Hc1).
  destruct (_ && _ && _); [by destruct (applyCachedResponse _ _ _) |].
  destruct (shouldRetryStatus _).
  { match goal with
    | |- context [retry_or c ?g req attempts ?st ?r w3] =>
        pose proof (retry_or_frame c g req attempts st r w3) as Hr;
        destruct (retry_or c g req attempts st r w3) as [out w4|a w4]
    end; destruct Hr as [-> _]; done. }
  destruct (_ || _); [done |].
  destruct (deliver _ _ _ _ _) as [out w4] eqn:Hd.
  apply deliver_keeps_cache in Hd; [by rewrite Hd |].
  destruct (conditional_same c w req0) as [Hm _].
  destruct (cloneRequest_same req req0 Hclone) as (Hm0 & _).
  unfold cannot_store in *. rewrite Hm, Hm0. done.
Qed.

(** The loop leaves the cache alone when the call cannot store. *)
Lemma attempt_loop_keeps_cache (req : Request) (v : Target) :
  cannot_store c req v ->
  forall (fuel : nat) (attempts : Z) (w w' : World) (out : Outcome),
    attempt_loop transport c fuel req v attempts w = Some (out, w') ->
    cache w' = cache w.
Proof.
intros Hno fuel.
induction fuel as [|fuel IH]; intros attempts w w' out; cbn [attempt_loop];
  (destruct (cloneRequest req) as [e|req0] eqn:Hclone;
   [unfold turn; rewrite Hclone; by intros [= <- <-] |]);
  pose proof (turn_keeps_cache req req0 v attempts w Hclone Hno) as Ht;
  destruct (turn _ _ _ _ _ _) as [out1 w1|a w1]; try done.
- by intros [= <- <-].
- by intros [= <- <-].
- intros Hloop. apply IH in Hloop. by rewrite Hloop.
Qed.

(** X12.  A call cannot write the cache when caching is off, when the
    method is not GET, or when the target is nil or a writer: after
    [DoWithHeaders] the cache is exactly as before, whatever the server
    answered and however many attempts were made. *)
Theorem only_decoded_gets_are_cached
        (req : Request) (v : Target) (w w' : World) (out : Outcome) :
  enableCache c = false \/ Method req <> MethodGet \/ v = TNil
  \/ (exists write, v = TWriter write) ->
  DoWithHeaders transport c (Some req) v w = Some (out, w') ->
  cache w' = cache w.
Proof.
intros Hno Hdo. cbn [DoWithHeaders] in Hdo.
apply (attempt_loop_keeps_cache req v) in Hdo; [exact Hdo |].
unfold cannot_store. destruct Hno as [Hc | [Hm | [Hv | Hv]]]; auto.
Qed.

(** X13.  Storing and finding agree.  After [storeCache] with a non-empty
    ETag and body, [cachedETag] gives that ETag for every request with the
    same method and URL, whatever its headers, and [applyCachedResponse]
    hands that body to a writer or a value target; requests with another
    cache key find what they found before.  With an empty ETag or an empty
    body [storeCache] changes nothing. *)
Theorem storeCache_then_lookup
        (w : World) (req : Request) (content tag : string) :
  (tag <> EmptyString -> content <> EmptyString ->
   let w' := storeCache w req content tag in
   (forall req', Method req' = Method req -> URL req' = URL req ->
      cachedETag w' req' = tag /\
      (forall write, applyCachedResponse w' req' (TWriter write)
                     = (write content, Written content)) /\
      (forall unmarshal, applyCachedResponse w' req' (TValue unmarshal)
                         = (unmarshal content, Decoded content))) /\
   (forall req' v, cacheKey req' <> cacheKey req ->
      cachedETag w' req' = cachedETag w req' /\
      applyCachedResponse w' req' v = applyCachedResponse w req' v)) /\
  (tag = EmptyString \/ content = EmptyString ->
   storeCache w req content tag = w).
Proof.
split.
- intros Htag Hbody w'.
  assert (Hw' : cache w'
                = <[cacheKey req := mkCacheEntry tag content (now w)]> (cache w)).
  { unfold w', storeCache. apply String.eqb_neq in Htag, Hbody.
    by rewrite Htag, Hbody. }
  split.
  + intros req' Hm Hu.
    assert (Hkey : cacheKey req' = cacheKey req)
      by (unfold cacheKey; by rewrite Hm, Hu).
    unfold cachedETag, applyCachedResponse. rewrite Hkey, Hw', lookup_insert_eq.
    cbn [etag body]. apply String.eqb_neq in Hbody. rewrite Hbody. done.
  + intros req' v Hne. unfold cachedETag, applyCachedResponse.
    by rewrite Hw', lookup_insert_ne.
- intros Hempty. unfold storeCache.
  destruct Hempty as [-> | ->]; [done |]. by rewrite orb_true_r.
Qed.

End CacheUse.

(** [only_decoded_gets_are_cached] at a GET that streams into a writer,
    from a client that caches and a server that sends an ETag. *)
Lemma only_decoded_gets_are_cached_witness :
  let c := Scenario.client Scenario.base_2_0 true Scenario.default_policy in
  exists req out w',
    Scenario.get c Background "/repositories" = Some req /\
    DoWithHeaders (H := Plain.lib) (Scenario.versioned "v1" Scenario.ok_body)
                  c (Some req) Scenario.any_writer (fresh_world 0)
    = Some (out, w') /\
    cache w' = ∅.
Proof.
intros c.
destruct (Scenario.get c Background "/repositories") as [req|] eqn:Hreq;
  [| vm_compute in Hreq; discriminate].
destruct (DoWithHeaders (H := Plain.lib)
            (Scenario.versioned "v1" Scenario.ok_body) c (Some req)
            Scenario.any_writer (fresh_world 0)) as [[out w']|] eqn:Hdo.
- exists req, out, w'. split; [reflexivity |]. split; [exact Hdo |].
  apply (only_decoded_gets_are_cached (H := Plain.lib)
           (Scenario.versioned "v1" Scenario.ok_body) c req
           Scenario.any_writer (fresh_world 0) w' out); [| exact Hdo].
  do 3 right. by eexists.
- destruct (DoWithHeaders_returns (H := Plain.lib)
              (Scenario.versioned "v1" Scenario.ok_body) c (Some req)
              Scenario.any_writer (fresh_world 0)) as (o & w1 & Hsome & _).
  rewrite Hdo in Hsome. discriminate.
Defined.

(** [storeCache_then_lookup] at one stored entry: a request for the same
    URL with another [Accept] finds it. *)
Lemma storeCache_then_lookup_witness :
  let req := mkRequest "GET" url.empty ∅ Background None None 0 in
  let w' := storeCache (H := Plain.lib) (fresh_world 0) req
                       Scenario.ok_body "v1" in
  cachedETag (H := Plain.lib) w' (with_header req "Accept" "text/plain")
  = "v1" /\
  applyCachedResponse (H := Plain.lib) w'
                      (with_header req "Accept" "text/plain")
                      Scenario.any_value
  = (None, Decoded Scenario.ok_body).
Proof.
intros req w'.
pose proof (storeCache_then_lookup (H := Plain.lib) (fresh_world 0) req
              Scenario.ok_body "v1") as [Hstored _].
destruct (Hstored ltac:(discriminate) ltac:(discriminate)) as [Hsame _].
destruct (Hsame (with_header req "Accept" "text/plain") eq_refl eq_refl)
  as (Htag & _ & Hvalue).
split; [exact Htag | exact (Hvalue (fun _ => None))].
Defined.

Section RateLimitSequence.
Context `{GoLib}.

(** What [updateRateLimit] does depends on the response alone: it keeps the
    world, or it stores one record that the response determines. *)
Lemma updateRateLimit_shape (resp : Response) :
  (has_quota (RespHeader resp) = false /\
   forall w, updateRateLimit w resp = w) \/
  (has_quota (RespHeader resp) = true /\
   exists r, forall w, updateRateLimit w resp = set_rate w r).
Proof.
unfold has_quota, updateRateLimit.
set (l1 := readHeader _ "X-RateLimit-Limit").
set (r1 := readHeader _ "X-RateLimit-Remaining").
set (l2 := readHeader _ "X-Attempt-RateLimit-Limit").
set (r2 := readHeader _ "X-Attempt-RateLimit-Remaining").
set (l3 := readHeader _ "X-RateLimit-Capacity").
set (r3 := readHeader _ "X-RateLimit-Available").
destruct (l1 =? 0) eqn:E1, (r1 =? 0) eqn:E2, (l2 =? 0) eqn:E3,
         (r2 =? 0) eqn:E4, (l3 =? 0) eqn:E5, (r3 =? 0) eqn:E6;
  cbn [andb negb orb];
  first [ left; split; [reflexivity |]; intros w;
          repeat (cbn [andb negb orb]; rewrite ?E1, ?E2, ?E3, ?E4, ?E5, ?E6);
          reflexivity
        | right; split; [reflexivity |]; eexists; intros w;
          repeat (cbn [andb negb orb]; rewrite ?E1, ?E2, ?E3, ?E4, ?E5, ?E6);
          reflexivity ].
Qed.

(** X14.  The stored rate limit is that of the last response that carried
    quota headers.  Of two responses in a row, the second replaces what the
    first stored when it has a non-zero quota header, and leaves it when it
    has none; and seeing the same response twice is the same as seeing it
    once. *)
Theorem updateRateLimit_last_response_wins (w : World) (resp1 resp2 : Response) :
  (has_quota (RespHeader resp2) = true ->
   updateRateLimit (updateRateLimit w resp1) resp2 = updateRateLimit w resp2) /\
  (has_quota (RespHeader resp2) = false ->
   updateRateLimit (updateRateLimit w resp1) resp2 = updateRateLimit w resp1) /\
  updateRateLimit (updateRateLimit w resp1) resp1 = updateRateLimit w resp1.
Proof.
assert (Hset : forall u a b, set_rate (set_rate u a) b = set_rate u b) by done.
destruct (updateRateLimit_shape resp1) as [[Hq1 Hu1] | [Hq1 [ra Hu1]]];
  destruct (updateRateLimit_shape resp2) as [[Hq2 Hu2] | [Hq2 [rb Hu2]]];
  rewrite ?Hu1, ?Hu2, ?Hset, ?Hq2; repeat split; intros; try done.
Qed.

End RateLimitSequence.

(** [updateRateLimit_last_response_wins] at a response with quota headers
    followed by one without. *)
Lemma updateRateLimit_last_response_wins_witness :
  let quota := Scenario.response 200 "200 OK"
                 (Scenario.headers [("X-RateLimit-Limit", "100");
                                    ("X-RateLimit-Remaining", "42");
                                    ("X-RateLimit-Reset", "1767225600")]) "" in
  let plain := Scenario.response 200 "200 OK"
                 (Scenario.headers [("Content-Type", "application/json")]) "" in
  RateLimitState
    (updateRateLimit (H := Plain.lib)
       (updateRateLimit (H := Plain.lib) (fresh_world 0) quota) plain)
  = mkRateLimit 100 42 (time_Unix 1767225600) "bitbucket".
Proof.
intros quota plain.
pose proof (updateRateLimit_last_response_wins (H := Plain.lib)
              (fresh_world 0) quota plain) as (_ & Hkeep & _).
rewrite Hkeep; [| vm_compute; reflexivity].
vm_compute. reflexivity.
Defined.


(** ** What goes on the wire *)

Section Wire.
Context `{GoLib}.
Variable transport : Transport.
Variable c : Client.

Lemma conditional_keeps (w : World) (r : Request) :
  Ctx (conditional c w r) = Ctx r /\ Body (conditional c w r) = Body r /\
  (forall k, CanonicalHeaderKey k <> "If-None-Match" ->
             Get (ReqHeader (conditional c w r)) k = Get (ReqHeader r) k) /\
  (enableCache c = false \/ Method r <> MethodGet -> conditional c w r = r).
Proof.
unfold conditional.
destruct (enableCache c) eqn:Hc; cbn [andb]; [| done].
destruct (String.eqb_spec (Method r) MethodGet) as [Hm | Hm]; [| done].
destruct (negb _); [| by repeat split; try done; intros [|]].
repeat split; try done.
- intros k Hk. cbn [ReqHeader with_header]. apply Get_Set_other.
  intros Heq. apply Hk. by rewrite <- Heq.
- by intros [|].
Qed.

(** A turn that can clone the request sends exactly one: the clone, made
    conditional. *)
Lemma turn_wire (req req0 : Request) (v : Target) (attempts : Z) (w : World) :
  cloneRequest req = inr req0 ->
  match turn transport c req v attempts w with
  | Return _ w' => sent w' = sent w ++ [conditional c w req0]
  | Continue _ w' => sent w' = sent w ++ [conditional c w req0]
  end.
Proof.
intros Hclone. unfold turn. rewrite Hclone.
destruct (httpClient_Do _ _ _) as [res w1] eqn:Hdo.
apply httpClient_Do_frame in Hdo as (_ & _ & _ & Hs1).
destruct res as [err|resp].
- pose proof (retry_or_frame c (failed None err) req attempts 0 None w1) as Hr.
  destruct (retry_or _ _ _ _ _ _ _) as [out w2|a w2].
  + by destruct Hr as [_ ->].
  + by destruct Hr as (_ & -> & _).
- destruct (updateRateLimit_frame w1 resp) as (_ & _ & Hs2).
  destruct (applyAdaptiveThrottle_frame (updateRateLimit w1 resp))
    as (_ & _ & Hs3 & _).
  set (w3 := applyAdaptiveThrottle (updateRateLimit w1 resp)) in *.
  assert (Hs : sent w3 = sent w ++ [conditional c w req0])
    by (by rewrite Hs3, Hs2, Hs1).
  destruct (_ && _ && _); [by destruct (applyCachedResponse _ _ _) |].
  destruct (shouldRetryStatus _).
  { match goal with
    | |- context [retry_or c ?g req attempts ?st ?r w3] =>
        pose proof (retry_or_frame c g req attempts st r w3) as Hr;
        destruct (retry_or c g req attempts st r w3) as [out w4|a w4]
    end.
    - by destruct Hr as [_ ->].
    - by destruct Hr as (_ & -> & _). }
  destruct (_ || _); [done |].
  destruct (deliver _ _ _ _ _) as [out w4] eqn:Hd.
  by apply deliver_frame in Hd as (_ & _ & ->).
Qed.

Lemma attempt_loop_wire (fuel : nat) (req : Request) (v : Target) :
  forall (attempts : Z) (w w' : World) (out : Outcome),
    attempt_loop transport c fuel req v attempts w = Some (out, w') ->
    exists rs,
      sent w' = sent w ++ rs /\
      Forall (fun r => exists req0 w0,
                cloneRequest req = inr req0 /\ r = conditional c w0 req0) rs.
Proof.
induction fuel as [|fuel IH]; intros attempts w w' out; cbn [attempt_loop];
  (destruct (cloneRequest req) as [e|req0] eqn:Hclone;
   [unfold turn; rewrite Hclone; intros [= <- <-]; exists [];
    by rewrite app_nil_r |]);
  pose proof (turn_wire req req0 v attempts w Hclone) as Ht;
  destruct (turn _ _ _ _ _ _) as [out1 w1|a w1]; try done.
- intros [= <- <-]. exists [conditional c w req0]. split; [done |].
  constructor; [by exists req0, w | constructor].
- intros [= <- <-]. exists [conditional c w req0]. split; [done |].
  constructor; [by exists req0, w | constructor].
- intros Hloop. apply IH in Hloop as (rs & Hs & Hall).
  exists (conditional c w req0 :: rs). split.
  + by rewrite Hs, Ht, <- app_assoc.
  + constructor; [by exists req0, w | done].
Qed.

(** Every call returns, and what it sent are conditional forms of the
    clone. *)
Lemma DoWithHeaders_wire (req : Request) (v : Target) (w : World) :
  exists out w' rs,
    DoWithHeaders transport c (Some req) v w = Some (out, w') /\
    sent w' = sent w ++ rs /\
    Forall (fun r => exists req0 w0,
              cloneRequest req = inr req0 /\ r = conditional c w0 req0) rs.
Proof.
destruct (DoWithHeaders_returns transport c (Some req) v w)
  as (out & w' & Hdo & _).
exists out, w'. cbn [DoWithHeaders] in Hdo.
destruct (attempt_loop_wire _ _ _ _ _ _ _ Hdo) as (rs & Hs & Hall).
by exists rs.
Qed.

(** X15.  Every call returns, and every request it has put on the wire is
    the caller's request: same method, URL and context, the body that
    [GetBody] reproduces, and the same header fields, except that
    [If-None-Match] may have been set; with the cache off or a method
    other than GET the headers are the caller's unchanged.  So a retry
    never goes to another address or loses the credentials. *)
Theorem every_attempt_sends_the_request
        (req : Request) (v : Target) (w : World) :
  exists out w' rs,
    DoWithHeaders transport c (Some req) v w = Some (out, w') /\
    sent w' = sent w ++ rs /\
    Forall (fun r =>
      Method r = Method req /\ URL r = URL req /\ Ctx r = Ctx req /\
      (exists req0, cloneRequest req = inr req0 /\ Body r = Body req0) /\
      (forall k, CanonicalHeaderKey k <> "If-None-Match" ->
                 Get (ReqHeader r) k = Get (ReqHeader req) k) /\
      (enableCache c = false \/ Method req <> MethodGet ->
       ReqHeader r = ReqHeader req)) rs.
Proof.
destruct (DoWithHeaders_wire req v w) as (out & w' & rs & Hdo & Hs & Hall).
exists out, w', rs. split; [done |]. split; [done |].
eapply Forall_impl; [exact Hall |].
intros r (req0 & w0 & Hclone & ->). cbn beta.
destruct (conditional_same c w0 req0) as [Hm Hu].
destruct (conditional_keeps w0 req0) as (Hctx & Hbody & Hhdr & Hoff).
destruct (cloneRequest_same req req0 Hclone) as (Hm0 & Hu0 & Hh0 & Hc0).
rewrite Hm, Hu, Hctx, Hbody, Hm0, Hu0, Hc0.
repeat split; try done.
- by exists req0.
- intros k Hk. by rewrite Hhdr, Hh0.
- intros Hno. rewrite Hoff, Hh0; [done |]. by rewrite Hm0.
Qed.

End Wire.

(** [every_attempt_sends_the_request] at a signed POST that the server
    fails once: both attempts carry the credentials and the body. *)
Lemma every_attempt_sends_the_request_witness :
  exists req out w',
    NewRequest (H := Plain.lib) Cloud.signed (Some Background) "POST"
               "/repositories" (Marshals Scenario.ok_body) = inr req /\
    DoWithHeaders (H := Plain.lib) Scenario.flaky Cloud.signed (Some req)
                  Scenario.any_value (fresh_world 0) = Some (out, w') /\
    Forall (fun r => Method r = "POST" /\
                     Get (ReqHeader r) "Authorization"
                     = "Basic dXNlcjpzZWNyZXQ=" /\
                     Body r = Some Scenario.ok_body) (sent w').
Proof.
destruct (NewRequest (H := Plain.lib) Cloud.signed (Some Background) "POST"
               "/repositories" (Marshals Scenario.ok_body)) as [e|req] eqn:Hreq;
  [vm_compute in Hreq; discriminate |].
destruct (every_attempt_sends_the_request (H := Plain.lib) Scenario.flaky
            Cloud.signed req Scenario.any_value (fresh_world 0))
  as (out & w' & rs & Hdo & Hs & Hall).
exists req, out, w'. split; [reflexivity |]. split; [exact Hdo |].
rewrite Hs. cbn [sent fresh_world app].
eapply Forall_impl; [exact Hall |].
intros r (Hm & _ & _ & (req0 & Hclone & Hbody) & Hh & _). cbn beta.
rewrite Hm, (Hh "Authorization") by (vm_compute; discriminate).
rewrite Hbody. clear Hdo Hs Hall.
vm_compute in Hreq. injection Hreq as <-.
vm_compute in Hclone. injection Hclone as <-.
repeat split.
Defined.


(* ===================================================================== *)
(** * The Bitbucket Cloud client *)
(* ===================================================================== *)

Section Bitbucket.
Context `{GoLib}.
Variable transport : Transport.
Import strings.

(** The client [bbcloud.New] returns, field by field. *)
Lemma bbcloud_New_inr (env : string) (opts : bbcloud.Options)
      (c : bbcloud.Client) :
  bbcloud.New env opts = inr c ->
  bbcloud.Username opts <> EmptyString /\
  bbcloud.Token opts <> EmptyString /\
  bbcloud.workspace c = bbcloud.Workspace opts /\
  bbcloud.workspace c <> EmptyString /\
  username (bbcloud.client c) = TrimSpace (bbcloud.Username opts) /\
  password (bbcloud.client c) = bbcloud.Token opts /\
  enableCache (bbcloud.client c) = false /\
  retry (bbcloud.client c) = mkRetryPolicy 3 (1 * Second) (30 * Second) /\
  userAgent (bbcloud.client c)
  = (if String.eqb (bbcloud.UserAgent opts) "" then bbcloud.DefaultUserAgent
     else bbcloud.UserAgent opts) /\
  timeout (bbcloud.client c)
  = (if bbcloud.Timeout opts =? 0 then 30 * Second
     else bbcloud.Timeout opts) /\
  url_Parse (if String.eqb (bbcloud.BaseURL opts) ""
             then bbcloud.DefaultBaseURL else bbcloud.BaseURL opts)
  = inr (baseURL (bbcloud.client c)).
Proof.
unfold bbcloud.New.
destruct (String.eqb_spec (bbcloud.Username opts) "") as [Hu | Hu]; [done |].
destruct (String.eqb_spec (bbcloud.Token opts) "") as [Ht | Ht]; [done |].
destruct (String.eqb_spec (bbcloud.Workspace opts) "") as [Hw | Hw]; [done |].
set (base := if String.eqb (bbcloud.BaseURL opts) "" then bbcloud.DefaultBaseURL
             else bbcloud.BaseURL opts).
unfold New. cbn [opt_BaseURL opt_Username opt_Password opt_UserAgent
                 opt_Timeout opt_EnableCache opt_Retry opt_Debug
                 MaxAttempts InitialBackoff MaxBackoff].
destruct (String.eqb base ""); [done |].
destruct (url_Parse base) as [e0|u]; [done |].
destruct (String.eqb (url.Scheme u) ""); [done |].
intros [= <-].
cbn [bbcloud.client bbcloud.workspace username password enableCache retry
     userAgent timeout baseURL].
repeat split; try done.
- destruct (String.eqb (bbcloud.UserAgent opts) "") eqn:Hua; [done |].
  by rewrite Hua.
- destruct (bbcloud.Timeout opts =? 0) eqn:Hto; [done |]. by rewrite Hto.
Qed.

(** X16.  [bbcloud.New] asks for the user name, the token and the
    workspace, in this order, before anything else; every other failure is
    the transport constructor's, wrapped.  A client it returns keeps the
    workspace, signs with the trimmed user name and the token, never
    caches, and retries with the fixed policy of 3 attempts, 1s initial and
    30s maximal backoff, whatever the options say. *)
Theorem bbcloud_New_requires_credentials
        (env : string) (opts : bbcloud.Options) :
  (bbcloud.Username opts = EmptyString ->
   bbcloud.New env opts = inl (Errorf "username is required")) /\
  (bbcloud.Username opts <> EmptyString -> bbcloud.Token opts = EmptyString ->
   bbcloud.New env opts = inl (Errorf "token is required")) /\
  (bbcloud.Username opts <> EmptyString -> bbcloud.Token opts <> EmptyString ->
   bbcloud.Workspace opts = EmptyString ->
   bbcloud.New env opts = inl (Errorf "workspace is required")) /\
  (forall e, bbcloud.New env opts = inl e ->
     e = Errorf "username is required" \/ e = Errorf "token is required" \/
     e = Errorf "workspace is required" \/
     exists cause, e = Wrapf "create HTTP client" cause) /\
  (forall c, bbcloud.New env opts = inr c ->
     bbcloud.Username opts <> EmptyString /\
     bbcloud.Token opts <> EmptyString /\
     bbcloud.workspace c = bbcloud.Workspace opts /\
     bbcloud.workspace c <> EmptyString /\
     username (bbcloud.client c) = TrimSpace (bbcloud.Username opts) /\
     password (bbcloud.client c) = bbcloud.Token opts /\
     enableCache (bbcloud.client c) = false /\
     retry (bbcloud.client c) = mkRetryPolicy 3 (1 * Second) (30 * Second) /\
     userAgent (bbcloud.client c)
     = (if String.eqb (bbcloud.UserAgent opts) "" then bbcloud.DefaultUserAgent
        else bbcloud.UserAgent opts) /\
     timeout (bbcloud.client c)
     = (if bbcloud.Timeout opts =? 0 then 30 * Second
        else bbcloud.Timeout opts) /\
     url_Parse (if String.eqb (bbcloud.BaseURL opts) ""
                then bbcloud.DefaultBaseURL else bbcloud.BaseURL opts)
     = inr (baseURL (bbcloud.client c))).
Proof.
split; [| split; [| split; [| split]]].
- intros Hu. unfold bbcloud.New. by rewrite Hu.
- intros Hu Ht. unfold bbcloud.New. apply String.eqb_neq in Hu.
  by rewrite Hu, Ht.
- intros Hu Ht Hw. unfold bbcloud.New. apply String.eqb_neq in Hu, Ht.
  by rewrite Hu, Ht, Hw.
- intros e. unfold bbcloud.New.
  destruct (String.eqb (bbcloud.Username opts) ""); [intros [= <-]; by left |].
  destruct (String.eqb (bbcloud.Token opts) "");
    [intros [= <-]; right; by left |].
  destruct (String.eqb (bbcloud.Workspace opts) "");
    [intros [= <-]; right; right; by left |].
  destruct (New env _) as [e0|hc]; [| done].
  intros [= <-]. do 3 right. by eexists.
- intros c. apply bbcloud_New_inr.
Qed.

Lemma standard_headers_other (c : Client) (h : Header) (k : string) :
  CanonicalHeaderKey k <> "Accept" -> CanonicalHeaderKey k <> "User-Agent" ->
  CanonicalHeaderKey k <> "Authorization" ->
  Get (standard_headers c h) k = Get h k.
Proof.
intros Ha Hu Hz. unfold standard_headers.
destruct (_ || _);
  repeat (rewrite Get_Set_other by (intros Heq; by rewrite <- Heq in *));
  done.
Qed.

(** What [NewRequest] fixes of a request it returns. *)
Lemma NewRequest_built (c : Client) ctx method path body req :
  NewRequest c ctx method path body = inr req ->
  Method req = (if String.eqb method "" then "GET" else method) /\
  Body req = match body with
             | Marshals p => Some p
             | _ => None
             end /\
  Get (ReqHeader req) "Accept" = "application/json" /\
  Get (ReqHeader req) "Authorization"
  = (if negb (String.eqb (username c) "") || negb (String.eqb (password c) "")
     then "Basic " +:+ base64 (username c +:+ ":" +:+ password c)
     else EmptyString) /\
  Get (ReqHeader req) "If-None-Match" = EmptyString.
Proof.
unfold NewRequest, NewRequestWithContext.
destruct (targetURL c path) as [e|u]; [done |].
destruct body as [|p|e]; try done;
  (destruct (validMethod _); [| done]);
  (destruct ctx; [| done]); intros [= <-]; cbn [ReqHeader Method Body];
  (split; [done |]); (split; [done |]);
  match goal with
  | |- context [standard_headers c ?h] =>
      destruct (standard_headers_Get c h) as (-> & _ & -> & _);
      rewrite (standard_headers_other c h "If-None-Match")
        by (vm_compute; discriminate)
  end;
  repeat split;
  rewrite ?Get_Set_other by (vm_compute; discriminate);
  rewrite ?Get_empty; done.
Qed.

(** A client that does not cache and allows three attempts carries out
    every request within these bounds. *)
Lemma DoWithHeaders_came_back (c : Client) (req : Request) (v : Target)
      (w : World) :
  enableCache c = false -> MaxAttempts (retry c) = 3 ->
  Get (ReqHeader req) "If-None-Match" = EmptyString ->
  came_back (Method req) (Get (ReqHeader req) "Accept")
            (Get (ReqHeader req) "Authorization") w
            (DoWithHeaders transport c (Some req) v w).
Proof.
intros Hcache Hmax Hinm.
destruct (DoWithHeaders_wire transport c req v w)
  as (out & w' & rs & Hdo & Hs & Hall).
exists out, w', rs. split; [done |]. split.
{ cbn [DoWithHeaders] in Hdo.
  apply (attempt_loop_keeps_cache transport c req v) in Hdo; [done |].
  by left. }
split; [done |]. split.
{ destruct (DoWithHeaders_returns transport c (Some req) v w)
    as (out2 & w2 & Hdo2 & Hlen).
  rewrite Hdo in Hdo2. injection Hdo2 as <- <-.
  rewrite Hs, length_app, Hmax in Hlen. lia. }
eapply Forall_impl; [exact Hall |].
intros r (req0 & w0 & Hclone & ->). cbn beta.
destruct (conditional_keeps c w0 req0) as (_ & _ & _ & Hoff).
destruct (cloneRequest_same req req0 Hclone) as (Hm0 & _ & Hh0 & _).
rewrite Hoff by (by left). by rewrite Hm0, Hh0.
Qed.

Lemma bbcloud_auth (env : string) (opts : bbcloud.Options) (c : bbcloud.Client) :
  bbcloud.New env opts = inr c ->
  (if negb (String.eqb (username (bbcloud.client c)) "")
      || negb (String.eqb (password (bbcloud.client c)) "")
   then "Basic " +:+ base64 (username (bbcloud.client c) +:+ ":"
                             +:+ password (bbcloud.client c))
   else EmptyString) = basic_auth opts.
Proof.
intros Hnew.
destruct (bbcloud_New_inr env opts c Hnew)
  as (_ & Ht & _ & _ & -> & -> & _).
apply String.eqb_neq in Ht. rewrite Ht. cbn [negb]. by rewrite orb_true_r.
Qed.

Lemma call_came_back (env : string) (opts : bbcloud.Options)
      (c : bbcloud.Client) ctx (method path : string) body v w :
  bbcloud.New env opts = inr c -> method <> EmptyString ->
  came_back method "application/json" (basic_auth opts) w
            (bbcloud.call transport c ctx method path body v w).
Proof.
intros Hnew Hmethod. unfold bbcloud.call.
destruct (NewRequest _ _ _ _ _) as [e|req] eqn:Hreq.
{ exists (Some e, Nothing), w, []. rewrite app_nil_r.
  repeat split; try done. cbn. lia. }
destruct (NewRequest_built _ _ _ _ _ _ Hreq) as (Hm & _ & Ha & Hz & Hinm).
rewrite (bbcloud_auth env opts c Hnew) in Hz.
apply String.eqb_neq in Hmethod. rewrite Hmethod in Hm.
destruct (bbcloud_New_inr env opts c Hnew)
  as (_ & _ & _ & _ & _ & _ & Hcache & Hretry & _).
destruct (DoWithHeaders_came_back (bbcloud.client c) req v w Hcache
            ltac:(by rewrite Hretry) Hinm)
  as (out & w' & rs & Hdo & Hc & Hs & Hlen & Hall).
rewrite Hm, Ha, Hz in Hall. unfold Do. rewrite Hdo.
by exists (out_err out, delivered out), w', rs.
Qed.

(** X17.  Every call of a client that [bbcloud.New] returned comes back,
    after at most three requests and without a change to the cache, and
    each request it sent has the method of the call, asks for JSON, is
    signed with the user name and the token, and carries no
    [If-None-Match].  This holds for [Get], [GetWithHeaders], [Post],
    [Put] and [Delete], whatever the path, the body, the target and the
    server. *)
Theorem bbcloud_calls_come_back
        (env : string) (opts : bbcloud.Options) (c : bbcloud.Client)
        (ctx : option Context) (w : World) :
  bbcloud.New env opts = inr c ->
  (forall path v,
      came_back "GET" "application/json" (basic_auth opts) w
                (bbcloud.Get transport c ctx path v w)) /\
  (forall path v,
      came_back "GET" "application/json" (basic_auth opts) w
                (bbcloud.GetWithHeaders transport c ctx path v w)) /\
  (forall path body v,
      came_back "POST" "application/json" (basic_auth opts) w
                (bbcloud.Post transport c ctx path body v w)) /\
  (forall path body v,
      came_back "PUT" "application/json" (basic_auth opts) w
                (bbcloud.Put transport c ctx path body v w)) /\
  (forall path,
      came_back "DELETE" "application/json" (basic_auth opts) w
                (bbcloud.Delete transport c ctx path w)).
Proof.
intros Hnew. repeat split; intros;
  try (by apply (call_came_back env opts c)).
unfold bbcloud.GetWithHeaders.
destruct (NewRequest _ _ _ _ _) as [e|req] eqn:Hreq.
{ exists (mkOutcome None (Some e) Nothing), w, []. rewrite app_nil_r.
  repeat split; try done. cbn. lia. }
destruct (NewRequest_built _ _ _ _ _ _ Hreq) as (Hm & _ & Ha & Hz & Hinm).
rewrite (bbcloud_auth env opts c Hnew) in Hz. cbn in Hm.
destruct (bbcloud_New_inr env opts c Hnew)
  as (_ & _ & _ & _ & _ & _ & Hcache & Hretry & _).
pose proof (DoWithHeaders_came_back (bbcloud.client c) req v w Hcache
              ltac:(by rewrite Hretry) Hinm) as Hback.
by rewrite Hm, Ha, Hz in Hback.
Qed.

Lemma with_header_Get (req : Request) (k v k' : string) :
  Get (ReqHeader (with_header req k v)) k'
  = if String.eqb (CanonicalHeaderKey k) (CanonicalHeaderKey k') then v
    else Get (ReqHeader req) k'.
Proof.
cbn [ReqHeader with_header].
destruct (String.eqb_spec (CanonicalHeaderKey k) (CanonicalHeaderKey k'))
  as [Heq | Hne].
- unfold Get, Set_, Header in *. by rewrite Heq, lookup_insert_eq.
- by apply Get_Set_other.
Qed.

(** X18.  [GetPRDiff] rejects what [validatePRArgs] rejects, with the same
    error and before anything is sent.  Otherwise it comes back after at
    most three GET requests that ask for [text/plain] and are signed, and
    leaves the cache alone; and when the first answer is a 2xx response
    whose body can be read, the diff returned is that body byte for byte,
    whatever it holds. *)
Theorem GetPRDiff_streams_the_diff
        (env : string) (opts : bbcloud.Options) (c : bbcloud.Client)
        (ctx : option Context) (repoSlug : string) (prID : Z) (w : World) :
  bbcloud.New env opts = inr c ->
  (forall e, bbcloud.validatePRArgs repoSlug prID = Some e ->
     bbcloud.GetPRDiff transport c ctx repoSlug prID w = Some (inl e, w)) /\
  (bbcloud.validatePRArgs repoSlug prID = None ->
     came_back "GET" "text/plain" (basic_auth opts) w
               (bbcloud.GetPRDiff transport c ctx repoSlug prID w)) /\
  (forall req resp,
     bbcloud.validatePRArgs repoSlug prID = None ->
     NewRequest (bbcloud.client c) ctx "GET"
                (bbcloud.diff_path c repoSlug prID) NoPayload = inr req ->
     result (transport (sent w) (with_header req "Accept" "text/plain"))
     = inr resp ->
     200 <= StatusCode resp < 300 -> BodyErr resp = None ->
     exists w',
       bbcloud.GetPRDiff transport c ctx repoSlug prID w
       = Some (inr (RespBody resp), w') /\
       sent w' = sent w ++ [with_header req "Accept" "text/plain"]).
Proof.
intros Hnew. unfold bbcloud.validatePRArgs, bbcloud.GetPRDiff.
destruct (bbcloud_New_inr env opts c Hnew)
  as (_ & _ & _ & _ & _ & _ & Hcache & Hretry & _).
destruct (String.eqb repoSlug "");
  [split; [by intros e [= <-] | by split] |].
destruct (prID <=? 0);
  [split; [by intros e [= <-] | by split] |].
split; [done |].
destruct (NewRequest _ _ _ _ _) as [e|req] eqn:Hreq.
{ split; [| done]. intros _.
  exists (inl (Wrapf "create request" e)), w, []. rewrite app_nil_r.
  repeat split; try done. cbn. lia. }
destruct (NewRequest_built _ _ _ _ _ _ Hreq) as (Hm & Hbody & Ha & Hz & Hinm).
rewrite (bbcloud_auth env opts c Hnew) in Hz. cbn in Hm.
set (req1 := with_header req "Accept" "text/plain").
assert (Hh : Method req1 = "GET" /\ Get (ReqHeader req1) "Accept" = "text/plain"
             /\ Get (ReqHeader req1) "Authorization" = basic_auth opts
             /\ Get (ReqHeader req1) "If-None-Match" = EmptyString).
{ unfold req1. rewrite !with_header_Get. by split. }
destruct Hh as (Hm1 & Ha1 & Hz1 & Hinm1).
split.
- intros _.
  destruct (DoWithHeaders_came_back (bbcloud.client c) req1 bbcloud.into_buffer
              w Hcache ltac:(by rewrite Hretry) Hinm1)
    as (out & w' & rs & Hdo & Hc & Hs & Hlen & Hall).
  rewrite Hm1, Ha1, Hz1 in Hall. unfold Do. rewrite Hdo.
  destruct (out_err out) as [err|];
    [by exists (inl (Wrapf "get PR diff" err)), w', rs
    | by exists (inr (bbcloud.buffer_String (delivered out))), w', rs].
- intros req' resp _ [= <-] Hres Hcode Herr. fold req1 in Hres.
  assert (Hcond : conditional (bbcloud.client c) w req1 = req1)
    by (unfold conditional; by rewrite Hcache).
  assert (Hclone : cloneRequest req1 = inr req1)
    by (unfold cloneRequest, req1; cbn [Body with_header]; by rewrite Hbody).
  rewrite <- Hcond in Hres.
  pose proof (turn_success transport (bbcloud.client c) req1 req1
                bbcloud.into_buffer 0 w resp Hclone Hres Hcode) as Hturn.
  unfold Do. cbn [DoWithHeaders].
  erewrite attempt_loop_return; [| rewrite Hturn; reflexivity].
  unfold deliver, bbcloud.into_buffer. cbn [fst snd out_err delivered].
  rewrite Herr. cbn [bbcloud.buffer_String]. eexists. split; [reflexivity |].
  destruct (after_response_frame transport w
              (conditional (bbcloud.client c) w req1) resp) as [_ ->].
  by rewrite Hcond.
Qed.

End Bitbucket.

(** [bbcloud_New_requires_credentials] at options without a token and at
    options that name all three. *)
Lemma bbcloud_New_requires_credentials_witness :
  bbcloud.New (H := Plain.lib) ""
              (bbcloud.mkOptions "" "user" "" "acme" "" 0 false)
  = inl (Errorf "token is required") /\
  exists c,
    bbcloud.New (H := Plain.lib) "" Cloud.options = inr c /\
    bbcloud.workspace c = "acme" /\
    enableCache (bbcloud.client c) = false /\
    retry (bbcloud.client c) = mkRetryPolicy 3 (1 * Second) (30 * Second).
Proof.
split.
- pose proof (bbcloud_New_requires_credentials (H := Plain.lib) ""
                (bbcloud.mkOptions "" "user" "" "acme" "" 0 false))
    as (_ & Htoken & _).
  apply Htoken; [discriminate | reflexivity].
- destruct (bbcloud.New (H := Plain.lib) "" Cloud.options) as [e|c] eqn:Hnew;
    [vm_compute in Hnew; discriminate |].
  pose proof (bbcloud_New_requires_credentials (H := Plain.lib) ""
                Cloud.options) as (_ & _ & _ & _ & Hclient).
  destruct (Hclient c Hnew) as (_ & _ & Hw & _ & _ & _ & Hcache & Hretry & _).
  exists c. split; [reflexivity |]. split; [exact Hw |].
  split; [exact Hcache | exact Hretry].
Defined.

(** [bbcloud_calls_come_back] at a [Delete] against a server that always
    answers 500. *)
Lemma bbcloud_calls_come_back_witness :
  came_back "DELETE" "application/json" "Basic dXNlcjpzZWNyZXQ="
            (fresh_world 0)
            (bbcloud.Delete (H := Plain.lib) Scenario.always_500 Cloud.client
                            (Some Background) "/repositories/acme/old"
                            (fresh_world 0)).
Proof.
pose proof (bbcloud_calls_come_back (H := Plain.lib) Scenario.always_500 ""
              Cloud.options Cloud.client (Some Background) (fresh_world 0))
  as Hcalls.
destruct Hcalls as (_ & _ & _ & _ & Hdelete); [vm_compute; reflexivity |].
exact (Hdelete "/repositories/acme/old").
Defined.

(** [GetPRDiff_streams_the_diff] at a call without repository slug and at
    a call the server answers with the text of a diff. *)
Lemma GetPRDiff_streams_the_diff_witness :
  bbcloud.GetPRDiff (H := Plain.lib) Cloud.diffs Cloud.client
                    (Some Background) "" 7 (fresh_world 0)
  = Some (inl (Errorf "repository slug is required"), fresh_world 0) /\
  exists w',
    bbcloud.GetPRDiff (H := Plain.lib) Cloud.diffs Cloud.client
                      (Some Background) "bb" 7 (fresh_world 0)
    = Some (inr Cloud.diff_text, w') /\
    length (sent w') = 1%nat.
Proof.
assert (Hnew : bbcloud.New (H := Plain.lib) "" Cloud.options = inr Cloud.client)
  by (vm_compute; reflexivity).
split.
- pose proof (GetPRDiff_streams_the_diff (H := Plain.lib) Cloud.diffs ""
                Cloud.options Cloud.client (Some Background) "" 7
                (fresh_world 0) Hnew) as (Hinvalid & _).
  by apply Hinvalid.
- pose proof (GetPRDiff_streams_the_diff (H := Plain.lib) Cloud.diffs ""
                Cloud.options Cloud.client (Some Background) "bb" 7
                (fresh_world 0) Hnew) as (_ & _ & Hdiff).
  destruct (NewRequest (H := Plain.lib) (bbcloud.client Cloud.client)
              (Some Background) "GET" (bbcloud.diff_path Cloud.client "bb" 7)
              NoPayload) as [e|req] eqn:Hreq;
    [vm_compute in Hreq; discriminate |].
  destruct (Hdiff req (Scenario.response 200 "200 OK" ∅ Cloud.diff_text))
    as (w' & Hget & Hsent); try reflexivity.
  + cbn. lia.
  + exists w'. split; [exact Hget | by rewrite Hsent].
Defined.


(** ** Listing repositories page by page *)

Section Listing.
Context `{GoLib}.
Variable transport : Transport.
Variable Repository : Type.
Variable Unmarshal_RepositoryList
  : string -> error + bbcloud.RepositoryList Repository.

Local Abbreviation served := (pages_served transport Repository Unmarshal_RepositoryList).
Local Abbreviation list_pages := (bbcloud.list_pages transport Repository Unmarshal_RepositoryList).
Local Abbreviation ListRepositories := (bbcloud.ListRepositories transport Repository Unmarshal_RepositoryList).
Local Abbreviation names_next :=
  (fun r : bbcloud.RepositoryList Repository =>
     bbcloud.Next (bbcloud.Paginated r) <> EmptyString).

Lemma all_values_cons (r : bbcloud.RepositoryList Repository) pages :
  all_values Repository (r :: pages)
  = bbcloud.Values r ++ all_values Repository pages.
Proof. done. Qed.

Lemma all_values_app (p1 p2 : list (bbcloud.RepositoryList Repository)) :
  all_values Repository (p1 ++ p2)
  = all_values Repository p1 ++ all_values Repository p2.
Proof. unfold all_values. by rewrite map_app, concat_app. Qed.

Lemma pages_served_app (c : bbcloud.Client) ctx (pageLen : Z) p1 p2 :
  forall (page : Z) (w w' : World),
    served c ctx pageLen page w (p1 ++ p2) w' ->
    exists w1, served c ctx pageLen page w p1 w1 /\
               served c ctx pageLen (page + Z.of_nat (length p1)) w1 p2 w'.
Proof.
induction p1 as [|r p1 IH]; intros page w w'; cbn [app pages_served length].
- intros Hs. exists w. split; [done |]. by rewrite Z.add_0_r.
- intros (d & w1 & Hget & Hres & Hs).
  apply IH in Hs as (w2 & Hs1 & Hs2). exists w2. split.
  + by exists d, w1.
  + by replace (page + Z.of_nat (S (length p1)))
        with (page + 1 + Z.of_nat (length p1)) by lia.
Qed.

(** While no page ends the listing, the loop goes from page to page and
    keeps what the pages held. *)
Lemma list_pages_skip (c : bbcloud.Client) ctx (limit pageLen : Z) pages :
  forall (fuel : nat) (page : Z) (acc : list Repository) (w w1 : World),
    served c ctx pageLen page w pages w1 ->
    Forall names_next pages ->
    limit <= 0 \/ Z.of_nat (length (acc ++ all_values Repository pages)) < limit ->
    0 <= page -> page + Z.of_nat (length pages) <= max_int64 ->
    list_pages (length pages + fuel) c ctx limit pageLen page acc w
    = list_pages fuel c ctx limit pageLen (page + Z.of_nat (length pages))
                 (acc ++ all_values Repository pages) w1.
Proof.
induction pages as [|r pages IH]; intros fuel page acc w w1;
  cbn [pages_served length].
- intros -> _ _ _ _. cbn [Nat.add]. by rewrite Z.add_0_r, app_nil_r.
- intros (d & w2 & Hget & Hres & Hs) Hnext Hlimit Hpage Hmax.
  apply Forall_cons in Hnext as [Hr Hnext].
  rewrite all_values_cons, app_assoc in Hlimit.
  cbn [Nat.add bbcloud.list_pages]. rewrite Hget, Hres.
  assert ((0 <? limit) && (limit <=? Z.of_nat (length (acc ++ bbcloud.Values r)))
          = false) as ->.
  { apply andb_false_iff. rewrite length_app in Hlimit.
    destruct Hlimit as [Hl | Hl]; [left | right]; lia. }
  apply String.eqb_neq in Hr. rewrite Hr.
  rewrite wrap64_small by (unfold min_int64, max_int64 in *; lia).
  rewrite (IH fuel (page + 1) (acc ++ bbcloud.Values r) w2 w1 Hs Hnext Hlimit
              ltac:(lia) ltac:(lia)).
  rewrite all_values_cons, app_assoc. f_equal. lia.
Qed.

(** X19.  [ListRepositories] asks for page 1, 2, ... with a page length
    of the limit when that is between 1 and 99 and of 100 otherwise, and it
    stops at the first page that names no next page or with which the
    limit is reached.  What it returns is all repositories of the pages up
    to that one, in order, cut to the limit when there is one (a limit of
    zero or less means none). *)
Theorem ListRepositories_collects_pages
        (c : bbcloud.Client) (ctx : option Context) (limit : Z)
        (w w' : World) (pages : list (bbcloud.RepositoryList Repository))
        (last : bbcloud.RepositoryList Repository) (fuel : nat) :
  served c ctx (if (0 <? limit) && (limit <? 100) then limit else 100)
         1 w (pages ++ [last]) w' ->
  Forall names_next pages ->
  limit <= 0 \/ Z.of_nat (length (all_values Repository pages)) < limit ->
  bbcloud.Next (bbcloud.Paginated last) = EmptyString \/
  0 < limit <= Z.of_nat (length (all_values Repository (pages ++ [last]))) ->
  Z.of_nat (length pages) < max_int64 ->
  (length pages < fuel)%nat ->
  ListRepositories fuel c ctx limit w
  = Some (inr (if 0 <? limit
               then firstn (Z.to_nat limit)
                           (all_values Repository (pages ++ [last]))
               else all_values Repository (pages ++ [last])), w').
Proof.
intros Hserved Hnext Hlimit Hstop Hmax Hfuel. unfold bbcloud.ListRepositories.
set (pageLen := if (0 <? limit) && (limit <? 100) then limit else 100) in *.
apply pages_served_app in Hserved as (w1 & Hs1 & Hs2).
cbn [pages_served] in Hs2. destruct Hs2 as (d & w2 & Hget & Hres & ->).
replace fuel with (length pages + S (fuel - length pages - 1))%nat by lia.
rewrite (list_pages_skip c ctx limit pageLen pages _ 1 [] w w1 Hs1 Hnext);
  try done; try lia.
cbn [app bbcloud.list_pages]. rewrite Hget, Hres.
rewrite all_values_app in *.
assert (Hlast : all_values Repository [last] = bbcloud.Values last)
  by (unfold all_values; cbn; by rewrite app_nil_r).
rewrite Hlast in *.
set (all := all_values Repository pages ++ bbcloud.Values last) in *.
destruct (Z.ltb_spec 0 limit) as [Hpos | Hnonpos]; cbn [andb].
- destruct (Z.leb_spec limit (Z.of_nat (length all))) as [Hfull | Hless].
  + destruct (Z.ltb_spec limit (Z.of_nat (length all))); [done |].
    rewrite firstn_all2 by lia. done.
  + destruct Hstop as [-> | ?]; [| lia]. cbn [String.eqb].
    rewrite firstn_all2 by lia. done.
- destruct Hstop as [-> | ?]; [| lia]. done.
Qed.

(** X20.  The first page that fails ends [ListRepositories]: the error it
    returns wraps the error of that page's request under the page's
    number, and the repositories of the pages before are not returned. *)
Theorem ListRepositories_fails_with_the_page
        (c : bbcloud.Client) (ctx : option Context) (limit : Z)
        (w w1 w2 : World) (pages : list (bbcloud.RepositoryList Repository))
        (err : error) (d : Delivery) (fuel : nat) :
  let pageLen := if (0 <? limit) && (limit <? 100) then limit else 100 in
  served c ctx pageLen 1 w pages w1 ->
  Forall names_next pages ->
  limit <= 0 \/ Z.of_nat (length (all_values Repository pages)) < limit ->
  bbcloud.Get transport c ctx
              (bbcloud.repositories_path c pageLen
                                         (1 + Z.of_nat (length pages)))
              (bbcloud.into_result Repository Unmarshal_RepositoryList) w1
  = Some (Some err, d, w2) ->
  Z.of_nat (length pages) < max_int64 ->
  (length pages < fuel)%nat ->
  ListRepositories fuel c ctx limit w
  = Some (inl (Wrapf ("list repositories (page "
                      +:+ bbcloud.Itoa (1 + Z.of_nat (length pages)) +:+ ")")
                     err), w2).
Proof.
intros pageLen Hs1 Hnext Hlimit Hget Hmax Hfuel.
unfold bbcloud.ListRepositories. fold pageLen.
replace fuel with (length pages + S (fuel - length pages - 1))%nat by lia.
rewrite (list_pages_skip c ctx limit pageLen pages _ 1 [] w w1 Hs1 Hnext);
  try done; try lia.
cbn [bbcloud.list_pages]. by rewrite Hget.
Qed.

Lemma list_pages_bound (c : bbcloud.Client) ctx (limit pageLen : Z) :
  0 < limit ->
  forall (fuel : nat) (page : Z) (acc repos : list Repository) (w w' : World),
    list_pages fuel c ctx limit pageLen page acc w = Some (inr repos, w') ->
    Z.of_nat (length acc) < limit ->
    Z.of_nat (length repos) <= limit.
Proof.
intros Hpos. induction fuel as [|fuel IH]; intros page acc repos w w';
  cbn [bbcloud.list_pages]; [done |].
destruct (bbcloud.Get _ _ _ _ _ _) as [[[[e|] d] w1]|]; try done.
set (all := acc ++ bbcloud.Values (bbcloud.result_after _ _ d)).
destruct (Z.ltb_spec 0 limit); [| lia]. cbn [andb].
destruct (Z.leb_spec limit (Z.of_nat (length all))).
- destruct (Z.ltb_spec limit (Z.of_nat (length all)));
    intros [= <- <-] _; [| lia].
  rewrite length_firstn. lia.
- destruct (String.eqb _ ""); [intros [= <- <-] _; lia |].
  intros Hloop _. by apply (IH _ _ _ _ _ Hloop).
Qed.

(** X21.  With a limit above zero [ListRepositories] never returns more
    repositories than the limit, however many the server puts on a page and
    however many pages it names. *)
Theorem ListRepositories_respects_the_limit
        (c : bbcloud.Client) (ctx : option Context) (limit : Z)
        (w w' : World) (repos : list Repository) (fuel : nat) :
  0 < limit ->
  ListRepositories fuel c ctx limit w = Some (inr repos, w') ->
  Z.of_nat (length repos) <= limit.
Proof.
intros Hpos Hlist. unfold bbcloud.ListRepositories in Hlist.
apply (list_pages_bound c ctx limit _ Hpos _ _ _ _ _ _ Hlist). cbn. lia.
Qed.

End Listing.

(** [ListRepositories_collects_pages] at a server with two pages, without
    limit. *)
Lemma ListRepositories_collects_pages_witness :
  exists w',
    bbcloud.ListRepositories (H := Plain.lib) Cloud.paged string Cloud.decode
                             5 Cloud.client (Some Background) 0 (fresh_world 0)
    = Some (inr ["alpha"; "beta"; "gamma"], w').
Proof.
eexists.
apply (ListRepositories_collects_pages (H := Plain.lib) Cloud.paged string
         Cloud.decode Cloud.client (Some Background) 0 (fresh_world 0) _
         [bbcloud.mkRepositoryList
            (bbcloud.mkPaginatedResponse 3 1 2 "page2" "") ["alpha"; "beta"]]
         (bbcloud.mkRepositoryList
            (bbcloud.mkPaginatedResponse 3 2 2 "" "page1") ["gamma"]) 5).
- cbn [pages_served app andb Z.ltb Z.compare]. page_served. page_served.
  reflexivity.
- constructor; [discriminate | constructor].
- left. lia.
- by left.
- reflexivity.
- cbn. lia.
Defined.

(** [ListRepositories_fails_with_the_page] at a server whose second page
    is missing. *)
Lemma ListRepositories_fails_with_the_page_witness :
  exists w',
    bbcloud.ListRepositories (H := Plain.lib) Cloud.truncated string
                             Cloud.decode 5 Cloud.client (Some Background) 0
                             (fresh_world 0)
    = Some (inl (Wrapf "list repositories (page 2)"
                       (Errorf "404 Not Found: Repository not found")), w').
Proof.
assert (Hfirst : exists w1,
  pages_served (H := Plain.lib) Cloud.truncated string Cloud.decode
               Cloud.client (Some Background) 100 1 (fresh_world 0)
               [bbcloud.mkRepositoryList
                  (bbcloud.mkPaginatedResponse 3 1 2 "page2" "")
                  ["alpha"; "beta"]] w1 /\
  exists d w2,
    bbcloud.Get (H := Plain.lib) Cloud.truncated Cloud.client (Some Background)
                (bbcloud.repositories_path Cloud.client 100 2)
                (bbcloud.into_result string Cloud.decode) w1
    = Some (Some (Errorf "404 Not Found: Repository not found"), d, w2)).
{ eexists. split.
  - cbn [pages_served]. page_served. reflexivity.
  - eexists _, _. vm_compute. reflexivity. }
destruct Hfirst as (w1 & Hserved & d & w2 & Hget).
exists w2.
apply (ListRepositories_fails_with_the_page (H := Plain.lib) Cloud.truncated
         string Cloud.decode Cloud.client (Some Background) 0 (fresh_world 0)
         w1 w2 _ _ d 5 Hserved).
- constructor; [discriminate | constructor].
- left. lia.
- exact Hget.
- reflexivity.
- cbn. lia.
Defined.

(** [ListRepositories_respects_the_limit] at a limit of one, against a
    server that puts two repositories on its first page. *)
Lemma ListRepositories_respects_the_limit_witness :
  exists repos w',
    bbcloud.ListRepositories (H := Plain.lib) Cloud.paged string Cloud.decode
                             5 Cloud.client (Some Background) 1 (fresh_world 0)
    = Some (inr repos, w') /\
    Z.of_nat (length repos) <= 1.
Proof.
destruct (bbcloud.ListRepositories (H := Plain.lib) Cloud.paged string
            Cloud.decode 5 Cloud.client (Some Background) 1 (fresh_world 0))
  as [[[e|repos] w']|] eqn:Hrun;
  try (vm_compute in Hrun; discriminate).
exists repos, w'. split; [reflexivity |].
apply (ListRepositories_respects_the_limit (H := Plain.lib) Cloud.paged string
         Cloud.decode Cloud.client (Some Background) 1 (fresh_world 0) w'
         repos 5); [lia | exact Hrun].
Defined.

(** ** The URLs the Bitbucket client asks for *)

Section EscapedPaths.
Context `{GoLib}.
Import strings.

Lemma PathEscape_cons (c : ascii) (r : string) :
  bbcloud.PathEscape (String c r)
  = bbcloud.PathEscape (String c EmptyString) +:+ bbcloud.PathEscape r.
Proof.
cbn [bbcloud.PathEscape]. by destruct (bbcloud.shouldEscape_segment c).
Qed.

(** What [PathEscape] makes of one byte: text without control byte, [?],
    [#] or leading slash, which [unescape] turns back into the byte. *)
Lemma PathEscape_byte (c : ascii) (t : string) :
  url.unescape (bbcloud.PathEscape (String c EmptyString) +:+ t)
  = match url.unescape t with
    | Some r => Some (String c r)
    | None => None
    end /\
  url.stringContainsCTLByte (bbcloud.PathEscape (String c EmptyString)) = false /\
  Count (bbcloud.PathEscape (String c EmptyString)) "?" = 0%nat /\
  Count (bbcloud.PathEscape (String c EmptyString)) "#" = 0%nat /\
  Count (bbcloud.PathEscape (String c EmptyString)) "/" = 0%nat.
Proof.
destruct c as [[] [] [] [] [] [] [] []]; repeat split; reflexivity.
Qed.

Lemma stringContainsCTLByte_app (a b : string) :
  url.stringContainsCTLByte (a +:+ b)
  = url.stringContainsCTLByte a || url.stringContainsCTLByte b.
Proof.
induction a as [|c a IH]; [done |].
rewrite append_cons. cbn [url.stringContainsCTLByte]. rewrite IH.
by rewrite !orb_assoc.
Qed.

Lemma append_assoc (a b c : string) : (a +:+ b) +:+ c = a +:+ (b +:+ c).
Proof.
induction a as [|x a IH]; [done |]. rewrite !append_cons. by rewrite IH.
Qed.

Lemma path_text_app (a b da db : string) :
  path_text a da -> path_text b db -> path_text (a +:+ b) (da +:+ db).
Proof.
intros (Ha1 & Ha2 & Ha3 & Ha4) (Hb1 & Hb2 & Hb3 & Hb4). repeat split.
- by rewrite stringContainsCTLByte_app, Ha1, Hb1.
- by rewrite Count_app, Ha2, Hb2.
- by rewrite Count_app, Ha3, Hb3.
- intros t r Ht. rewrite !append_assoc. apply Ha4. by apply Hb4.
Qed.

Lemma path_text_PathEscape (s : string) : path_text (bbcloud.PathEscape s) s.
Proof.
induction s as [|c s IH]; [by repeat split |].
rewrite PathEscape_cons.
change (String c s) with (String c EmptyString +:+ s).
apply path_text_app; [| done].
destruct (PathEscape_byte c EmptyString) as (_ & Hctl & Hq & Hf & _).
repeat split; try done.
intros t r Ht. destruct (PathEscape_byte c t) as (-> & _). by rewrite Ht.
Qed.

Lemma path_text_plain (s : string) :
  url.stringContainsCTLByte s = false ->
  Count s "?" = 0%nat -> Count s "#" = 0%nat -> Count s "%" = 0%nat ->
  path_text s s.
Proof.
intros Hctl Hq Hf Hp. repeat split; try done.
induction s as [|c s IH]; intros t r Ht; [done |].
cbn [Count] in *. cbn [url.stringContainsCTLByte] in Hctl.
apply orb_false_elim in Hctl as [_ Hctl].
destruct (Ascii.eqb c "%") eqn:Hc; [done |].
destruct (Ascii.eqb c "?") eqn:Hc2; [done |].
destruct (Ascii.eqb c "#") eqn:Hc3; [done |].
rewrite !append_cons, unescape_cons by done.
by rewrite (IH Hctl Hq Hf Hp t r Ht).
Qed.

Lemma path_text_uint (d : Decimal.uint) :
  path_text (NilEmpty.string_of_uint d) (NilEmpty.string_of_uint d).
Proof.
induction d; cbn [NilEmpty.string_of_uint]; [by repeat split | ..];
  match goal with
  | |- path_text (String ?c ?s) _ =>
      change (String c s) with (String c EmptyString +:+ s);
      apply path_text_app; [by apply path_text_plain | done]
  end.
Qed.

Lemma path_text_Itoa (n : Z) : path_text (bbcloud.Itoa n) (bbcloud.Itoa n).
Proof.
unfold bbcloud.Itoa, NilZero.string_of_int.
destruct (Z.to_int n) as [d|d]; unfold NilZero.string_of_uint.
- destruct d; try apply path_text_uint. by apply path_text_plain.
- change (String "-" ?s) with (String "-" EmptyString +:+ s).
  apply path_text_app; [by apply path_text_plain |].
  destruct d; try apply path_text_uint. by apply path_text_plain.
Qed.

Lemma append_nil (a : string) : a +:+ EmptyString = a.
Proof. induction a as [|x a IH]; [done |]. by rewrite append_cons, IH. Qed.

(** A reference that is one rooted path of such text, with or without a
    query, is parsed into the unescaped path and the query as written. *)
Lemma url_Parse_path_text (a d : string) :
  path_text a d -> HasPrefix a "/" = true -> HasPrefix a "//" = false ->
  (exists rel, url_Parse a = inr rel /\ url.Path rel = d /\
               url.RawQuery rel = EmptyString) /\
  (forall q, q <> EmptyString -> url.stringContainsCTLByte q = false ->
             Count q "?" = 0%nat -> Count q "#" = 0%nat ->
     exists rel, url_Parse (a +:+ String "?" q) = inr rel /\
                 url.Path rel = d /\ url.RawQuery rel = q).
Proof.
intros (Hctl & Hq & Hf & Hun) Hslash Hdouble.
assert (Hd : url.unescape a = Some d).
{ specialize (Hun EmptyString EmptyString eq_refl).
  by rewrite !append_nil in Hun. }
apply HasPrefix_slash in Hslash as Hr. destruct Hr as [r ->].
split.
- unfold url_Parse. rewrite Cut_absent by done.
  unfold url_parse. rewrite Hctl.
  change (String.eqb (String "/" r) "*") with false. cbv iota.
  change (url.getScheme (String "/" r)) with (Some (EmptyString, String "/" r)).
  cbv iota beta. change (ToLower EmptyString) with EmptyString.
  rewrite HasSuffix_absent by done. cbn [andb].
  rewrite Cut_absent by done. rewrite Hslash.
  cbn [negb andb orb String.eqb]. rewrite Hdouble, andb_false_r.
  unfold url.setPath. rewrite Hd.
  cbn [String.eqb]. eexists. split; [reflexivity |]. done.
- intros q Hne Hqctl Hqq Hqf.
  set (s := String "/" r +:+ String "?" q).
  assert (Hsf : Count s "#" = 0%nat).
  { unfold s. rewrite Count_app, Hf. cbn [Count]. by rewrite Hqf. }
  assert (Hsq : Count s "?" = 1%nat).
  { unfold s. rewrite Count_app, Hq. cbn [Count]. by rewrite Hqq. }
  assert (Hsuf : HasSuffix s "?" = false).
  { destruct (HasSuffix s "?") eqn:E; [| done].
    apply (HasSuffix_after (String "/" r)) in E; [| done].
    apply HasSuffix_Count in E. lia. }
  unfold url_Parse. rewrite Cut_absent by done.
  unfold url_parse.
  assert (url.stringContainsCTLByte s = false) as ->.
  { unfold s. rewrite stringContainsCTLByte_app. rewrite Hctl.
    cbn [url.stringContainsCTLByte orb]. by rewrite Hqctl. }
  change (String.eqb s "*") with false. cbv iota.
  change (url.getScheme s) with (Some (EmptyString, s)).
  cbv iota beta. change (ToLower EmptyString) with EmptyString.
  rewrite Hsuf. cbn [andb].
  assert (Hcut : Cut s "?" = (String "/" r, q, true)) by by apply Cut_first.
  rewrite Hcut, Hslash.
  cbn [negb andb orb String.eqb]. rewrite Hdouble, andb_false_r.
  unfold url.setPath. rewrite Hd.
  cbn [String.eqb]. eexists. split; [reflexivity |]. done.
Qed.

Lemma TrimSpace_slash (r : string) :
  String.eqb (TrimSpace (String "/" r)) "" = false.
Proof.
unfold TrimSpace.
change (TrimLeft_space (String "/" r)) with (String "/" r).
change (TrimRight_space (String "/" r))
  with (match TrimRight_space r with
        | EmptyString => String "/" EmptyString
        | String a b => String "/" (String a b)
        end).
by destruct (TrimRight_space r).
Qed.

(** A rooted path outside the base path is put behind it. *)
Lemma targetURL_joined (c : Client) (p : string) (rel : url.URL) :
  HasPrefix p "/" = true -> url_Parse p = inr rel ->
  url.Path (baseURL c) <> EmptyString -> url.Path rel <> EmptyString ->
  HasPrefix (url.Path rel) (url.Path (baseURL c)) = false ->
  exists u,
    targetURL c p = inr u /\
    url.Path u = TrimSuffix (url.Path (baseURL c)) "/" +:+ url.Path rel /\
    url.RawQuery u = url.RawQuery rel.
Proof.
intros Hslash Hparse Hbase Hrel Hout.
apply HasPrefix_slash in Hslash as Hr. destruct Hr as [r ->].
unfold targetURL. rewrite TrimSpace_slash.
change (HasPrefix (String "/" r) "http://") with false.
change (HasPrefix (String "/" r) "https://") with false.
cbn [orb]. rewrite Hslash. cbn [negb]. rewrite Hparse.
apply String.eqb_neq in Hbase, Hrel. rewrite Hrel, Hbase. cbn [negb andb].
rewrite Hout. by eexists.
Qed.

(** X22.  Whatever bytes the workspace and the repository slug hold, the
    requests of [GetPRDiff] and of [ListRepositories] can be built, their
    query is exactly what the function wrote (none for the diff), and the
    path of their URL is the API root followed by the workspace and the
    slug as given.  Escaping keeps a [?] or [#] of a name out of the query
    and the fragment; it is undone in the path, where a slash of a slug
    separates segments as any other. *)
Theorem bbcloud_request_URLs (c : bbcloud.Client) (ctx : Context) :
  url.Path (baseURL (bbcloud.client c)) = "/2.0" ->
  (forall repoSlug prID, exists req,
     NewRequest (bbcloud.client c) (Some ctx) "GET"
                (bbcloud.diff_path c repoSlug prID) NoPayload = inr req /\
     url.Path (URL req)
     = "/2.0/repositories/" +:+ bbcloud.workspace c +:+ "/" +:+ repoSlug
         +:+ "/pullrequests/" +:+ bbcloud.Itoa prID +:+ "/diff" /\
     url.RawQuery (URL req) = EmptyString) /\
  (forall pageLen page, exists req,
     NewRequest (bbcloud.client c) (Some ctx) "GET"
                (bbcloud.repositories_path c pageLen page) NoPayload
     = inr req /\
     url.Path (URL req) = "/2.0/repositories/" +:+ bbcloud.workspace c /\
     url.RawQuery (URL req)
     = "pagelen=" +:+ bbcloud.Itoa pageLen +:+ "&page=" +:+ bbcloud.Itoa page).
Proof.
intros Hbase.
assert (Hplain : forall s, Count s "%" = 0%nat -> Count s "?" = 0%nat ->
                           Count s "#" = 0%nat ->
                           url.stringContainsCTLByte s = false ->
                           path_text s s)
  by (intros; by apply path_text_plain).
assert (Hbuild : forall p u,
  targetURL (bbcloud.client c) p = inr u ->
  exists req, NewRequest (bbcloud.client c) (Some ctx) "GET" p NoPayload = inr req
              /\ URL req = u).
{ intros p u Hu. unfold NewRequest, NewRequestWithContext. rewrite Hu.
  by eexists. }
split.
- intros repoSlug prID.
  assert (Htext : path_text (bbcloud.diff_path c repoSlug prID)
                    ("/repositories/" +:+ bbcloud.workspace c +:+ "/"
                       +:+ repoSlug +:+ "/pullrequests/" +:+ bbcloud.Itoa prID
                       +:+ "/diff")).
  { unfold bbcloud.diff_path.
    repeat first [ apply path_text_app
                 | apply path_text_PathEscape
                 | apply path_text_Itoa
                 | by apply Hplain ]. }
  destruct (url_Parse_path_text _ _ Htext eq_refl eq_refl)
    as [(rel & Hparse & Hpath & Hquery) _].
  destruct (targetURL_joined (bbcloud.client c)
              (bbcloud.diff_path c repoSlug prID) rel eq_refl Hparse)
    as (u & Hu & Hupath & Huquery).
  + by rewrite Hbase.
  + by rewrite Hpath.
  + by rewrite Hbase, Hpath.
  + destruct (Hbuild _ _ Hu) as (req & Hreq & Hurl). exists req.
    split; [done |]. by rewrite Hurl, Hupath, Huquery, Hbase, Hpath, Hquery.
- intros pageLen page.
  assert (Htext : path_text ("/repositories/" +:+ bbcloud.PathEscape (bbcloud.workspace c))
                    ("/repositories/" +:+ bbcloud.workspace c)).
  { apply path_text_app; [by apply Hplain | apply path_text_PathEscape]. }
  destruct (url_Parse_path_text _ _ Htext eq_refl eq_refl) as [_ Hwith].
  destruct (path_text_app _ _ _ _
              (path_text_app _ _ _ _ (Hplain "pagelen=" eq_refl eq_refl eq_refl eq_refl)
                             (path_text_Itoa pageLen))
              (path_text_app _ _ _ _ (Hplain "&page=" eq_refl eq_refl eq_refl eq_refl)
                             (path_text_Itoa page)))
    as (Hqctl & Hqq & Hqf & _).
  destruct (Hwith ("pagelen=" +:+ bbcloud.Itoa pageLen +:+ "&page="
                     +:+ bbcloud.Itoa page))
    as (rel & Hparse & Hpath & Hquery).
  { intros Heq. rewrite append_cons in Heq. discriminate. }
  { by rewrite <- append_assoc. }
  { by rewrite <- append_assoc. }
  { by rewrite <- append_assoc. }
  assert (Hp : bbcloud.repositories_path c pageLen page
               = ("/repositories/" +:+ bbcloud.PathEscape (bbcloud.workspace c))
                   +:+ String "?" ("pagelen=" +:+ bbcloud.Itoa pageLen +:+ "&page="
                                     +:+ bbcloud.Itoa page)).
  { unfold bbcloud.repositories_path. by rewrite !append_assoc. }
  rewrite <- Hp in Hparse.
  destruct (targetURL_joined (bbcloud.client c)
              (bbcloud.repositories_path c pageLen page) rel eq_refl Hparse)
    as (u & Hu & Hupath & Huquery).
  + by rewrite Hbase.
  + by rewrite Hpath.
  + by rewrite Hbase, Hpath.
  + destruct (Hbuild _ _ Hu) as (req & Hreq & Hurl). exists req.
    split; [done |]. by rewrite Hurl, Hupath, Huquery, Hbase, Hpath, Hquery.
Qed.

End EscapedPaths.


(** [bbcloud_request_URLs] at a slug with a slash and a question mark. *)
Lemma bbcloud_request_URLs_witness :
  exists req,
    NewRequest (H := Plain.lib) (bbcloud.client Cloud.client)
               (Some Background) "GET"
               (bbcloud.diff_path Cloud.client "a/b?c" 7) NoPayload
    = inr req /\
    url.Path (URL req) = "/2.0/repositories/acme/a/b?c/pullrequests/7/diff" /\
    url.RawQuery (URL req) = EmptyString.
Proof.
destruct (bbcloud_request_URLs (H := Plain.lib) Cloud.client Background)
  as [Hdiff _]; [vm_compute; reflexivity |].
destruct (Hdiff "a/b?c" 7) as (req & Hreq & Hpath & Hquery).
exists req. split; [exact Hreq |]. split; [| exact Hquery].
rewrite Hpath. vm_compute. reflexivity.
Defined.

(** ** A delay the server asks for *)

Section RetryAfter.
Variable c : Client.

(** X23.  A [Retry-After] header that holds a whole number of seconds
    replaces the computed delay and is not cut to [MaxBackoff]: with an
    attempt left and a context that is never done, [backoff] waits exactly
    that long (not at all for zero or a negative number) and lets the loop
    go on. *)
Theorem retry_after_replaces_the_delay
        (ctx : Context) (attempts secs : Z) (resp : Response) (w : World) :
  attempts < MaxAttempts (retry c) -> done_at ctx = None ->
  strconv.Atoi (Get (RespHeader resp) "Retry-After") = Some secs ->
  min_int64 <= secs * Second <= max_int64 ->
  exists w',
    backoff c ctx attempts (Some resp) w = (true, None, w') /\
    now w' = now w + Z.max 0 (secs * Second) /\
    cache w' = cache w /\ rate w' = rate w /\ sent w' = sent w.
Proof.
intros Hlt Hctx Hatoi Hrange.
assert (Hne : Get (RespHeader resp) "Retry-After" <> EmptyString)
  by (intros Heq; rewrite Heq in Hatoi; discriminate).
pose proof (backoff_delay_retry_after c attempts secs resp Hne Hatoi Hrange)
  as Hdelay.
unfold backoff, is_done. rewrite Hdelay, Hctx.
destruct (Z.leb_spec (MaxAttempts (retry c)) attempts); [lia |].
destruct (Z.leb_spec (secs * Second) 0); eexists;
  (split; [reflexivity |]); cbn [now cache rate sent set_now];
  repeat split; lia.
Qed.

End RetryAfter.

(** [retry_after_replaces_the_delay] at a 429 that asks for two minutes,
    for a client whose backoff never exceeds two seconds. *)
Lemma retry_after_replaces_the_delay_witness :
  let c := Scenario.client Scenario.base_2_0 false Scenario.default_policy in
  exists w',
    backoff c Background 1
            (Some (Scenario.response 429 "429 Too Many Requests"
                     (Scenario.headers [("Retry-After", "120")]) ""))
            (fresh_world 0)
    = (true, None, w') /\
    now w' = 120 * Second.
Proof.
intros c.
destruct (retry_after_replaces_the_delay c Background 1 120
            (Scenario.response 429 "429 Too Many Requests"
               (Scenario.headers [("Retry-After", "120")]) "")
            (fresh_world 0))
  as (w' & Hb & Hnow & _).
- vm_compute. reflexivity.
- reflexivity.
- vm_compute. reflexivity.
- vm_compute. split; discriminate.
- exists w'. split; [exact Hb | exact Hnow].
Defined.

(** ** A body that cannot be decoded *)

Section Undecodable.
Context `{GoLib}.
Variable transport : Transport.
Variable c : Client.

(** X24.  The cache is written before the body is decoded.  When a GET of
    a caching client is answered 2xx with an ETag and a body that
    [json.Unmarshal] rejects, the call returns the decoder's error, and the
    body is in the cache all the same: a later 304 for the same request
    hands the same bytes to the decoder and fails in the same way. *)
Theorem undecodable_body_is_cached
        (req req0 : Request) (w : World) (resp : Response)
        (unmarshal : string -> option error) (e : error) :
  cloneRequest req = inr req0 ->
  enableCache c = true -> Method req = MethodGet ->
  result (transport (sent w) (conditional c w req0)) = inr resp ->
  200 <= StatusCode resp < 300 ->
  BodyErr resp = None -> RespBody resp <> EmptyString ->
  Get (RespHeader resp) "ETag" <> EmptyString ->
  unmarshal (RespBody resp) = Some e ->
  exists w',
    DoWithHeaders transport c (Some req) (TValue unmarshal) w
    = Some (mkOutcome (Some (RespHeader resp)) (Some e)
                      (Decoded (RespBody resp)), w') /\
    (exists t, cache w' !! cacheKey req
               = Some (mkCacheEntry (Get (RespHeader resp) "ETag")
                                    (RespBody resp) t)) /\
    cachedETag w' req = Get (RespHeader resp) "ETag" /\
    applyCachedResponse w' req (TValue unmarshal)
    = (Some e, Decoded (RespBody resp)).
Proof.
intros Hclone Hcache Hget Hres Hcode Herr Hbody Htag Hdecode.
set (r := conditional c w req0).
set (w1 := after_response transport w r resp).
assert (Hkey : cacheKey r = cacheKey req).
{ unfold r. rewrite cacheKey_conditional. unfold cacheKey.
  by destruct (cloneRequest_same req req0 Hclone) as (-> & -> & _). }
assert (Hm : String.eqb (Method r) MethodGet = true).
{ unfold r. destruct (conditional_same c w req0) as [-> _].
  destruct (cloneRequest_same req req0 Hclone) as (-> & _).
  by rewrite Hget. }
exists (storeCache w1 r (RespBody resp) (Get (RespHeader resp) "ETag")).
assert (Hstored : cache (storeCache w1 r (RespBody resp)
                                    (Get (RespHeader resp) "ETag"))
                  !! cacheKey req
                  = Some (mkCacheEntry (Get (RespHeader resp) "ETag")
                                       (RespBody resp) (now w1))).
{ unfold storeCache. apply String.eqb_neq in Htag, Hbody.
  rewrite Htag, Hbody. cbn [orb cache set_cache].
  by rewrite Hkey, lookup_insert_eq. }
apply String.eqb_neq in Htag as Htag', Hbody as Hbody'.
split; [| split; [by eexists | split]].
- cbn [DoWithHeaders]. apply attempt_loop_return.
  rewrite (turn_success transport c req req0 (TValue unmarshal) 0 w resp
             Hclone Hres Hcode).
  fold r w1. unfold deliver. rewrite Herr, Hcache, Hm, Htag', Hbody'.
  cbn [andb negb]. by rewrite Hdecode.
- unfold cachedETag. by rewrite Hstored.
- unfold applyCachedResponse. rewrite Hstored. cbn [body].
  by rewrite Hbody', Hdecode.
Qed.

End Undecodable.

(** [undecodable_body_is_cached] at a server that sends an ETag with a
    body the target rejects. *)
Lemma undecodable_body_is_cached_witness :
  let c := Scenario.client Scenario.base_2_0 true Scenario.default_policy in
  let strict := fun _ : string => Some (Foreign "unexpected end of JSON input") in
  exists req w',
    Scenario.get c Background "/repositories" = Some req /\
    DoWithHeaders (H := Plain.lib) (Scenario.versioned "v1" "{") c (Some req)
                  (TValue strict) (fresh_world 0)
    = Some (mkOutcome (Some (Set_ ∅ "ETag" "v1"))
                      (Some (Foreign "unexpected end of JSON input"))
                      (Decoded "{"), w') /\
    cachedETag (H := Plain.lib) w' req = "v1".
Proof.
intros c strict.
destruct (Scenario.get c Background "/repositories") as [req|] eqn:Hreq;
  [| vm_compute in Hreq; discriminate].
assert (Hclone : cloneRequest req = inr req)
  by (vm_compute in Hreq; by injection Hreq as <-).
assert (Hget : Method req = MethodGet)
  by (vm_compute in Hreq; by injection Hreq as <-).
assert (Hres : result (Scenario.versioned "v1" "{" (sent (fresh_world 0))
                         (conditional (H := Plain.lib) c (fresh_world 0) req))
               = inr (Scenario.response 200 "200 OK" (Set_ ∅ "ETag" "v1") "{"))
  by (vm_compute in Hreq; injection Hreq as <-; vm_compute; reflexivity).
destruct (undecodable_body_is_cached (H := Plain.lib)
            (Scenario.versioned "v1" "{") c req req (fresh_world 0)
            (Scenario.response 200 "200 OK" (Set_ ∅ "ETag" "v1") "{")
            strict (Foreign "unexpected end of JSON input")
            Hclone eq_refl Hget Hres)
  as (w' & Hdo & _ & Htag & _).
- cbn. lia.
- reflexivity.
- discriminate.
- vm_compute. discriminate.
- reflexivity.
- exists req, w'. split; [reflexivity |]. split; [exact Hdo | exact Htag].
Defined.
